(** * The BMSAD actor-definition decoder

    A shallow embedding of [mercury_engine_data_structures/formats/bmsad.py]:
    the [construct] declarations of the file become parsers over a list of
    bytes, the recursive schema lookup [find_charclass_for_type] becomes a
    recursion over the number of nested calls the interpreter allows, and
    the registries the module imports (type hierarchy, field schemas,
    string constructs) are the variables of the section that holds the
    decoder. *)

From Stdlib Require Import ZArith Ascii Bool Lia.
From Stdlib.Strings Require Import Byte.
From Stdlib Require String.
From stdpp Require Import base option list strings gmap.

Open Scope Z_scope.

(** ** Outcomes and exceptions *)

Inductive error_class : Type :=
| SwitchError      (* construct.SwitchError, given explicitly *)
| ExplicitError.   (* the class used when [ErrorWithMessage] gets none *)

(** The exceptions a decoding call can end with.  Those that
    [construct] raises while it parses record the path of names that
    leads to the failing construct: [At name e] is the exception [e]
    raised under the field, or under the key of a map, called [name], so
    that a path is read from the outside in; a key is a string read from
    the data.  [MessageError] is what [ErrorWithMessage(message, error)]
    raises: a class and a text.  The failure to decode the bytes of a
    string comes from the codec and has no path.  The last three are
    raised by the Python code that the constructs call (the lookups of
    [type_lib], the schema lookup) and by the interpreter; they are not
    exceptions of [construct] and have no path either. *)
Inductive exn : Type :=
| StreamError                                   (* read past the end of the data *)
| ConstError                                    (* [Const] read something else *)
| TerminatedError                               (* [Terminated] found bytes left *)
| StringError                                   (* the bytes of a string are not ASCII *)
| MessageError (cls : error_class) (message : string)
| DuplicateKeyError (key : string)              (* [DictAdapter] met a key twice *)
| At (name : string) (e : exn)
| UnknownTypeError (type_name : string)         (* a lookup of [type_lib] *)
| TypeError                                     (* [None[1:]] *)
| RecursionError.                               (* the interpreter's recursion limit *)

(** Whether an exception is raised with the path of its place. *)
Definition records_path (e : exn) : bool :=
  match e with
  | StringError | UnknownTypeError _ | TypeError | RecursionError => false
  | _ => true
  end.

(** An exception as it leaves the field [name]. *)
Definition under (name : string) (e : exn) : exn :=
  if records_path e then At name e else e.

(** The path an exception records, and the exception at its end. *)
Fixpoint path_of (e : exn) : list string :=
  match e with
  | At name e' => name :: path_of e'
  | _ => []
  end.

Fixpoint cause (e : exn) : exn :=
  match e with
  | At _ e' => cause e'
  | _ => e
  end.

Variant result (A : Type) : Type :=
| Ok (a : A)
| Raise (e : exn).
Arguments Ok {A} a.
Arguments Raise {A} e.

(** An [outcome] is [Some] of a value or of an exception; [None] stands
    for a call that does not return.  The constructs of the file are
    shown below to return on every input ([returns]): the one recursion
    that the data does not bound, that of the schema lookup, is ended by
    the interpreter. *)
Definition outcome (A : Type) : Type := option (result A).

(** A parser reads from the front of the remaining data and gives back
    what is left. *)
Definition Parser (A : Type) : Type := list byte -> outcome (A * list byte).

(** A construct of a library module outside this file: it always returns
    or raises. *)
Definition Construct (A : Type) : Type := list byte -> result (A * list byte).

Definition lift {A} (c : Construct A) : Parser A := fun s => Some (c s).

Definition ret {A} (a : A) : Parser A := fun s => Some (Ok (a, s)).

Definition raise {A} (e : exn) : Parser A := fun _ => Some (Raise e).

Definition bind {A B} (p : Parser A) (k : A -> Parser B) : Parser B :=
  fun s =>
    match p s with
    | Some (Ok (a, rest)) => k a rest
    | Some (Raise e) => Some (Raise e)
    | None => None
    end.

Notation "'let*' x ':=' p 'in' k" := (bind p (fun x => k))
  (at level 10, x pattern, p at level 100, k at level 200).

(** [Construct.parse(data)]: run on the whole data, keep the value. *)
Definition parse {A} (p : Parser A) (data : list byte) : outcome A :=
  match p data with
  | Some (Ok (a, _)) => Some (Ok a)
  | Some (Raise e) => Some (Raise e)
  | None => None
  end.

(** The value of a Python expression that a construct evaluates while it
    parses (the condition of an [If], the key of a [Switch]): nothing is
    read, and an exception of the expression is the outcome. *)
Definition evaluate {A} (value : result A) : Parser A :=
  fun s =>
    match value with
    | Ok a => Some (Ok (a, s))
    | Raise e => Some (Raise e)
    end.

(** ** The [construct] primitives the file uses *)

#[global] Instance byte_eq_decision : EqDecision byte := Byte.byte_eq_dec.

Definition byte_val (b : byte) : Z := Z.of_N (Byte.to_N b).

(** Little-endian unsigned value of a run of bytes. *)
Fixpoint le_uint (bs : list byte) : Z :=
  match bs with
  | [] => 0
  | b :: bs' => byte_val b + 256 * le_uint bs'
  end.

(** [stream_read]: exactly [n] bytes or [StreamError]. *)
Definition stream_read (n : nat) : Parser (list byte) :=
  fun s =>
    if (length s <? n)%nat then Some (Raise StreamError)
    else Some (Ok (take n s, drop n s)).

(** [name / subcon], and a keyword argument of [Struct]: the subcon,
    whose errors get the name on their path. *)
Definition Renamed {A} (name : string) (subcon : Parser A) : Parser A :=
  fun s =>
    match subcon s with
    | Some (Ok v) => Some (Ok v)
    | Some (Raise e) => Some (Raise (under name e))
    | None => None
    end.

Definition Byte : Parser Z :=
  let* bs := stream_read 1 in ret (le_uint bs).

Definition Int16ul : Parser Z :=
  let* bs := stream_read 2 in ret (le_uint bs).

Definition Int32ul : Parser Z :=
  let* bs := stream_read 4 in ret (le_uint bs).

(** [Float32l]: four bytes; the value is kept as its IEEE-754 bit pattern. *)
Definition Float32l : Parser Z :=
  let* bs := stream_read 4 in ret (le_uint bs).

(** [Flag]: one byte, true unless it is zero. *)
Definition Flag : Parser bool :=
  let* bs := stream_read 1 in ret (negb (le_uint bs =? 0)).

(** [Const(b"....")]: the bytes themselves. *)
Definition Const_bytes (expected : list byte) : Parser (list byte) :=
  let* bs := stream_read (length expected) in
  if bool_decide (bs = expected) then ret bs else raise ConstError.

(** [Const(value, subcon)]. *)
Definition Const (expected : Z) (subcon : Parser Z) : Parser Z :=
  let* v := subcon in
  if v =? expected then ret v else raise ConstError.

(** [Terminated]: succeeds only at the end of the data. *)
Definition Terminated : Parser unit :=
  fun s =>
    match s with
    | [] => Some (Ok (tt, []))
    | _ :: _ => Some (Raise TerminatedError)
    end.

(** [Pass]: the default of a [Switch] without one; reads nothing. *)
Definition Pass : Parser unit := ret tt.

(** [Array(count, subcon)]. *)
Fixpoint Array {A} (count : nat) (subcon : Parser A) : Parser (list A) :=
  match count with
  | O => ret []
  | S n =>
      let* x := subcon in
      let* xs := Array n subcon in
      ret (x :: xs)
  end.

(** [PrefixedArray(countfield, subcon)]. *)
Definition PrefixedArray {A} (countfield : Parser Z) (subcon : Parser A)
  : Parser (list A) :=
  let* count := countfield in Array (Z.to_nat count) subcon.

(** [If(cond, subcon)]: [None], reading nothing, when the condition is false. *)
Definition If {A} (cond : bool) (subcon : Parser A) : Parser (option A) :=
  if cond then (let* v := subcon in ret (Some v)) else ret None.

(** [a >> b], a two-element [Sequence]. *)
Definition Sequence2 {A B} (a : Parser A) (b : Parser B) : Parser (A * B) :=
  let* x := a in let* y := b in ret (x, y).

(** [PaddedString(1, 'ascii')]: one byte, trailing NUL padding stripped,
    decoded as ASCII. *)
Definition Char : Parser string :=
  let* bs := stream_read 1 in
  match bs with
  | [b] =>
      if byte_val b =? 0 then ret ""
      else if byte_val b <? 128 then ret (String (ascii_of_byte b) "")
      else raise StringError
  | _ => raise StreamError
  end.

(** [Switch(key, cases, default)] over a lookup of the cases. *)
Definition Switch {K A} (key : K) (cases : K -> option (Parser A))
    (default : Parser A) : Parser A :=
  match cases key with
  | Some p => p
  | None => default
  end.

(** Lookup in a Python dict written out as a literal, in insertion order. *)
Fixpoint dict_get {A} (d : list (string * A)) (k : string) : option A :=
  match d with
  | [] => None
  | (k', v) :: d' => if String.eqb k k' then Some v else dict_get d' k
  end.

(** ** The helpers of the package that the file imports *)

(** Modelled from the spec: [construct_extensions.misc.ErrorWithMessage],
    which is not part of the sources at hand.  It raises, with the text
    its message function computes from the context, an error of the
    class it is given, and of its own default class when given none.
    The error is one of [construct]: the fields around the helper put
    their names on its path. *)
Definition ErrorWithMessage {A} (message : string) (error : error_class)
  : Parser A := raise (MessageError error message).

(** Modelled from the spec: [common_types.make_vector], not part of the
    sources at hand: a 32-bit element count, then that many elements. *)
Definition make_vector {A} (value : Parser A) : Parser (list A) :=
  let* count := Int32ul in Array (Z.to_nat count) value.

(** Modelled from the spec: [common_types.DictElement], not part of the
    sources at hand: a key, then the value.  An error in the value is
    reported under the key that was read: the key is part of the path. *)
Definition DictElement {A} (field : Parser A) (key : Parser string)
  : Parser (string * A) :=
  let* k := key in let* v := Renamed k field in ret (k, v).

(** Modelled from the spec: the decoding side of [common_types.DictAdapter],
    not part of the sources at hand.  The items become a map that keeps
    the order of the file; a key met a second time is fatal. *)
Fixpoint dict_of_items {A} (acc items : list (string * A))
  : result (list (string * A)) :=
  match items with
  | [] => Ok acc
  | (k, v) :: items' =>
      if bool_decide (k ∈ acc.*1) then Raise (DuplicateKeyError k)
      else dict_of_items (acc ++ [(k, v)]) items'
  end.

Definition DictAdapter {A} (subcon : Parser (list (string * A)))
  : Parser (list (string * A)) :=
  fun s =>
    match subcon s with
    | Some (Ok (items, rest)) =>
        match dict_of_items [] items with
        | Ok d => Some (Ok (d, rest))
        | Raise e => Some (Raise e)
        end
    | Some (Raise e) => Some (Raise e)
    | None => None
    end.

(** Modelled from the spec: [construct_extensions.alignment.PrefixedAllowZeroLen],
    not part of the sources at hand: a 32-bit byte count, which may be
    zero, then the content, decoded from exactly that many bytes.  For
    what the spec adds to this (a value of its own for a block of length
    zero, an error for bytes of the block left unread) the helper is
    taken to be what its name says, the [Prefixed] of [construct] with a
    length of zero let through.  A length of zero gives [None] and reads
    nothing more, with no call of the subcon.  Any other length is
    handled as [Prefixed] handles it: that many bytes are taken out of
    the data and the subcon runs on them alone, so that it cannot read
    past them; what it leaves of them is dropped, with no check. *)
Definition PrefixedAllowZeroLen {A} (lengthfield : Parser Z)
    (subcon : Parser A) : Parser (option A) :=
  let* len := lengthfield in
  if len =? 0 then ret None
  else
    let* window := stream_read (Z.to_nat len) in
    fun rest =>
      match subcon window with
      | Some (Ok (v, _)) => Some (Ok (Some v, rest))
      | Some (Raise e) => Some (Raise e)
      | None => None
      end.

(** Python's [s[1:]].  Strings are sequences of bytes here; the names
    of types are ASCII identifiers. *)
Definition slice_from_1 (s : string) : string :=
  match s with
  | EmptyString => EmptyString
  | String _ s' => s'
  end.

(** ** The values the decoder builds *)

Inductive ArgumentValue : Type :=
| ArgString (s : string)
| ArgFloat (bits : Z)
| ArgBool (b : bool)
| ArgInt (n : Z).

Record FunctionArgumentContainer : Type := {
  arg_type : string;
  arg_value : ArgumentValue;
}.

Record FunctionContainer : Type := {
  fn_name : string;
  fn_unk : Z;
  fn_params : list (string * FunctionArgumentContainer);
}.

Inductive ExtraValue : Type :=
| ExtraBool (b : bool)
| ExtraString (s : string).

Record ExtraFieldContainer : Type := {
  extra_type : string;
  extra_value : ExtraValue;
}.

Record FXItem : Type := {
  fx_file : string; fx_unk1 : Z; fx_unk2 : Z; fx_unk3 : Z;
}.

Record GrabUnk8 : Type := { g8_unk2 : Z; g8_unk1 : list Z }.

Record GrabItem : Type := {
  grab_unk1 : string; grab_unk2 : string; grab_unk3 : string;
  grab_unk4 : Z; grab_unk5 : Z; grab_unk6 : Z; grab_unk7 : Z;
  grab_unk8 : list GrabUnk8;
}.

Record BillboardUnk1 : Type := {
  bb1_id : string; bb1_unk1 : list Z; bb1_unk2 : Z;
  bb1_unk3 : list Z; bb1_unk4 : Z;
}.

Record BillboardUnk2 : Type := {
  bb2_id : string; bb2_unk1 : Z; bb2_unk2 : list Z;
}.

(** What the [dependencies] field holds: [DepNone] is the [None] of the
    default [Pass]; the others are the layouts of [component_dependencies]. *)
Inductive DependencyValue : Type :=
| DepNone
| DepFX (items : list FXItem)
| DepCollision (file : string) (unk : Z)
| DepGrab (items : list GrabItem)
| DepBillboard (id1 : string) (unk1 : list BillboardUnk1)
               (id2 : string) (unk2 : list BillboardUnk2)
| DepSwarm (unk1 unk2 unk3 : list string).

Record FieldsStruct (F : Type) : Type := {
  empty_string : string;
  root : string;
  fields_of_type : F;
}.
Arguments empty_string {F} _.
Arguments root {F} _.
Arguments fields_of_type {F} _.

(** [comp_fields] is [None] for a field block of length zero, the same
    value that [comp_extra_fields] has when the entry is absent. *)
Record ComponentContainer (F : Type) : Type := {
  comp_type : string;
  comp_unk_1 : list Z;
  comp_fields : option (FieldsStruct F);
  comp_extra_fields : option (list (string * ExtraFieldContainer));
  comp_functions : list FunctionContainer;
  comp_dependencies : DependencyValue;
}.
Arguments comp_type {F} _.
Arguments comp_unk_1 {F} _.
Arguments comp_fields {F} _.
Arguments comp_extra_fields {F} _.
Arguments comp_functions {F} _.
Arguments comp_dependencies {F} _.

Record CCharClassContainer (F : Type) : Type := {
  cc_model_name : string;
  cc_unk_1 : Z;
  cc_unk_2 : Z;
  cc_unk_3 : Z;
  cc_sub_actors : list string;
  cc_unk_4 : list Z;
  cc_magic : Z;
  cc_unk_5 : Z;
  cc_unk_6 : string;
  cc_unk_7 : Z;
  cc_components : list (string * ComponentContainer F);
  cc_binaries : list string;
  cc_sources : list (string * Z);
}.

Record CActorDefContainer (F : Type) : Type := {
  ad_unk_1 : Z;
  ad_unk_2 : Z;
  ad_unk_3 : Z;
  ad_sub_actors : list string;
  ad_unk_4 : string;
  ad_components : list (string * ComponentContainer F);
  ad_binaries : list string;
  ad_sources : list (string * Z);
}.
Arguments cc_components {F} _.
Arguments cc_magic {F} _.
Arguments cc_unk_4 {F} _.
Arguments cc_sub_actors {F} _.
Arguments cc_binaries {F} _.
Arguments cc_sources {F} _.
Arguments ad_unk_1 {F} _.
Arguments ad_unk_2 {F} _.
Arguments ad_unk_3 {F} _.
Arguments ad_sub_actors {F} _.
Arguments ad_unk_4 {F} _.
Arguments ad_components {F} _.
Arguments ad_binaries {F} _.
Arguments ad_sources {F} _.

Inductive PropertyValue (F : Type) : Type :=
| PropCharClass (c : CCharClassContainer F)
| PropActorDef (a : CActorDefContainer F).
Arguments PropCharClass {F} c.
Arguments PropActorDef {F} a.

Record BMSADContainer (F : Type) : Type := {
  bmsad_magic : list byte;
  bmsad_version : Z;
  bmsad_name : string;
  bmsad_type : string;
  bmsad_property : PropertyValue F;
}.
Arguments bmsad_magic {F} _.
Arguments bmsad_version {F} _.
Arguments bmsad_name {F} _.
Arguments bmsad_type {F} _.
Arguments bmsad_property {F} _.

(** ** The decoder *)

Section Decoder.

(** What the file takes from the modules it imports: the constructs of
    [dread_types] by name, the two lookups of [type_lib], the string
    constructs [StrId] and [PropertyEnum], and the key construct that
    [DictElement] and [make_dict] use when none is given.  The parent of
    a type is [None] at a root of the hierarchy; both lookups can
    raise. *)
Variable FieldsValue : Type.
Variable fieldtypes : gmap string (Construct FieldsValue).
Variable get_parent_for : string -> result (option string).
Variable is_child_of : string -> string -> result bool.
Variable StrId_construct : Construct string.
Variable PropertyEnum_construct : Construct string.
Variable DictElement_key_construct : Construct string.

(** The number of nested calls of [find_charclass_for_type] that the
    recursion limit of the interpreter leaves room for. *)
Variable depth : nat.

Definition StrId : Parser string := lift StrId_construct.
Definition PropertyEnum : Parser string := lift PropertyEnum_construct.
Definition DictElement_key : Parser string := lift DictElement_key_construct.

(** Modelled from the spec: [common_types.Float], not part of the
    sources at hand: the 32-bit float. *)
Definition Float : Parser Z := Float32l.

Definition FunctionArgument_cases (type : string)
  : option (Parser ArgumentValue) :=
  dict_get
    [ ("s", let* v := StrId in ret (ArgString v));
      ("f", let* v := Float in ret (ArgFloat v));
      ("b", let* v := Flag in ret (ArgBool v));
      ("i", let* v := Int32ul in ret (ArgInt v)) ] type.

Definition FunctionArgument : Parser FunctionArgumentContainer :=
  let* type := Renamed "type" Char in
  let* value :=
    Renamed "value"
      (Switch type FunctionArgument_cases
         (ErrorWithMessage ("Unknown argument type: " +:+ type) SwitchError)) in
  ret {| arg_type := type; arg_value := value |}.

(** The [Struct] of one function, the element of the vector [Functions]. *)
Definition Function : Parser FunctionContainer :=
  let* name := Renamed "name" StrId in
  let* unk := Renamed "unk" Int16ul in
  let* params :=
    Renamed "params"
      (DictAdapter (make_vector (DictElement FunctionArgument PropertyEnum))) in
  ret {| fn_name := name; fn_unk := unk; fn_params := params |}.

Definition Functions : Parser (list FunctionContainer) :=
  make_vector Function.

(** [find_charclass_for_type].  The argument is [None] when the call is
    made with the parent of a root, and the slice of [None] is a
    [TypeError]; a call made when the interpreter has no room for a
    further one ends with its [RecursionError]. *)
Fixpoint find_charclass_for_type (budget : nat) (type_name : option string)
  : outcome string :=
  match budget with
  | O => Some (Raise RecursionError)
  | S budget' =>
      match type_name with
      | None => Some (Raise TypeError)
      | Some type_name =>
          if String.eqb type_name "CActorComponent"
          then Some (Ok "CActorComponentDef")
          else
            let as_char := "CCharClass" +:+ slice_from_1 type_name in
            if bool_decide (is_Some (fieldtypes !! as_char)) then Some (Ok as_char)
            else
              match get_parent_for type_name with
              | Ok parent => find_charclass_for_type budget' parent
              | Raise e => Some (Raise e)
              end
      end
  end.

Definition FXLayout : Parser DependencyValue :=
  let* items :=
    make_vector
      (let* file := Renamed "file" StrId in
       let* unk1 := Renamed "unk1" Int32ul in
       let* unk2 := Renamed "unk2" Int32ul in
       let* unk3 := Renamed "unk3" Byte in
       ret {| fx_file := file; fx_unk1 := unk1; fx_unk2 := unk2; fx_unk3 := unk3 |}) in
  ret (DepFX items).

Definition CollisionLayout : Parser DependencyValue :=
  let* file := Renamed "file" StrId in
  let* unk := Renamed "unk" Int16ul in
  ret (DepCollision file unk).

Definition GrabLayout : Parser DependencyValue :=
  let* items :=
    make_vector
      (let* unk1 := Renamed "unk1" StrId in
       let* unk2 := Renamed "unk2" StrId in
       let* unk3 := Renamed "unk3" StrId in
       let* unk4 := Renamed "unk4" Float32l in
       let* unk5 := Renamed "unk5" Byte in
       let* unk6 := Renamed "unk6" Byte in
       let* unk7 := Renamed "unk7" Int16ul in
       let* unk8 :=
         Renamed "unk8"
           (Array 2
              (let* u2 := Renamed "unk2" Int16ul in
               let* u1 := Renamed "unk1" (Array 8 Float32l) in
               ret {| g8_unk2 := u2; g8_unk1 := u1 |})) in
       ret {| grab_unk1 := unk1; grab_unk2 := unk2; grab_unk3 := unk3;
              grab_unk4 := unk4; grab_unk5 := unk5; grab_unk6 := unk6;
              grab_unk7 := unk7; grab_unk8 := unk8 |}) in
  ret (DepGrab items).

Definition BillboardLayout : Parser DependencyValue :=
  let* id1 := Renamed "id1" StrId in
  let* unk1 :=
    Renamed "unk1"
      (make_vector
         (let* id := Renamed "id" StrId in
          let* u1 := Renamed "unk1" (Array 3 Int32ul) in
          let* u2 := Renamed "unk2" Byte in
          let* u3 := Renamed "unk3" (Array 2 Int32ul) in
          let* u4 := Renamed "unk4" Float32l in
          ret {| bb1_id := id; bb1_unk1 := u1; bb1_unk2 := u2;
                 bb1_unk3 := u3; bb1_unk4 := u4 |})) in
  let* id2 := Renamed "id2" StrId in
  let* unk2 :=
    Renamed "unk2"
      (make_vector
         (let* id := Renamed "id" StrId in
          let* u1 := Renamed "unk1" Byte in
          let* u2 := Renamed "unk2" (Array 4 Int32ul) in
          ret {| bb2_id := id; bb2_unk1 := u1; bb2_unk2 := u2 |})) in
  ret (DepBillboard id1 unk1 id2 unk2).

Definition SwarmControllerLayout : Parser DependencyValue :=
  let* unk1 := Renamed "unk1" (make_vector StrId) in
  let* unk2 := Renamed "unk2" (make_vector StrId) in
  let* unk3 := Renamed "unk3" (make_vector StrId) in
  ret (DepSwarm unk1 unk2 unk3).

(** The dict built in [Dependencies], in insertion order: the five
    literal entries, then the alias added by assignment. *)
Definition component_dependencies : list (string * Parser DependencyValue) :=
  [ ("CFXComponent", FXLayout);
    ("CCollisionComponent", CollisionLayout);
    ("CGrabComponent", GrabLayout);
    ("CBillboardComponent", BillboardLayout);
    ("CSwarmControllerComponent", SwarmControllerLayout);
    ("CStandaloneFXComponent", FXLayout) ].

(** The loop of [component_type] over the keys of a dict; an exception
    of [is_child_of] ends it. *)
Fixpoint first_base (this_type : string) (keys : list string)
  : result (option string) :=
  match keys with
  | [] => Ok None
  | k :: keys' =>
      match is_child_of this_type k with
      | Ok true => Ok (Some k)
      | Ok false => first_base this_type keys'
      | Raise e => Raise e
      end
  end.

Definition component_type (this_type : string) : result (option string) :=
  first_base this_type component_dependencies.*1.

(** [Switch(component_type, component_dependencies)]: no default is
    given, so a key that is not in the dict (here [None]) selects [Pass]. *)
Definition Dependencies (this_type : string) : Parser DependencyValue :=
  let* key := evaluate (component_type this_type) in
  Switch key
    (fun key => k ← key; dict_get component_dependencies k)
    (let* _ := Pass in ret DepNone).

(** The inner [Struct] of the field block of a component of type [type]. *)
Definition Component_fields (type : string) : Parser (FieldsStruct FieldsValue) :=
  let* empty_string := Renamed "empty_string" PropertyEnum in
  let* root := Renamed "root" PropertyEnum in
  let* fields :=
    Renamed "fields"
      (fun s =>
         match find_charclass_for_type depth (Some type) with
         | Some (Ok name) =>
             Switch name (fun k => lift <$> fieldtypes !! k)
               (ErrorWithMessage ("Unknown component type: " +:+ type) SwitchError) s
         | Some (Raise e) => Some (Raise e)
         | None => None
         end) in
  ret {| empty_string := empty_string; root := root; fields_of_type := fields |}.

Definition ExtraField_cases (type : string) : option (Parser ExtraValue) :=
  dict_get
    [ ("bool", let* v := Flag in ret (ExtraBool v));
      ("string", let* v := StrId in ret (ExtraString v)) ] type.

Definition ExtraField : Parser ExtraFieldContainer :=
  let* type := Renamed "type" StrId in
  let* value :=
    Renamed "value"
      (Switch type ExtraField_cases
         (ErrorWithMessage ("Unknown argument type: " +:+ type) SwitchError)) in
  ret {| extra_type := type; extra_value := value |}.

(** The [extra_fields] entry of a component of type [type]. *)
Definition Component_extra_fields (type : string)
  : Parser (option (list (string * ExtraFieldContainer))) :=
  let* cond := evaluate (is_child_of type "CComponent") in
  If cond (DictAdapter (make_vector (DictElement ExtraField DictElement_key))).

Definition Component : Parser (ComponentContainer FieldsValue) :=
  let* type := Renamed "type" StrId in
  let* unk_1 := Renamed "unk_1" (Array 2 Int32ul) in
  let* fields :=
    Renamed "fields" (PrefixedAllowZeroLen Int32ul (Component_fields type)) in
  let* extra_fields := Renamed "extra_fields" (Component_extra_fields type) in
  let* functions := Renamed "functions" Functions in
  let* dependencies := Renamed "dependencies" (Dependencies type) in
  ret {| comp_type := type; comp_unk_1 := unk_1; comp_fields := fields;
         comp_extra_fields := extra_fields; comp_functions := functions;
         comp_dependencies := dependencies |}.

(** Modelled from the spec: [common_types.make_dict], not part of the
    sources at hand, composed as the file itself composes its other
    maps: a [DictAdapter] over a vector of [DictElement]s. *)
Definition make_dict {A} (value : Parser A) : Parser (list (string * A)) :=
  DictAdapter (make_vector (DictElement value DictElement_key)).

Definition CCharClass : Parser (CCharClassContainer FieldsValue) :=
  let* model_name := Renamed "model_name" StrId in
  let* unk_1 := Renamed "unk_1" Int16ul in
  let* unk_2 := Renamed "unk_2" Int32ul in
  let* unk_3 := Renamed "unk_3" Int16ul in
  let* sub_actors := Renamed "sub_actors" (PrefixedArray Int32ul StrId) in
  let* unk_4 := Renamed "unk_4" (Array 9 Float32l) in
  let* magic := Renamed "magic" (Const 0xFFFFFFFF Int32ul) in
  let* unk_5 := Renamed "unk_5" Byte in
  let* unk_6 := Renamed "unk_6" StrId in
  let* unk_7 := Renamed "unk_7" Byte in
  let* components := Renamed "components" (make_dict Component) in
  let* binaries := Renamed "binaries" (make_vector StrId) in
  let* sources := Renamed "sources" (make_vector (Sequence2 StrId Byte)) in
  ret {| cc_model_name := model_name; cc_unk_1 := unk_1; cc_unk_2 := unk_2;
         cc_unk_3 := unk_3; cc_sub_actors := sub_actors; cc_unk_4 := unk_4;
         cc_magic := magic; cc_unk_5 := unk_5; cc_unk_6 := unk_6;
         cc_unk_7 := unk_7; cc_components := components;
         cc_binaries := binaries; cc_sources := sources |}.

Definition CActorDef : Parser (CActorDefContainer FieldsValue) :=
  let* unk_1 := Renamed "unk_1" Int16ul in
  let* unk_2 := Renamed "unk_2" Int32ul in
  let* unk_3 := Renamed "unk_3" Int16ul in
  let* sub_actors := Renamed "sub_actors" (PrefixedArray Int32ul StrId) in
  let* unk_4 := Renamed "unk_4" StrId in
  let* components := Renamed "components" (make_dict Component) in
  let* binaries := Renamed "binaries" (make_vector StrId) in
  let* sources := Renamed "sources" (make_vector (Sequence2 StrId Byte)) in
  ret {| ad_unk_1 := unk_1; ad_unk_2 := unk_2; ad_unk_3 := unk_3;
         ad_sub_actors := sub_actors; ad_unk_4 := unk_4;
         ad_components := components; ad_binaries := binaries;
         ad_sources := sources |}.

Definition property_types (type : string)
  : option (Parser (PropertyValue FieldsValue)) :=
  dict_get
    [ ("CCharClass", let* c := CCharClass in ret (PropCharClass c));
      ("CActorDef", let* a := CActorDef in ret (PropActorDef a)) ] type.

Definition BMSAD : Parser (BMSADContainer FieldsValue) :=
  let* magic := Renamed "magic" (Const_bytes (String.list_byte_of_string "MSAD")) in
  let* version := Renamed "version" (Const 0x0200000F Int32ul) in
  let* name := Renamed "name" StrId in
  let* type := Renamed "type" StrId in
  let* property :=
    Renamed "property"
      (Switch type property_types
         (ErrorWithMessage ("Unknown property type: " +:+ type) ExplicitError)) in
  let* _end := Renamed "_end" Terminated in
  ret {| bmsad_magic := magic; bmsad_version := version; bmsad_name := name;
         bmsad_type := type; bmsad_property := property |}.

End Decoder.

(** ** The type hierarchy registry *)

Module TypeLib.

(** Modelled from the spec: [type_lib.get_parent_for], not part of the
    sources at hand, over a table that gives every registered type its
    parent, [None] for a root: the parent of a type, and
    [UnknownTypeError] for a type with no entry. *)
Definition get_parent_for (parents : gmap string (option string))
    (type_name : string) : result (option string) :=
  match parents !! type_name with
  | Some parent => Ok parent
  | None => Raise (UnknownTypeError type_name)
  end.

(** Modelled from the spec: [type_lib.is_child_of], not part of the
    sources at hand: true when the two names are equal or the second is
    reached from the first by repeated parent lookups, false when a root
    is passed without meeting it.  The failure of a parent lookup, at a
    type with no entry, is the failure of the call, and so is the end of
    the [bound] nested calls that the interpreter has room for. *)
Fixpoint is_child_of (parents : gmap string (option string)) (bound : nat)
    (type_name : option string) (parent_name : string) : result bool :=
  match bound with
  | O => Raise RecursionError
  | S bound' =>
      match type_name with
      | None => Ok false
      | Some type_name =>
          if String.eqb type_name parent_name then Ok true
          else
            match get_parent_for parents type_name with
            | Ok parent => is_child_of parents bound' parent parent_name
            | Raise e => Raise e
            end
      end
  end.

End TypeLib.

(** ** What an error mentions *)

(** The text an exception carries. *)
Fixpoint exn_message (e : exn) : string :=
  match e with
  | MessageError _ message => message
  | DuplicateKeyError key => key
  | UnknownTypeError type_name => type_name
  | At _ e' => exn_message e'
  | _ => ""
  end.

Fixpoint is_infix (needle hay : string) : bool :=
  if String.prefix needle hay then true
  else
    match hay with
    | EmptyString => false
    | String _ hay' => is_infix needle hay'
    end.

Definition mentions (e : exn) (text : string) : bool :=
  is_infix text (exn_message e).

(** ** Concrete registries and data, used by the examples *)

Module Examples.

(** A NUL-terminated string construct, standing in for the string
    constructs of the package. *)
Fixpoint CString_split (s : list byte) : option (list byte * list byte) :=
  match s with
  | [] => None
  | b :: rest =>
      if bool_decide (b = x00) then Some ([], rest)
      else
        match CString_split rest with
        | Some (text, rest') => Some (b :: text, rest')
        | None => None
        end
  end.

Definition CString : Construct string :=
  fun s =>
    match CString_split s with
    | Some (text, rest) => Ok (String.string_of_list_byte text, rest)
    | None => Raise StreamError
    end.

Definition cstr (s : string) : list byte := String.list_byte_of_string s ++ [x00].

(** A one-byte field layout, standing in for a construct of [dread_types]. *)
Definition OneByte : Construct Z :=
  fun s =>
    match s with
    | [] => Raise StreamError
    | b :: rest => Ok (byte_val b, rest)
    end.

Definition schemas : gmap string (Construct Z) :=
  {[ "CCharClassFooComponent" := OneByte ]}.

Definition no_schemas : gmap string (Construct Z) := ∅.

(** A small hierarchy: Bar under Foo under the root CComponent; CPlain
    is a root of its own; Orphan's parent is not registered. *)
Definition parents : gmap string (option string) :=
  {[ "CFooComponent" := Some "CComponent";
     "CBarComponent" := Some "CFooComponent";
     "COrphanComponent" := Some "CBase";
     "CComponent" := None;
     "CPlain" := None ]}.

(** A table with a cycle. *)
Definition cyclic_parents : gmap string (option string) :=
  {[ "CLoopA" := Some "CLoopB"; "CLoopB" := Some "CLoopA" ]}.

(** A table in which one listed dependency base descends from another. *)
Definition nested_parents : gmap string (option string) :=
  {[ "CCollisionComponent" := Some "CFXComponent";
     "CMyCollision" := Some "CCollisionComponent";
     "CFXComponent" := None ]}.

(** A measure of the height of a type in [parents]. *)
Definition rank (type_name : string) : nat :=
  if String.eqb type_name "CBarComponent" then 2
  else if String.eqb type_name "CFooComponent" then 1
  else if String.eqb type_name "COrphanComponent" then 1
  else 0.

(** [type_lib.is_child_of] over a table, with room for [depth] nested
    calls. *)
Definition child_of (table : gmap string (option string)) (depth : nat)
    (type_name parent_name : string) : result bool :=
  TypeLib.is_child_of table depth (Some type_name) parent_name.

Definition decode (fieldtypes : gmap string (Construct Z))
    (table : gmap string (option string)) (depth : nat) (data : list byte)
  : outcome (BMSADContainer Z) :=
  parse (BMSAD Z fieldtypes (TypeLib.get_parent_for table)
           (child_of table depth) CString CString CString depth) data.

Definition decode_component (fieldtypes : gmap string (Construct Z))
    (table : gmap string (option string)) (depth : nat)
  : Parser (ComponentContainer Z) :=
  Component Z fieldtypes (TypeLib.get_parent_for table)
    (child_of table depth) CString CString CString depth.

Definition header (type : string) : list byte :=
  String.list_byte_of_string "MSAD" ++ [x0f; x00; x00; x02] ++ cstr "test" ++ cstr type.

(** An actor body with nothing in it: three scalars, no sub-actors, an
    empty string, no components, no binaries, no sources. *)
Definition empty_actor_body : list byte :=
  [x01; x00] ++ [x02; x00; x00; x00] ++ [x03; x00]
  ++ [x00; x00; x00; x00] ++ cstr ""
  ++ [x00; x00; x00; x00] ++ [x00; x00; x00; x00] ++ [x00; x00; x00; x00].

(** The field block of a Foo component: seven bytes of content. *)
Definition foo_block : list byte :=
  [x07; x00; x00; x00] ++ cstr "" ++ cstr "Root" ++ [x2a].

(** The same content in a block that declares eight bytes: the last
    byte of the block is read by nothing. *)
Definition slack_block : list byte :=
  [x08; x00; x00; x00] ++ cstr "" ++ cstr "Root" ++ [x2a] ++ [xee].

(** One extra property, [ENABLED : bool = true]. *)
Definition one_extra : list byte :=
  [x01; x00; x00; x00] ++ cstr "ENABLED" ++ cstr "bool" ++ [x01].

(** Two extra properties under the same key. *)
Definition twice_extra : list byte :=
  [x02; x00; x00; x00] ++ cstr "ENABLED" ++ cstr "bool" ++ [x01]
  ++ cstr "ENABLED" ++ cstr "bool" ++ [x00].

(** One function with one argument, [DAMAGE : i = 5]. *)
Definition one_function : list byte :=
  [x01; x00; x00; x00] ++ cstr "OnHit" ++ [x09; x00]
  ++ [x01; x00; x00; x00] ++ cstr "DAMAGE" ++ String.list_byte_of_string "i"
  ++ [x05; x00; x00; x00].

(** One function whose two arguments are both called [DAMAGE]. *)
Definition twice_function : list byte :=
  [x01; x00; x00; x00] ++ cstr "OnHit" ++ [x09; x00]
  ++ [x02; x00; x00; x00]
  ++ cstr "DAMAGE" ++ String.list_byte_of_string "i" ++ [x05; x00; x00; x00]
  ++ cstr "DAMAGE" ++ String.list_byte_of_string "i" ++ [x06; x00; x00; x00].

Definition foo_component : list byte :=
  cstr "CFooComponent" ++ [x01; x00; x00; x00; x02; x00; x00; x00]
  ++ foo_block ++ one_extra ++ one_function.

(** A Foo component whose field block has a byte to spare. *)
Definition slack_component : list byte :=
  cstr "CFooComponent" ++ [x01; x00; x00; x00; x02; x00; x00; x00]
  ++ slack_block ++ one_extra ++ one_function.

(** A Foo component with the same extra property twice. *)
Definition twice_extra_component : list byte :=
  cstr "CFooComponent" ++ [x01; x00; x00; x00; x02; x00; x00; x00]
  ++ foo_block ++ twice_extra ++ one_function.

(** A component whose type is unrelated to [CComponent]: no extra map
    in the data, an empty field block, no functions. *)
Definition plain_component : list byte :=
  cstr "CPlain" ++ [x00; x00; x00; x00; x00; x00; x00; x00]
  ++ [x00; x00; x00; x00] ++ [x00; x00; x00; x00].

(** An actor with one component under the key [key]. *)
Definition actor_with (key : string) (component : list byte) : list byte :=
  header "CActorDef"
  ++ [x01; x00] ++ [x02; x00; x00; x00] ++ [x03; x00]
  ++ [x00; x00; x00; x00] ++ cstr ""
  ++ [x01; x00; x00; x00] ++ cstr key ++ component
  ++ [x00; x00; x00; x00] ++ [x00; x00; x00; x00].

(** An actor with two components under the same key. *)
Definition actor_with_twice (key : string) (component : list byte)
  : list byte :=
  header "CActorDef"
  ++ [x01; x00] ++ [x02; x00; x00; x00] ++ [x03; x00]
  ++ [x00; x00; x00; x00] ++ cstr ""
  ++ [x02; x00; x00; x00] ++ cstr key ++ component ++ cstr key ++ component
  ++ [x00; x00; x00; x00] ++ [x00; x00; x00; x00].

(** A component of a given type with a nonempty field block and nothing else. *)
Definition bare_component (type : string) : list byte :=
  cstr type ++ [x00; x00; x00; x00; x00; x00; x00; x00]
  ++ [x07; x00; x00; x00] ++ cstr "" ++ cstr "Root" ++ [x2a]
  ++ [x00; x00; x00; x00].

(** A Foo component whose second extra property is tagged "Bool". *)
Definition mistagged_component : list byte :=
  cstr "CFooComponent" ++ [x01; x00; x00; x00; x02; x00; x00; x00]
  ++ foo_block
  ++ [x02; x00; x00; x00] ++ cstr "ENABLED" ++ cstr "bool" ++ [x01]
  ++ cstr "VISIBLE" ++ cstr "Bool" ++ [x01]
  ++ [x00; x00; x00; x00].

(** A function table whose only argument, [DAMAGE], has discriminant [x]. *)
Definition bad_function : list byte :=
  [x01; x00; x00; x00] ++ cstr "OnHit" ++ [x09; x00]
  ++ [x01; x00; x00; x00] ++ cstr "DAMAGE" ++ String.list_byte_of_string "x"
  ++ [x05; x00; x00; x00].

End Examples.

(** * The exporter of the world database

    The functions of [tools/sr_export_rdv_database.py] that work on
    loaded JSON and on the names of actors.  Reading archives, geometry
    and plotting stay outside. *)

Module Tool.

(** The exceptions of the interpreter that these functions can meet. *)
Inductive py_exn : Type :=
| KeyError (key : option string)
| IndexError
| TypeError
| AttributeError
| ValueError (message : string).

(** What a call gives: a value, an exception, or [Unmodelled] where the
    data has a shape on which the embedding does not follow the
    interpreter (numbers and booleans used as keys or compared with one
    another). *)
Inductive py_result (A : Type) : Type :=
| Returns (a : A)
| Raises (e : py_exn)
| Unmodelled.
Arguments Returns {A} a.
Arguments Raises {A} e.
Arguments Unmodelled {A}.

#[global] Instance py_exn_eq_dec : EqDecision py_exn.
Proof. solve_decision. Defined.

#[global] Instance py_result_eq_dec {A} `{EqDecision A} : EqDecision (py_result A).
Proof. solve_decision. Defined.

#[global] Instance py_result_ret : MRet py_result := fun A a => Returns a.

#[global] Instance py_result_bind : MBind py_result :=
  fun A B k m =>
    match m with
    | Returns a => k a
    | Raises e => Raises e
    | Unmodelled => Unmodelled
    end.

(** Item assignment on a dict with string keys: an existing key keeps
    its place, a new one goes to the end. *)
Fixpoint dict_set {A} (d : list (string * A)) (k : string) (v : A)
  : list (string * A) :=
  match d with
  | [] => [(k, v)]
  | (k', v') :: d' =>
      if String.eqb k k' then (k', v) :: d' else (k', v') :: dict_set d' k v
  end.

(** [d.update(other)]. *)
Definition dict_update {A} (d other : list (string * A)) : list (string * A) :=
  fold_left (fun acc kv => dict_set acc kv.1 kv.2) other d.

(** [k in d] for a dict. *)
Definition dict_has {A} (d : list (string * A)) (k : string) : bool :=
  match dict_get d k with
  | Some _ => true
  | None => false
  end.

(** ** File names *)

Definition world_names : list (string * string) :=
  [ ("maps/levels/c10_samus/s000_surface/s000_surface.bmsld", "Surface - East");
    ("maps/levels/c10_samus/s010_area1/s010_area1.bmsld", "Area 1");
    ("maps/levels/c10_samus/s020_area2/s020_area2.bmsld", "Area 2 - Exterior");
    ("maps/levels/c10_samus/s025_area2b/s025_area2b.bmsld", "Area 2 - Interior");
    ("maps/levels/c10_samus/s028_area2c/s028_area2c.bmsld", "Area 2 - Entrance");
    ("maps/levels/c10_samus/s030_area3/s030_area3.bmsld", "Area 3 - Exterior");
    ("maps/levels/c10_samus/s033_area3b/s033_area3b.bmsld",
     "Area 3 - Interior (Lower)");
    ("maps/levels/c10_samus/s036_area3c/s036_area3c.bmsld",
     "Area 3 - Interior (Upper)");
    ("maps/levels/c10_samus/s040_area4/s040_area4.bmsld", "Area 4 - West");
    ("maps/levels/c10_samus/s050_area5/s050_area5.bmsld", "Area 4 - East");
    ("maps/levels/c10_samus/s060_area6/s060_area6.bmsld", "Area 5 - Entrance");
    ("maps/levels/c10_samus/s065_area6b/s065_area6b.bmsld", "Area 5 - Exterior");
    ("maps/levels/c10_samus/s067_area6c/s067_area6c.bmsld", "Area 5 - Interior");
    ("maps/levels/c10_samus/s070_area7/s070_area7.bmsld", "Area 6");
    ("maps/levels/c10_samus/s090_area9/s090_area9.bmsld", "Area 7");
    ("maps/levels/c10_samus/s100_area10/s100_area10.bmsld", "Area 8");
    ("maps/levels/c10_samus/s110_surfaceb/s110_surfaceb.bmsld", "Surface - West") ].

(** The class [[a-zA-Z0-9\- ]] of the pattern in [current_world_file_name]. *)
Definition kept_in_file_name (c : ascii) : bool :=
  let n := nat_of_ascii c in
  ((97 <=? n) && (n <=? 122) || (65 <=? n) && (n <=? 90)
   || (48 <=? n) && (n <=? 57) || (n =? 45) || (n =? 32))%nat.

(** [re.sub(r'[^a-zA-Z0-9\- ]', r'', s)]: every character outside the
    class is dropped. *)
Fixpoint strip_for_file_name (s : string) : string :=
  match s with
  | EmptyString => EmptyString
  | String c s' =>
      if kept_in_file_name c then String c (strip_for_file_name s')
      else strip_for_file_name s'
  end.

(** [current_world_file_name], as a function of the global [bmsld_path],
    which is [None] until a level has been read. *)
Definition current_world_file_name (bmsld_path : option string)
  : py_result string :=
  match bmsld_path ≫= dict_get world_names with
  | Some name => Returns (strip_for_file_name name +:+ ".json")
  | None => Raises (KeyError bmsld_path)
  end.

(** The file that [_get_area_name_from_actors_in_existing_db] opens for
    a world: [f"{world_name}.json"]. *)
Definition existing_db_file_name (world_name : string) : string :=
  world_name +:+ ".json".

(** ** Actors *)

Definition dock_weakness (kind : string) : option string :=
  dict_get
    [ ("closed", "Access Closed");
      ("power", "Power Beam Door");
      ("charge", "Charge Beam Door") ] kind.

(** [_weakness_table_for_def], with the entries of [dock_weakness] it
    refers to written out. *)
Definition _weakness_table_for_def : list (string * (string * string)) :=
  [ ("doorchargecharge", ("Charge Beam Door", "Charge Beam Door"));
    ("doorclosedcharge", ("Access Closed", "Charge Beam Door"));
    ("doorpowerpower", ("Power Beam Door", "Power Beam Door"));
    ("doorclosedpower", ("Access Closed", "Power Beam Door"));
    ("doorpowerclosed", ("Power Beam Door", "Access Closed"));
    ("doorchargeclosed", ("Charge Beam Door", "Access Closed")) ].

Section Json.

(** The numbers of the data (coordinates, bounds) with the arithmetic
    the tool does on them. *)
Variable number : Type.
Variable num_add : number -> number -> number.
Variable num_half : number -> number.
Variable num_lt : number -> number -> bool.

Inductive json : Type :=
| JNull
| JBool (b : bool)
| JNum (n : number)
| JStr (s : string)
| JList (items : list json)
| JDict (entries : list (string * json)).

(** [v[k]] for a string [k]. *)
Definition getitem (v : json) (k : string) : py_result json :=
  match v with
  | JDict d =>
      match dict_get d k with
      | Some x => Returns x
      | None => Raises (KeyError (Some k))
      end
  | _ => Raises TypeError
  end.

(** [v[k] = x] for a string [k]. *)
Definition setitem (v : json) (k : string) (x : json) : py_result json :=
  match v with
  | JDict d => Returns (JDict (dict_set d k x))
  | _ => Raises TypeError
  end.

(** [v[k1][k2] = x]. *)
Definition setitem2 (v : json) (k1 k2 : string) (x : json) : py_result json :=
  inner ← getitem v k1;
  inner' ← setitem inner k2 x;
  setitem v k1 inner'.

(** [v.items()]. *)
Definition items (v : json) : py_result (list (string * json)) :=
  match v with
  | JDict d => Returns d
  | _ => Raises AttributeError
  end.

(** [k in v] for a string [k]. *)
Definition contains (k : string) (v : json) : py_result bool :=
  match v with
  | JDict d => Returns (dict_has d k)
  | JList l =>
      Returns (existsb (fun x => match x with
                                 | JStr s => String.eqb s k
                                 | _ => false
                                 end) l)
  | JStr s => Returns (is_infix k s)
  | _ => Raises TypeError
  end.

(** [a == b], followed where one side is a string. *)
Definition py_eq (a b : json) : py_result bool :=
  match a, b with
  | JStr x, JStr y => Returns (String.eqb x y)
  | JStr _, _ | _, JStr _ => Returns false
  | _, _ => Unmodelled
  end.

Record Actor : Type := {
  actor_x : number;
  actor_y : number;
  actor_z : number;
  actor_type_field : string;
}.

Record NodeDefinition : Type := {
  nd_name : string;
  nd_data : json;
}.

(** The fields of an [ActorDetails].  The rooms are found by a search
    in the room polygons, which the embedding takes as given. *)
Record ActorDetails : Type := {
  name : string;
  actor : Actor;
  actor_type : string;
  actor_layer : string;
  position : number * number;
  rooms : list string;
  is_door : bool;
  is_pickup : bool;
  is_usable : bool;
}.

(** [ActorDetails.__init__], given the rooms the search finds. *)
Definition ActorDetails_init (name : string) (actor : Actor)
    (found_rooms : list string) (layer_name : string) : ActorDetails :=
  let actor_type := actor_type_field actor in
  {| name := name;
     actor := actor;
     actor_type := actor_type;
     actor_layer := layer_name;
     position := (actor_x actor, actor_y actor);
     rooms := found_rooms;
     is_door := String.prefix "door" actor_type;
     is_pickup :=
       existsb (fun prefix => String.prefix prefix actor_type)
               ["powerup_"; "item_"; "itemsphere_"];
     is_usable := String.eqb actor_type "weightactivatedplatform" |}.

(** The loop at the end of [create_node_template] that carries over the
    extra entries of the old node: [for extra_key in old_extra: if
    extra_key not in extra: extra[extra_key] = old_extra[extra_key]]. *)
Definition keep_old_extra_entries (old : list (string * json))
    (extra : list (string * json)) : list (string * json) :=
  fold_left
    (fun acc kv => if dict_has acc kv.1 then acc else dict_set acc kv.1 kv.2)
    old extra.

(** The same loop over the characters of a string: a character that is
    a key of [extra] is passed over, any other is used to index the
    string and fails. *)
Fixpoint keep_old_extra_chars (old : string) (extra : list (string * json))
  : py_result (list (string * json)) :=
  match old with
  | EmptyString => Returns extra
  | String c old' =>
      if dict_has extra (String c EmptyString)
      then keep_old_extra_chars old' extra
      else Raises TypeError
  end.

(** The same loop over the elements of a list. *)
Fixpoint keep_old_extra_items (old : list json) (extra : list (string * json))
  : py_result (list (string * json)) :=
  match old with
  | [] => Returns extra
  | JStr s :: old' =>
      if dict_has extra s then keep_old_extra_items old' extra
      else Raises TypeError
  | (JList _ | JDict _ | JNull) :: _ => Raises TypeError
  | (JBool _ | JNum _) :: _ => Unmodelled
  end.

Definition keep_old_extra (old : json) (extra : list (string * json))
  : py_result (list (string * json)) :=
  match old with
  | JDict d => Returns (keep_old_extra_entries d extra)
  | JStr s => keep_old_extra_chars s extra
  | JList l => keep_old_extra_items l extra
  | JNull | JBool _ | JNum _ => Raises TypeError
  end.

Definition create_node_template (self : ActorDetails) (node_type : string)
    (default_name : string)
    (existing_data : option (list (string * NodeDefinition)))
  : py_result NodeDefinition :=
  let result :=
    JDict
      [ ("node_type", JStr node_type);
        ("heal", JBool false);
        ("coordinates",
         JDict [ ("x", JNum (actor_x (actor self)));
                 ("y", JNum (actor_y (actor self)));
                 ("z", JNum (actor_z (actor self))) ]);
        ("description", JStr "");
        ("extra",
         JDict [ ("actor_name", JStr (name self));
                 ("actor_type", JStr (actor_type_field (actor self))) ]) ] in
  result ←
    (if String.eqb (actor_layer self) "default" then Returns result
     else setitem2 result "extra" "actor_layer" (JStr (actor_layer self)));
  result ←
    (if String.eqb node_type "dock" then
       r ← setitem result "destination"
             (JDict [ ("world_name", JNull); ("area_name", JNull);
                      ("node_name", JNull) ]);
       r ← setitem r "dock_type" (JStr "other");
       setitem r "dock_weakness" (JStr "Not Determined")
     else if String.eqb node_type "pickup" then
       r ← setitem result "pickup_index" JNull;
       setitem r "major_location" JNull
     else if String.eqb node_type "teleporter" then
       r ← setitem result "destination"
             (JDict [ ("world_name", JNull); ("area_name", JNull) ]);
       r ← setitem r "keep_name_when_vanilla" (JBool true);
       setitem r "editable" (JBool true)
     else if String.eqb node_type "event" then
       setitem result "event_name" JNull
     else Returns result);
  match existing_data ≫= (fun d => dict_get d (name self)) with
  | Some old_node_data =>
      let node_name := nd_name old_node_data in
      replaces ←
        (if String.eqb node_type "generic" then
           old_type ← getitem (nd_data old_node_data) "node_type";
           Returns (match old_type with
                    | JStr t => negb (String.eqb t "generic")
                    | _ => true
                    end)
         else Returns false);
      if (replaces : bool) then
        let new_result := nd_data old_node_data in
        coordinates ← getitem result "coordinates";
        new_result ← setitem new_result "coordinates" coordinates;
        old_extra ← getitem new_result "extra";
        match old_extra with
        | JDict old_entries =>
            extra ← getitem result "extra";
            match extra with
            | JDict entries =>
                new_result ← setitem new_result "extra"
                               (JDict (dict_update old_entries entries));
                Returns {| nd_name := node_name; nd_data := new_result |}
            | _ => Raises TypeError
            end
        | _ => Raises AttributeError
        end
      else
        heal ← getitem (nd_data old_node_data) "heal";
        result ← setitem result "heal" heal;
        description ← getitem (nd_data old_node_data) "description";
        result ← setitem result "description" description;
        connections ← getitem (nd_data old_node_data) "connections";
        result ← setitem result "connections" connections;
        old_extra ← getitem (nd_data old_node_data) "extra";
        extra ← getitem result "extra";
        match extra with
        | JDict entries =>
            entries' ← keep_old_extra old_extra entries;
            result ← setitem result "extra" (JDict entries');
            Returns {| nd_name := node_name; nd_data := result |}
        | _ => Raises TypeError
        end
  | None =>
      result ← setitem result "connections" (JDict []);
      Returns {| nd_name := default_name; nd_data := result |}
  end.

(** The centre [(bounds["x1"] + bounds["x2"]) / 2] of an area. *)
Definition centre_x (bounds : json) : py_result number :=
  x1 ← getitem bounds "x1";
  x2 ← getitem bounds "x2";
  match x1, x2 with
  | JNum a, JNum b => Returns (num_half (num_add a b))
  | JBool _, (JBool _ | JNum _) | JNum _, JBool _ => Unmodelled
  | _, _ => Raises TypeError
  end.

Definition total_boundings (world : json) (room : string) : py_result json :=
  areas ← getitem world "areas";
  area ← getitem areas room;
  extra ← getitem area "extra";
  getitem extra "total_boundings".

Definition _find_room_orientation (world : json) (room_a room_b : string)
  : py_result (nat * nat) :=
  a_bounds ← total_boundings world room_a;
  b_bounds ← total_boundings world room_b;
  a_cx ← centre_x a_bounds;
  b_cx ← centre_x b_bounds;
  if num_lt a_cx b_cx then Returns (0, 1)%nat
  else if num_lt b_cx a_cx then Returns (1, 0)%nat
  else Raises (ValueError (room_a +:+ " and " +:+ room_b +:+ " are aligned")).

Definition get_actor_name_for_node (node : json) : py_result json :=
  extra ← getitem node "extra";
  getitem extra "actor_name".

(** Using a JSON value as a key of a dict with string keys. *)
Definition as_key (v : json) : py_result string :=
  match v with
  | JStr s => Returns s
  | JList _ | JDict _ => Raises TypeError
  | JNull | JBool _ | JNum _ => Unmodelled
  end.

(** The inner loop of [_get_existing_node_data] over the nodes of an area. *)
Fixpoint index_nodes (nodes : list (string * json))
    (acc : list (string * NodeDefinition))
  : py_result (list (string * NodeDefinition)) :=
  match nodes with
  | [] => Returns acc
  | (node_name, node_data) :: nodes' =>
      actor_name ← get_actor_name_for_node node_data;
      key ← as_key actor_name;
      index_nodes nodes'
        (dict_set acc key {| nd_name := node_name; nd_data := node_data |})
  end.

(** The outer loop: the state is the pair of [node_data_for_area] and
    the [area_names] that the function fills on the way. *)
Fixpoint index_areas (areas : list (string * json))
    (node_data_for_area : list (string * list (string * NodeDefinition)))
    (area_names : list (string * string))
  : py_result (list (string * list (string * NodeDefinition))
               * list (string * string)) :=
  match areas with
  | [] => Returns (node_data_for_area, area_names)
  | (area_name, area_data) :: areas' =>
      extra ← getitem area_data "extra";
      has_id ← contains "asset_id" extra;
      if (has_id : bool) then
        asset_id ← getitem extra "asset_id";
        key ← as_key asset_id;
        let area_names := dict_set area_names key area_name in
        nodes ← getitem area_data "nodes";
        entries ← items nodes;
        indexed ← index_nodes entries [];
        index_areas areas' (dict_set node_data_for_area area_name indexed)
          area_names
      else index_areas areas' node_data_for_area area_names
  end.

Definition _get_existing_node_data (world : json)
    (area_names : list (string * string))
  : py_result (list (string * list (string * NodeDefinition))
               * list (string * string)) :=
  areas ← getitem world "areas";
  entries ← items areas;
  index_areas entries [] area_names.

(** The check of [add_node] against the nodes already in the area. *)
Fixpoint check_no_conflict (nodes : list (string * json))
    (node_def : NodeDefinition) (new_actor : json) (target_area : string)
  : py_result unit :=
  match nodes with
  | [] => Returns tt
  | (existing_name, existing_node) :: nodes' =>
      if String.eqb existing_name (nd_name node_def)
      then check_no_conflict nodes' node_def new_actor target_area
      else
        existing_actor ← get_actor_name_for_node existing_node;
        same ← py_eq existing_actor new_actor;
        if (same : bool) then
          match new_actor with
          | JStr actor_text =>
              Raises (ValueError
                        ("New node " +:+ nd_name node_def +:+ " with actor "
                         +:+ actor_text +:+ " conflicts with existing node "
                         +:+ existing_name +:+ " in " +:+ target_area))
          | _ => Unmodelled
          end
        else check_no_conflict nodes' node_def new_actor target_area
  end.

(** [add_node] of [decode_world]; the world it changes is passed in and
    given back. *)
Definition add_node (world : json) (target_area : string)
    (node_def : NodeDefinition) : py_result json :=
  new_actor ← get_actor_name_for_node (nd_data node_def);
  areas ← getitem world "areas";
  area ← getitem areas target_area;
  nodes ← getitem area "nodes";
  entries ← items nodes;
  _ ← check_no_conflict entries node_def new_actor target_area;
  nodes' ← setitem nodes (nd_name node_def) (nd_data node_def);
  area' ← setitem area "nodes" nodes';
  areas' ← setitem areas target_area area';
  setitem world "areas" areas'.

(** The body of the last loop of [create_door_nodes_for_actor] for the
    door at index [i]. *)
Definition link_door (details : ActorDetails) (world : json)
    (doors : list NodeDefinition) (custom_weakness : list (option string))
    (i : nat) (definition : NodeDefinition) : py_result NodeDefinition :=
  let data := nd_data definition in
  extra ← getitem data "extra";
  _ ← (match extra with
       | JDict _ => Returns tt
       | _ => Raises AttributeError
       end);
  world_name ← getitem world "name";
  data ← setitem2 data "destination" "world_name" world_name;
  area_name ← (match rooms details !! ((i + 1) mod 2)%nat with
               | Some room => Returns room
               | None => Raises IndexError
               end);
  data ← setitem2 data "destination" "area_name" (JStr area_name);
  other ← (match doors !! ((i + 1) mod 2)%nat with
           | Some door => Returns door
           | None => Raises IndexError
           end);
  data ← setitem2 data "destination" "node_name" (JStr (nd_name other));
  weakness ← (match custom_weakness !! i with
              | Some w => Returns w
              | None => Raises IndexError
              end);
  data ←
    (match weakness with
     | Some w =>
         data ← setitem data "dock_type" (JStr "door");
         setitem data "dock_weakness" (JStr w)
     | None => Returns data
     end);
  Returns {| nd_name := nd_name definition; nd_data := data |}.

Fixpoint link_doors (details : ActorDetails) (world : json)
    (doors : list NodeDefinition) (custom_weakness : list (option string))
    (i : nat) (todo : list NodeDefinition) : py_result (list NodeDefinition) :=
  match todo with
  | [] => Returns []
  | definition :: todo' =>
      linked ← link_door details world doors custom_weakness i definition;
      rest ← link_doors details world doors custom_weakness (S i) todo';
      Returns (linked :: rest)
  end.

Fixpoint door_templates (details : ActorDetails)
    (node_data_for_area : list (string * list (string * NodeDefinition)))
    (room_names : list string) : py_result (list NodeDefinition) :=
  match room_names with
  | [] => Returns []
  | room_name :: room_names' =>
      door ← create_node_template details "dock"
               ("Door (" +:+ name details +:+ ")")
               (dict_get node_data_for_area room_name);
      rest ← door_templates details node_data_for_area room_names';
      Returns (door :: rest)
  end.

(** [create_door_nodes_for_actor]: the doors, and the lines printed on
    the way to them (what was printed before a raise is not kept). *)
Definition create_door_nodes_for_actor (details : ActorDetails)
    (node_data_for_area : list (string * list (string * NodeDefinition)))
    (world : json) : py_result (list NodeDefinition * list string) :=
  orientation ←
    (match rooms details with
     | [room_a; room_b] => _find_room_orientation world room_a room_b
     | _ => Raises TypeError
     end);
  let '(left_room, right_room) := orientation in
  let custom_weakness : list (option string) := [None; None] in
  let '(custom_weakness, printed) :=
    match dict_get _weakness_table_for_def (actor_type details) with
    | Some (left_weakness, right_weakness) =>
        (<[right_room := Some right_weakness]>
           (<[left_room := Some left_weakness]> custom_weakness), [])
    | None =>
        (custom_weakness,
         ["no weakness for " +:+ actor_type details +:+ " without shields"])
    end in
  doors ← door_templates details node_data_for_area (rooms details);
  doors ← link_doors details world doors custom_weakness 0 doors;
  Returns (doors, printed).

End Json.

Arguments JNull {number}.
Arguments JBool {number} b.
Arguments JNum {number} n.
Arguments JStr {number} s.
Arguments JList {number} items.
Arguments JDict {number} entries.

End Tool.

(** Whole numbers and data for the examples of the exporter. *)
Module ToolExamples.

Definition json := Tool.json Z.

Definition half (n : Z) : Z := n / 2.

Definition bounds (x1 x2 : Z) : json :=
  Tool.JDict
    [ ("default_node", Tool.JNull);
      ("extra",
       Tool.JDict
         [ ("total_boundings",
            Tool.JDict [ ("x1", Tool.JNum x1); ("x2", Tool.JNum x2);
                         ("y1", Tool.JNum 0); ("y2", Tool.JNum 100) ]);
           ("asset_id", Tool.JStr "collision_camera") ]);
      ("nodes", Tool.JDict []) ].

(** A node already in the database, for the actor [Door002]. *)
Definition old_door : json :=
  Tool.JDict
    [ ("node_type", Tool.JStr "dock");
      ("heal", Tool.JBool true);
      ("coordinates", Tool.JDict []);
      ("description", Tool.JStr "kept");
      ("extra",
       Tool.JDict [ ("actor_name", Tool.JStr "Door002");
                    ("actor_type", Tool.JStr "stale");
                    ("note", Tool.JStr "by hand") ]);
      ("connections", Tool.JDict [ ("Other", Tool.JDict []) ]) ].

Definition west : json :=
  Tool.JDict
    [ ("default_node", Tool.JNull);
      ("extra",
       Tool.JDict
         [ ("total_boundings",
            Tool.JDict [ ("x1", Tool.JNum 0); ("x2", Tool.JNum 100) ]);
           ("asset_id", Tool.JStr "camera_west") ]);
      ("nodes", Tool.JDict [ ("Door to East", old_door) ]) ].

Definition east : json :=
  Tool.JDict
    [ ("default_node", Tool.JNull);
      ("extra",
       Tool.JDict
         [ ("total_boundings",
            Tool.JDict [ ("x1", Tool.JNum 100); ("x2", Tool.JNum 300) ]);
           ("asset_id", Tool.JStr "camera_east") ]);
      ("nodes", Tool.JDict []) ].

Definition world : json :=
  Tool.JDict
    [ ("name", Tool.JStr "Area 1");
      ("extra", Tool.JDict []);
      ("areas", Tool.JDict [ ("West", west); ("East", east) ]) ].

Definition door_actor : Tool.Actor Z :=
  {| Tool.actor_x := 100; Tool.actor_y := 50; Tool.actor_z := 0;
     Tool.actor_type_field := "doorpowerclosed" |}.

Definition door_details : Tool.ActorDetails Z :=
  Tool.ActorDetails_init Z "Door002" door_actor ["West"; "East"] "default".

(** The node of [Door002] as the index of the database holds it. *)
Definition old_node : Tool.NodeDefinition Z :=
  {| Tool.nd_name := "Door to East"; Tool.nd_data := old_door |}.

Definition existing_west : list (string * Tool.NodeDefinition Z) :=
  [ ("Door002", old_node) ].

Definition existing_nodes
  : list (string * list (string * Tool.NodeDefinition Z)) :=
  [ ("West", existing_west); ("East", []) ].

(** A node for the other side of [Door002], and a second node for the
    same actor under another name. *)
Definition door_to_west : Tool.NodeDefinition Z :=
  {| Tool.nd_name := "Door to West";
     Tool.nd_data :=
       Tool.JDict
         [ ("node_type", Tool.JStr "dock");
           ("extra", Tool.JDict [ ("actor_name", Tool.JStr "Door002") ]) ] |}.

Definition another_door : Tool.NodeDefinition Z :=
  {| Tool.nd_name := "Another door";
     Tool.nd_data :=
       Tool.JDict
         [ ("node_type", Tool.JStr "dock");
           ("extra", Tool.JDict [ ("actor_name", Tool.JStr "Door002") ]) ] |}.

End ToolExamples.

(** ** Notions used to state the properties *)

(** A parser that gives an outcome on every input. *)
Definition returns {A} (p : Parser A) : Prop := forall s, is_Some (p s).

(** The candidate schema name of a type. *)
Definition as_char (type_name : string) : string :=
  "CCharClass" +:+ slice_from_1 type_name.

(** [ancestor get_parent_for t a]: [a] is [t] or is reached from it by
    parent lookups. *)
Inductive ancestor (get_parent_for : string -> result (option string))
  : string -> string -> Prop :=
| ancestor_refl t : ancestor get_parent_for t t
| ancestor_step t p a :
    get_parent_for t = Ok (Some p) -> ancestor get_parent_for p a ->
    ancestor get_parent_for t a.

(** The component map of a decoded resource, of either variant. *)
Definition components_of {F} (r : BMSADContainer F)
  : list (string * ComponentContainer F) :=
  match bmsad_property r with
  | PropCharClass c => cc_components c
  | PropActorDef a => ad_components a
  end.

(** No key occurs twice in the maps of a component: its extra
    properties and the arguments of each of its functions. *)
Definition component_keys_unique {F} (c : ComponentContainer F) : Prop :=
  (forall m, comp_extra_fields c = Some m -> NoDup m.*1)
  /\ Forall (fun f => NoDup (fn_params f).*1) (comp_functions c).

(** [climbs fieldtypes get_parent_for t a]: the resolution started at
    [t] moves on to [a]; every type it passes is not [CActorComponent],
    has no registered candidate, and has the next one as its parent. *)
Inductive climbs {F} (fieldtypes : gmap string (Construct F))
    (get_parent_for : string -> result (option string))
  : string -> string -> Prop :=
| climbs_here t : climbs fieldtypes get_parent_for t t
| climbs_up t p a :
    t <> "CActorComponent" ->
    fieldtypes !! as_char t = None ->
    get_parent_for t = Ok (Some p) ->
    climbs fieldtypes get_parent_for p a ->
    climbs fieldtypes get_parent_for t a.

(** The resolution stops at [a] with the schema name [name]. *)
Definition stops_with {F} (fieldtypes : gmap string (Construct F))
    (a name : string) : Prop :=
  (a = "CActorComponent" /\ name = "CActorComponentDef")
  \/ (a <> "CActorComponent" /\ name = as_char a
      /\ is_Some (fieldtypes !! as_char a)).

(** The value of an argument is of the variant its discriminant names,
    and its number fits the width it was read with. *)
Definition argument_agrees (a : FunctionArgumentContainer) : Prop :=
  match arg_value a with
  | ArgString _ => arg_type a = "s"
  | ArgFloat bits => arg_type a = "f" /\ 0 <= bits < 2 ^ 32
  | ArgBool _ => arg_type a = "b"
  | ArgInt n => arg_type a = "i" /\ 0 <= n < 2 ^ 32
  end.

Definition extra_agrees (e : ExtraFieldContainer) : Prop :=
  match extra_value e with
  | ExtraBool _ => extra_type e = "bool"
  | ExtraString _ => extra_type e = "string"
  end.

(** The payload [d] has the layout registered for the base [base]. *)
Definition layout_of_base (base : string) (d : DependencyValue) : Prop :=
  match d with
  | DepNone => False
  | DepFX _ => base = "CFXComponent" \/ base = "CStandaloneFXComponent"
  | DepCollision _ _ => base = "CCollisionComponent"
  | DepGrab _ => base = "CGrabComponent"
  | DepBillboard _ _ _ _ => base = "CBillboardComponent"
  | DepSwarm _ _ _ => base = "CSwarmControllerComponent"
  end.

(** The arrays of fixed size inside a payload have their size, and the
    integers fit their width. *)
Definition payload_shape (d : DependencyValue) : Prop :=
  match d with
  | DepNone => True
  | DepFX items =>
      Forall (fun i => 0 <= fx_unk1 i < 2 ^ 32 /\ 0 <= fx_unk2 i < 2 ^ 32
                       /\ 0 <= fx_unk3 i < 256) items
  | DepCollision _ unk => 0 <= unk < 2 ^ 16
  | DepGrab items =>
      Forall (fun g => length (grab_unk8 g) = 2%nat
                       /\ Forall (fun u => length (g8_unk1 u) = 8%nat
                                           /\ 0 <= g8_unk2 u < 2 ^ 16)
                                 (grab_unk8 g)
                       /\ 0 <= grab_unk5 g < 256 /\ 0 <= grab_unk6 g < 256
                       /\ 0 <= grab_unk7 g < 2 ^ 16) items
  | DepBillboard _ unk1 _ unk2 =>
      Forall (fun b => length (bb1_unk1 b) = 3%nat
                       /\ length (bb1_unk3 b) = 2%nat
                       /\ 0 <= bb1_unk2 b < 256) unk1
      /\ Forall (fun b => length (bb2_unk2 b) = 4%nat
                          /\ 0 <= bb2_unk1 b < 256) unk2
  | DepSwarm _ _ _ => True
  end.

(** A parser that, when it succeeds, has used at least [k] bytes. *)
Definition uses_at_least {A} (k : nat) (p : Parser A) : Prop :=
  forall s v rest, p s = Some (Ok (v, rest)) -> (length rest + k <= length s)%nat.

(** A construct that never gives back more data than it was given. *)
Definition moves_forward {A} (c : Construct A) : Prop :=
  forall s v rest, c s = Ok (v, rest) -> (length rest <= length s)%nat.

(** The nodes of an area hold one node for an actor: no two entries
    have the same name, every node carries an actor name that is a
    string, and two entries of the same actor are the same entry. *)
Definition one_node_per_actor {number} (nodes : list (string * Tool.json number))
  : Prop :=
  NoDup nodes.*1
  /\ (forall n node,
        (n, node) ∈ nodes ->
        exists s, Tool.get_actor_name_for_node number node
                  = Tool.Returns (Tool.JStr s))
  /\ (forall n1 x1 n2 x2 a,
        (n1, x1) ∈ nodes -> (n2, x2) ∈ nodes ->
        Tool.get_actor_name_for_node number x1 = Tool.Returns a ->
        Tool.get_actor_name_for_node number x2 = Tool.Returns a ->
        n1 = n2).

(** What is known of the existing nodes of an area agrees with the
    nodes on an actor: a node known for the actor is a node of the area
    and belongs to the actor, and when none is known the area has
    none. *)
Definition index_agrees {number}
    (existing_data : option (list (string * Tool.NodeDefinition number)))
    (actor : string) (nodes : list (string * Tool.json number)) : Prop :=
  match existing_data ≫= (fun d => dict_get d actor) with
  | Some old =>
      (Tool.nd_name number old, Tool.nd_data number old) ∈ nodes
      /\ Tool.get_actor_name_for_node number (Tool.nd_data number old)
         = Tool.Returns (Tool.JStr actor)
  | None =>
      forall n node,
        (n, node) ∈ nodes ->
        Tool.get_actor_name_for_node number node
        <> Tool.Returns (Tool.JStr actor)
  end.

(** * Properties *)

(** ** Running parsers *)

Lemma bind_ok {A B} (p : Parser A) (k : A -> Parser B) s a rest :
  p s = Some (Ok (a, rest)) -> bind p k s = k a rest.
Proof. unfold bind. intros ->. reflexivity. Qed.

Lemma bind_raise {A B} (p : Parser A) (k : A -> Parser B) s e :
  p s = Some (Raise e) -> bind p k s = Some (Raise e).
Proof. unfold bind. intros ->. reflexivity. Qed.

Lemma bind_inv_ok {A B} (p : Parser A) (k : A -> Parser B) s b rest :
  bind p k s = Some (Ok (b, rest)) ->
  exists a s', p s = Some (Ok (a, s')) /\ k a s' = Some (Ok (b, rest)).
Proof.
  unfold bind. destruct (p s) as [[[a s']|e]|]; try discriminate.
  intros H. exists a, s'. split; [reflexivity | exact H].
Qed.

Lemma ret_inv_ok {A} (a b : A) s rest :
  ret a s = Some (Ok (b, rest)) -> b = a /\ rest = s.
Proof. unfold ret. intros H. injection H as <- <-. split; reflexivity. Qed.

Lemma Renamed_ok {A} name (p : Parser A) s v :
  p s = Some (Ok v) -> Renamed name p s = Some (Ok v).
Proof. unfold Renamed. intros ->. reflexivity. Qed.

Lemma Renamed_inv_ok {A} name (p : Parser A) s v :
  Renamed name p s = Some (Ok v) -> p s = Some (Ok v).
Proof. unfold Renamed. destruct (p s) as [[x|e]|]; [exact id | discriminate..]. Qed.

Lemma Renamed_raise {A} name (p : Parser A) s e :
  p s = Some (Raise e) -> Renamed name p s = Some (Raise (under name e)).
Proof. unfold Renamed. intros ->. reflexivity. Qed.

Lemma Renamed_raise_at {A} name (p : Parser A) s e :
  records_path e = true ->
  p s = Some (Raise e) -> Renamed name p s = Some (Raise (At name e)).
Proof. unfold Renamed, under. intros He ->. rewrite He. reflexivity. Qed.

Lemma Renamed_raise_bare {A} name (p : Parser A) s e :
  records_path e = false ->
  p s = Some (Raise e) -> Renamed name p s = Some (Raise e).
Proof. unfold Renamed, under. intros He ->. rewrite He. reflexivity. Qed.

Lemma evaluate_inv_ok {A} (r : result A) s a rest :
  evaluate r s = Some (Ok (a, rest)) -> r = Ok a /\ rest = s.
Proof. destruct r; simpl; [intros [= -> ->]; auto | discriminate]. Qed.

Lemma parse_raise {A} (p : Parser A) data e :
  p data = Some (Raise e) -> parse p data = Some (Raise e).
Proof. unfold parse. intros ->. reflexivity. Qed.

Lemma stream_read_app n bs rest :
  length bs = n -> stream_read n (bs ++ rest) = Some (Ok (bs, rest)).
Proof.
  intros <-. unfold stream_read.
  replace (length (bs ++ rest) <? length bs)%nat with false.
  - rewrite take_app_length, drop_app_length. reflexivity.
  - symmetry. apply Nat.ltb_ge. rewrite length_app. lia.
Qed.

Lemma stream_read_short n s :
  (length s < n)%nat -> stream_read n s = Some (Raise StreamError).
Proof.
  intros H. unfold stream_read.
  apply Nat.ltb_lt in H. rewrite H. reflexivity.
Qed.

Lemma Int16ul_app bs rest :
  length bs = 2%nat -> Int16ul (bs ++ rest) = Some (Ok (le_uint bs, rest)).
Proof.
  intros H. unfold Int16ul.
  rewrite (bind_ok _ _ _ _ _ (stream_read_app 2 bs rest H)). reflexivity.
Qed.

Lemma Int32ul_app bs rest :
  length bs = 4%nat -> Int32ul (bs ++ rest) = Some (Ok (le_uint bs, rest)).
Proof.
  intros H. unfold Int32ul.
  rewrite (bind_ok _ _ _ _ _ (stream_read_app 4 bs rest H)). reflexivity.
Qed.

Lemma lift_eq {A} (c : Construct A) s : lift c s = Some (c s).
Proof. reflexivity. Qed.

Lemma returns_bind {A B} (p : Parser A) (k : A -> Parser B) :
  returns p -> (forall a, returns (k a)) -> returns (bind p k).
Proof.
  intros Hp Hk s. unfold bind.
  destruct (Hp s) as [[[a s']|e] ->]; [apply Hk | eexists; reflexivity].
Qed.

Lemma returns_ret {A} (a : A) : returns (ret a).
Proof. intros s. eexists. reflexivity. Qed.

Lemma returns_raise {A} e : returns (@raise A e).
Proof. intros s. eexists. reflexivity. Qed.

Lemma returns_lift {A} (c : Construct A) : returns (lift c).
Proof. intros s. eexists. reflexivity. Qed.

Lemma returns_stream_read n : returns (stream_read n).
Proof.
  intros s. unfold stream_read.
  destruct (length s <? n)%nat; eexists; reflexivity.
Qed.

Lemma returns_Array {A} n (p : Parser A) : returns p -> returns (Array n p).
Proof.
  intros Hp. induction n as [|n IH]; simpl.
  - apply returns_ret.
  - apply returns_bind; [exact Hp|]. intros x.
    apply returns_bind; [exact IH|]. intros xs. apply returns_ret.
Qed.

Lemma returns_Switch {K A} (key : K) cases (default : Parser A) :
  (forall k p, cases k = Some p -> returns p) -> returns default ->
  returns (Switch key cases default).
Proof.
  intros Hc Hd. unfold Switch.
  destruct (cases key) as [p|] eqn:E; [exact (Hc _ _ E) | exact Hd].
Qed.

Lemma returns_DictAdapter {A} (p : Parser (list (string * A))) :
  returns p -> returns (DictAdapter p).
Proof.
  intros Hp s. unfold DictAdapter.
  destruct (Hp s) as [[[items rest]|e] ->]; [|eexists; reflexivity].
  destruct (dict_of_items [] items); eexists; reflexivity.
Qed.

Lemma returns_PrefixedAllowZeroLen {A} (l : Parser Z) (p : Parser A) :
  returns l -> returns p -> returns (PrefixedAllowZeroLen l p).
Proof.
  intros Hl Hp. unfold PrefixedAllowZeroLen.
  apply returns_bind; [exact Hl|]. intros len.
  destruct (len =? 0); [apply returns_ret|].
  apply returns_bind; [apply returns_stream_read|]. intros window rest.
  destruct (Hp window) as [[[v w]|e] ->]; eexists; reflexivity.
Qed.

Lemma returns_Renamed {A} name (p : Parser A) :
  returns p -> returns (Renamed name p).
Proof.
  intros Hp s. unfold Renamed.
  destruct (Hp s) as [[v|e] ->]; eexists; reflexivity.
Qed.

Lemma returns_evaluate {A} (r : result A) : returns (evaluate r).
Proof. intros s. destruct r; eexists; reflexivity. Qed.

(** ** Schema resolution *)

Section Resolution.

Context {FieldsValue : Type}.
Variable fieldtypes : gmap string (Construct FieldsValue).
Variable get_parent_for : string -> result (option string).

Local Notation find := (find_charclass_for_type FieldsValue fieldtypes get_parent_for).

Local Notation ancestor := (ancestor get_parent_for).

Lemma find_unfold budget t :
  find (S budget) (Some t) =
    if String.eqb t "CActorComponent" then Some (Ok "CActorComponentDef")
    else if bool_decide (is_Some (fieldtypes !! as_char t)) then Some (Ok (as_char t))
    else match get_parent_for t with
         | Ok parent => find budget parent
         | Raise e => Some (Raise e)
         end.
Proof. reflexivity. Qed.

(** Every call of the resolution returns: with a name, with the
    exception of a parent lookup, or ended by the interpreter. *)
Lemma find_returns budget t : is_Some (find budget t).
Proof.
  revert t. induction budget as [|budget IH]; intros [t|];
    try (eexists; reflexivity).
  rewrite find_unfold.
  destruct (String.eqb t "CActorComponent"); [eexists; reflexivity|].
  case_bool_decide; [eexists; reflexivity|].
  destruct (get_parent_for t) as [p|e]; [apply IH | eexists; reflexivity].
Qed.

(** A name that is returned comes from the type or from an ancestor:
    the fixed name of [CActorComponent], or a registered candidate. *)
Lemma find_returns_from_ancestor budget t name :
  find budget (Some t) = Some (Ok name) ->
  exists a, ancestor t a /\
    ((a = "CActorComponent" /\ name = "CActorComponentDef") \/
     (a <> "CActorComponent" /\ name = as_char a /\ is_Some (fieldtypes !! name))).
Proof.
  revert t. induction budget as [|budget IH]; intros t; [discriminate|].
  rewrite find_unfold.
  destruct (String.eqb t "CActorComponent") eqn:E.
  - apply String.eqb_eq in E. intros [= <-]. exists t. split; [constructor|auto].
  - apply String.eqb_neq in E. case_bool_decide as Hreg.
    + intros [= <-]. exists t. split; [constructor|auto].
    + destruct (get_parent_for t) as [[p|]|e] eqn:Hp; [| |discriminate].
      * intros Hf. destruct (IH _ Hf) as (a & Ha & Hname).
        exists a. split; [econstructor; eassumption | exact Hname].
      * destruct budget; discriminate.
Qed.

(** An exception out of the resolution is the one the parent lookup
    raised at an ancestor, or the [TypeError] of the call made with the
    parent of a root, or the [RecursionError] of the interpreter. *)
Lemma find_raises_from_parent_lookup budget t e :
  find budget (Some t) = Some (Raise e) ->
  (exists a, ancestor t a /\ get_parent_for a = Raise e)
  \/ (e = TypeError /\ exists a, ancestor t a /\ get_parent_for a = Ok None)
  \/ e = RecursionError.
Proof.
  revert t. induction budget as [|budget IH]; intros t.
  { intros [= <-]. auto. }
  rewrite find_unfold.
  destruct (String.eqb t "CActorComponent"); [discriminate|].
  case_bool_decide; [discriminate|].
  destruct (get_parent_for t) as [[p|]|e'] eqn:Hp.
  - intros Hf.
    destruct (IH _ Hf) as [(a & Ha & He) | [(-> & a & Ha & He) | ->]].
    + left. exists a. split; [econstructor; eassumption | exact He].
    + right. left. split; [reflexivity|].
      exists a. split; [econstructor; eassumption | exact He].
    + auto.
  - destruct budget; intros [= <-]; [auto|].
    right. left. split; [reflexivity|]. exists t. split; [constructor | exact Hp].
  - intros [= <-]. left. exists t. split; [constructor | exact Hp].
Qed.

(** With parent edges that strictly lower a rank, a depth of two above
    the rank is enough for the resolution to end by itself: more room
    for recursion gives the same outcome. *)
Lemma find_settles_within_rank (rank : string -> nat) :
  (forall t p, get_parent_for t = Ok (Some p) -> (rank p < rank t)%nat) ->
  forall budget t,
    (S (rank t) < budget)%nat ->
    find (S budget) (Some t) = find budget (Some t).
Proof.
  intros Hrank. induction budget as [|budget IH]; intros t Ht; [lia|].
  rewrite (find_unfold (S budget)), (find_unfold budget).
  destruct (String.eqb t "CActorComponent"); [reflexivity|].
  case_bool_decide; [reflexivity|].
  destruct (get_parent_for t) as [[p|]|e] eqn:Hp; [| |reflexivity].
  - apply IH. specialize (Hrank _ _ Hp). lia.
  - destruct budget; [lia | reflexivity].
Qed.

End Resolution.

(** C9: for a type other than [CActorComponent] whose candidate name
    ("CCharClass" followed by the type name without its first character)
    is registered in the schema table, the resolution returns that
    candidate whatever the parent lookup is, so also when the type has no
    entry in the hierarchy, and the field block of such a component is
    decoded with the candidate's construct.  The component itself still
    needs the type in the hierarchy: after the field block its decoding
    asks [is_child_of] about the type, for the extra properties and for
    the dependencies, and the failure of that call is the failure of
    the component; for a type without an entry the call fails with the
    unknown-type error whenever it is asked about another type. *)
Theorem C9_registered_candidate_resolves_without_a_parent_lookup :
  forall (F : Type) (fieldtypes : gmap string (Construct F)) (T : string)
         (c : Construct F),
    T <> "CActorComponent" ->
    fieldtypes !! as_char T = Some c ->
    forall (get_parent_for : string -> result (option string)) (budget : nat),
      find_charclass_for_type F fieldtypes get_parent_for (S budget) (Some T)
        = Some (Ok (as_char T))
      /\ (forall (PropertyEnum_construct : Construct string) s e s1 r s2,
            PropertyEnum_construct s = Ok (e, s1) ->
            PropertyEnum_construct s1 = Ok (r, s2) ->
            Component_fields F fieldtypes get_parent_for PropertyEnum_construct
              (S budget) T s
            = match c s2 with
              | Ok (v, rest) =>
                  Some (Ok ({| empty_string := e; root := r; fields_of_type := v |},
                            rest))
              | Raise err => Some (Raise (under "fields" err))
              end)
      /\ (forall (is_child_of : string -> string -> result bool)
                 (StrId_construct PropertyEnum_construct
                    DictElement_key_construct : Construct string)
                 s0 s1 unk s2 blk s3 err,
            StrId_construct s0 = Ok (T, s1) ->
            Array 2 Int32ul s1 = Some (Ok (unk, s2)) ->
            PrefixedAllowZeroLen Int32ul
              (Component_fields F fieldtypes get_parent_for PropertyEnum_construct
                 (S budget) T) s2 = Some (Ok (blk, s3)) ->
            is_child_of T "CComponent" = Raise err ->
            Component F fieldtypes get_parent_for is_child_of StrId_construct
              PropertyEnum_construct DictElement_key_construct (S budget) s0
            = Some (Raise (under "extra_fields" err)))
      /\ (forall (is_child_of : string -> string -> result bool)
                 (StrId_construct : Construct string) s err,
            is_child_of T "CFXComponent" = Raise err ->
            Dependencies is_child_of StrId_construct T s = Some (Raise err))
      /\ (forall (table : gmap string (option string)) (bound : nat)
                 (other : string),
            table !! T = None -> T <> other ->
            TypeLib.is_child_of table (S bound) (Some T) other
            = Raise (UnknownTypeError T)).
Proof.
  intros F fieldtypes T c HT Hc get_parent_for budget.
  assert (Hfind : find_charclass_for_type F fieldtypes get_parent_for (S budget)
                    (Some T) = Some (Ok (as_char T))).
  { rewrite find_unfold.
    apply String.eqb_neq in HT. rewrite HT.
    rewrite bool_decide_eq_true_2; [reflexivity|].
    rewrite Hc. eexists. reflexivity. }
  split; [exact Hfind|]. split; [|split; [|split]].
  - intros P s e s1 r s2 H1 H2.
    unfold Component_fields, PropertyEnum.
    rewrite (bind_ok _ _ s e s1);
      [|apply Renamed_ok; rewrite lift_eq, H1; reflexivity].
    rewrite (bind_ok _ _ s1 r s2);
      [|apply Renamed_ok; rewrite lift_eq, H2; reflexivity].
    unfold bind at 1, Renamed. rewrite Hfind. unfold Switch. rewrite Hc. simpl.
    destruct (c s2) as [[v rest]|err]; reflexivity.
  - intros is_child_of S P K s0 s1 unk s2 blk s3 err H0 H1 H2 Hchild.
    unfold Component.
    rewrite (bind_ok _ _ s0 T s1);
      [|apply Renamed_ok; unfold StrId; rewrite lift_eq, H0; reflexivity].
    erewrite bind_ok; [|apply Renamed_ok; exact H1].
    erewrite bind_ok; [|apply Renamed_ok; exact H2].
    apply bind_raise. apply Renamed_raise.
    unfold Component_extra_fields. apply bind_raise.
    rewrite Hchild. reflexivity.
  - intros is_child_of S s err Hchild.
    unfold Dependencies, component_type. simpl first_base.
    rewrite Hchild. reflexivity.
  - intros table bound other Hnone Hne. simpl.
    apply String.eqb_neq in Hne. rewrite Hne.
    unfold TypeLib.get_parent_for. rewrite Hnone. reflexivity.
Qed.

(** C9: a component whose type has a registered candidate decodes under
    a hierarchy that knows the type, and does not under the empty
    hierarchy, although the resolution returns the candidate there
    too. *)
Lemma C9_component_needs_its_type_in_the_hierarchy :
  find_charclass_for_type Z Examples.schemas (TypeLib.get_parent_for ∅) 5
    (Some "CFooComponent") = Some (Ok "CCharClassFooComponent")
  /\ Examples.decode_component Examples.schemas ∅ 5 Examples.foo_component
     = Some (Raise (UnknownTypeError "CFooComponent"))
  /\ Examples.decode Examples.schemas ∅ 5
       (Examples.actor_with "FOO" Examples.foo_component)
     = Some (Raise (UnknownTypeError "CFooComponent"))
  /\ exists c,
       Examples.decode_component Examples.schemas Examples.parents 5
         Examples.foo_component = Some (Ok (c, [])).
Proof.
  split; [vm_compute; reflexivity|].
  split; [vm_compute; reflexivity|].
  split; [vm_compute; reflexivity|].
  eexists. vm_compute. reflexivity.
Qed.

Lemma C9_witness :
  find_charclass_for_type Z Examples.schemas (TypeLib.get_parent_for ∅) 5
    (Some "CFooComponent") = Some (Ok "CCharClassFooComponent")
  /\ Examples.decode_component Examples.schemas ∅ 5 Examples.foo_component
     = Some (Raise (UnknownTypeError "CFooComponent")).
Proof.
  destruct (C9_registered_candidate_resolves_without_a_parent_lookup
              Z Examples.schemas "CFooComponent" Examples.OneByte
              ltac:(discriminate) ltac:(vm_compute; reflexivity)
              (TypeLib.get_parent_for ∅) 4)
    as (Hfind & _ & Hcomp & _ & Hchild).
  split; [exact Hfind|].
  change (Component Z Examples.schemas (TypeLib.get_parent_for ∅)
            (Examples.child_of ∅ 5) Examples.CString Examples.CString
            Examples.CString 5 Examples.foo_component
          = Some (Raise (under "extra_fields" (UnknownTypeError "CFooComponent")))).
  eapply Hcomp.
  - vm_compute. reflexivity.
  - vm_compute. reflexivity.
  - vm_compute. reflexivity.
  - apply (Hchild ∅ 4%nat "CComponent"); [vm_compute; reflexivity | discriminate].
Defined.

(** A type whose grandparent, but neither itself nor its parent, has
    a registered candidate resolves to the grandparent's schema. *)
Example resolution_ascends_to_the_grandparent :
  find_charclass_for_type Z Examples.schemas
    (TypeLib.get_parent_for
       (<["CBazComponent" := Some "CBarComponent"]> Examples.parents))
    5 (Some "CBazComponent")
  = Some (Ok "CCharClassFooComponent").
Proof. vm_compute. reflexivity. Qed.

(** An ascent that passes a root calls the resolution with the parent of
    the root, which is [None]: the outcome is a [TypeError] that names
    no type. *)
Example resolution_past_a_root_is_a_type_error :
  find_charclass_for_type Z Examples.no_schemas
    (TypeLib.get_parent_for Examples.parents) 5 (Some "CFooComponent")
  = Some (Raise TypeError).
Proof. vm_compute. reflexivity. Qed.

(** C2: at a type whose ascent runs out (its parent has no entry in the
    hierarchy and no candidate is registered), the resolution, and with it
    the decoding of a component of that type, ends with the failure of the
    parent lookup, which names the ancestor where the ascent stopped and
    not the type that was asked for. *)
Theorem C2_exhausted_ascent_reports_the_ancestor :
  forall budget : nat,
    find_charclass_for_type Z Examples.no_schemas
      (TypeLib.get_parent_for Examples.parents) (S (S budget))
      (Some "COrphanComponent")
      = Some (Raise (UnknownTypeError "CBase"))
    /\ Examples.decode_component Examples.no_schemas Examples.parents
         (S (S budget)) (Examples.bare_component "COrphanComponent")
       = Some (Raise (UnknownTypeError "CBase")).
Proof.
  intros budget.
  assert (Hfind : find_charclass_for_type Z Examples.no_schemas
      (TypeLib.get_parent_for Examples.parents) (S (S budget))
      (Some "COrphanComponent")
      = Some (Raise (UnknownTypeError "CBase"))).
  { rewrite find_unfold.
    change (find_charclass_for_type Z Examples.no_schemas
              (TypeLib.get_parent_for Examples.parents) (S budget) (Some "CBase")
            = Some (Raise (UnknownTypeError "CBase"))).
    rewrite find_unfold. vm_compute. reflexivity. }
  split; [exact Hfind|].
  unfold Examples.decode_component, Component.
  erewrite bind_ok; [|vm_compute; reflexivity].
  erewrite bind_ok; [|vm_compute; reflexivity].
  erewrite bind_raise; [reflexivity|].
  apply Renamed_raise_bare; [reflexivity|].
  unfold PrefixedAllowZeroLen.
  erewrite bind_ok; [|vm_compute; reflexivity].
  change (7 =? 0) with false. cbv iota.
  erewrite bind_ok; [|vm_compute; reflexivity].
  unfold Component_fields.
  erewrite bind_ok; [|vm_compute; reflexivity].
  erewrite bind_ok; [|vm_compute; reflexivity].
  unfold bind at 1, Renamed. rewrite Hfind. reflexivity.
Qed.

(** ** The parts of a component *)

Ltac bind_inv H :=
  let v := fresh "v" in
  let s := fresh "s" in
  let Hp := fresh "Hp" in
  apply bind_inv_ok in H as (v & s & Hp & H);
  try apply Renamed_inv_ok in Hp.

Lemma If_inv {A} (cond : bool) (p : Parser A) s v rest :
  If cond p s = Some (Ok (v, rest)) ->
  (cond = true /\ exists x, v = Some x /\ p s = Some (Ok (x, rest)))
  \/ (cond = false /\ v = None /\ rest = s).
Proof.
  unfold If. destruct cond.
  - intros H. bind_inv H. apply ret_inv_ok in H as [-> ->]. left. eauto.
  - intros H. apply ret_inv_ok in H as [-> ->]. right. auto.
Qed.

Lemma Array_raise_at {A} (p : Parser A) e k :
  forall n s items s',
    Array k p s = Some (Ok (items, s')) ->
    (k < n)%nat ->
    p s' = Some (Raise e) ->
    Array n p s = Some (Raise e).
Proof.
  induction k as [|k IH]; intros n s items s' Hk Hlt He.
  - apply ret_inv_ok in Hk as [_ ->].
    destruct n as [|n]; [lia|]. simpl. apply bind_raise. exact He.
  - destruct n as [|n]; [lia|]. simpl in Hk |- *.
    bind_inv Hk. bind_inv Hk. apply ret_inv_ok in Hk as [_ ->].
    rewrite (bind_ok _ _ _ _ _ Hp).
    apply bind_raise. eapply IH; [exact Hp0 | lia | exact He].
Qed.

Lemma Array_inv_Forall {A} (p : Parser A) (P : A -> Prop) :
  (forall s x rest, p s = Some (Ok (x, rest)) -> P x) ->
  forall n s items rest, Array n p s = Some (Ok (items, rest)) -> Forall P items.
Proof.
  intros Hp. induction n as [|n IH]; intros s items rest H; simpl in H.
  - apply ret_inv_ok in H as [-> _]. constructor.
  - bind_inv H. bind_inv H. apply ret_inv_ok in H as [-> _].
    constructor; [eapply Hp; eassumption | eapply IH; eassumption].
Qed.

Lemma dict_get_elem_of {A} (d : list (string * A)) k :
  k ∈ d.*1 -> is_Some (dict_get d k).
Proof.
  induction d as [|[k' v] d IH]; simpl.
  - intros H. inversion H.
  - intros H. destruct (String.eqb k k') eqn:E; [eexists; reflexivity|].
    apply String.eqb_neq in E. apply elem_of_cons in H as [H|H]; [congruence|].
    apply IH, H.
Qed.

Lemma prefix_refl (t : string) : String.prefix t t = true.
Proof.
  induction t as [|a t IH]; simpl; [reflexivity|].
  destruct (ascii_dec a a); [exact IH | congruence].
Qed.

Lemma is_infix_append (pre t : string) : is_infix t (pre +:+ t) = true.
Proof.
  induction pre as [|a pre IH]; simpl.
  - destruct t; simpl; [reflexivity|].
    destruct (ascii_dec a a); [|congruence]. rewrite prefix_refl. reflexivity.
  - match goal with |- (if ?c then _ else _) = _ => destruct c end;
      [reflexivity | exact IH].
Qed.

Lemma bind_evaluate_ok {A B} (a : A) (k : A -> Parser B) :
  bind (evaluate (Ok a)) k = k a.
Proof. reflexivity. Qed.

Lemma bind_Renamed_bind_ret {A B C} name (p : Parser A) (f : A -> B)
    (k : B -> Parser C) s :
  bind (Renamed name (bind p (fun v => ret (f v)))) k s
  = bind (Renamed name p) (fun v => k (f v)) s.
Proof.
  unfold bind, Renamed, ret. destruct (p s) as [[[v rest]|e]|]; reflexivity.
Qed.

Section ComponentProperties.

Context {FieldsValue : Type}.
Variable fieldtypes : gmap string (Construct FieldsValue).
Variable get_parent_for : string -> result (option string).
Variable is_child_of : string -> string -> result bool.
Variable StrId_construct : Construct string.
Variable PropertyEnum_construct : Construct string.
Variable DictElement_key_construct : Construct string.
Variable depth : nat.

Local Notation Component' :=
  (Component FieldsValue fieldtypes get_parent_for is_child_of StrId_construct
     PropertyEnum_construct DictElement_key_construct depth).
Local Notation Component_fields' :=
  (Component_fields FieldsValue fieldtypes get_parent_for PropertyEnum_construct depth).
Local Notation Component_extra_fields' :=
  (Component_extra_fields is_child_of StrId_construct DictElement_key_construct).
Local Notation Dependencies' := (Dependencies is_child_of StrId_construct).
Local Notation component_type' := (component_type is_child_of StrId_construct).
Local Notation component_dependencies' := (component_dependencies StrId_construct).
Local Notation first_base' := (first_base is_child_of).

Lemma first_base_spec this_type keys :
  match first_base' this_type keys with
  | Ok (Some base) =>
      exists before after,
        keys = before ++ base :: after
        /\ Forall (fun b => is_child_of this_type b = Ok false) before
        /\ is_child_of this_type base = Ok true
  | Ok None => Forall (fun b => is_child_of this_type b = Ok false) keys
  | Raise e =>
      exists before failing after,
        keys = before ++ failing :: after
        /\ Forall (fun b => is_child_of this_type b = Ok false) before
        /\ is_child_of this_type failing = Raise e
  end.
Proof.
  induction keys as [|k keys IH]; simpl; [constructor|].
  destruct (is_child_of this_type k) as [[|]|e] eqn:E.
  - exists [], keys. auto.
  - destruct (first_base' this_type keys) as [[base|]|e].
    + destruct IH as (before & after & -> & Hb & Hbase).
      exists (k :: before), after. auto.
    + constructor; assumption.
    + destruct IH as (before & failing & after & -> & Hb & Hfail).
      exists (k :: before), failing, after. auto.
  - exists [], k, keys. auto.
Qed.

(** C4: the dependency layout of a component is that of the first base,
    in the order the layouts are listed, of which the component's type
    is a child, so that of two matching bases the one listed earlier
    wins; when no listed base matches, the payload is the empty variant
    and no byte is read.  The bases are asked about in that order, and
    a failure of [is_child_of] on the way is the failure of the
    dispatch. *)
Theorem C4_dependencies_follow_first_matching_base :
  forall this_type : string,
    component_dependencies'.*1
      = ["CFXComponent"; "CCollisionComponent"; "CGrabComponent";
         "CBillboardComponent"; "CSwarmControllerComponent";
         "CStandaloneFXComponent"]
    /\ match component_type' this_type with
       | Ok (Some base) =>
           exists before after layout,
             component_dependencies'.*1 = before ++ base :: after
             /\ Forall (fun b => is_child_of this_type b = Ok false) before
             /\ is_child_of this_type base = Ok true
             /\ dict_get component_dependencies' base = Some layout
             /\ Dependencies' this_type = layout
       | Ok None =>
           Forall (fun b => is_child_of this_type b = Ok false)
                  component_dependencies'.*1
           /\ forall s, Dependencies' this_type s = Some (Ok (DepNone, s))
       | Raise e =>
           exists before failing after,
             component_dependencies'.*1 = before ++ failing :: after
             /\ Forall (fun b => is_child_of this_type b = Ok false) before
             /\ is_child_of this_type failing = Raise e
             /\ forall s, Dependencies' this_type s = Some (Raise e)
       end.
Proof.
  intros this_type. split; [reflexivity|].
  unfold Dependencies, component_type.
  pose proof (first_base_spec this_type component_dependencies'.*1) as Hspec.
  destruct (first_base' this_type component_dependencies'.*1) as [[base|]|e].
  - destruct Hspec as (before & after & Hkeys & Hbefore & Hbase).
    assert (Hin : base ∈ component_dependencies'.*1).
    { rewrite Hkeys. apply elem_of_app. right. apply elem_of_cons. auto. }
    destruct (dict_get_elem_of _ _ Hin) as [layout Hlayout].
    exists before, after, layout. repeat split; try assumption.
    rewrite bind_evaluate_ok.
    unfold Switch. cbn [mbind option_bind]. rewrite Hlayout. reflexivity.
  - split; [exact Hspec|]. intros s. reflexivity.
  - destruct Hspec as (before & failing & after & Hkeys & Hbefore & Hfail).
    exists before, failing, after. repeat split; try assumption.
Qed.

Lemma Component_extra_fields_inv type s v rest :
  Component_extra_fields' type s = Some (Ok (v, rest)) ->
  (is_child_of type "CComponent" = Ok true
   /\ exists x, v = Some x
      /\ DictAdapter
           (make_vector
              (DictElement (ExtraField StrId_construct)
                 (DictElement_key DictElement_key_construct))) s
         = Some (Ok (x, rest)))
  \/ (is_child_of type "CComponent" = Ok false /\ v = None /\ rest = s).
Proof.
  unfold Component_extra_fields. intros H.
  apply bind_inv_ok in H as (cond & s' & Hc & H).
  apply evaluate_inv_ok in Hc as [Hc ->].
  apply If_inv in H as [(-> & x & -> & Hx)|(-> & -> & ->)]; [left | right]; eauto.
Qed.

(** C3: a decoded component carries an [extra_fields] map exactly when
    [is_child_of(type, "CComponent")] holds for its type; when it does
    not, the entry is absent ([None], not an empty map) and no byte is
    read for it. *)
Theorem C3_extra_fields_iff_child_of_CComponent :
  (forall s c rest,
     Component' s = Some (Ok (c, rest)) ->
     (is_Some (comp_extra_fields c)
      <-> is_child_of (comp_type c) "CComponent" = Ok true))
  /\ (forall type s,
        is_child_of type "CComponent" = Ok false ->
        Component_extra_fields' type s = Some (Ok (None, s)))
  /\ (forall type s v rest,
        is_child_of type "CComponent" = Ok true ->
        Component_extra_fields' type s = Some (Ok (v, rest)) ->
        is_Some v).
Proof.
  split; [|split].
  - intros s c rest H. unfold Component in H.
    bind_inv H. bind_inv H. bind_inv H. bind_inv H. bind_inv H. bind_inv H.
    apply ret_inv_ok in H as [-> _]. simpl.
    apply Component_extra_fields_inv in Hp2
      as [(Hc & x & -> & _)|(Hc & -> & _)]; rewrite Hc.
    + split; [reflexivity | eexists; reflexivity].
    + split; [intros [? [=]] | discriminate].
  - intros type s Hc. unfold Component_extra_fields. rewrite Hc. reflexivity.
  - intros type s v rest Hc H.
    apply Component_extra_fields_inv in H
      as [(_ & x & -> & _)|(Hc' & _)]; [eexists; reflexivity|].
    congruence.
Qed.

Local Notation ExtraField' := (ExtraField StrId_construct).
Local Notation FunctionArgument' := (FunctionArgument StrId_construct).
Local Notation Function' := (Function StrId_construct PropertyEnum_construct).
Local Notation Functions' := (Functions StrId_construct PropertyEnum_construct).
Local Notation StrId' := (StrId StrId_construct).
Local Notation PropertyEnum' := (PropertyEnum PropertyEnum_construct).
Local Notation DictElement_key' := (DictElement_key DictElement_key_construct).

Lemma ExtraField_unknown_tag s tag rest :
  StrId_construct s = Ok (tag, rest) ->
  tag <> "bool" -> tag <> "string" ->
  ExtraField' s
  = Some (Raise (At "value"
                   (MessageError SwitchError ("Unknown argument type: " +:+ tag)))).
Proof.
  intros Hs Hb Hstr. unfold ExtraField.
  rewrite (bind_ok _ _ s tag rest);
    [|apply Renamed_ok; unfold StrId; rewrite lift_eq, Hs; reflexivity].
  apply bind_raise. apply Renamed_raise_at; [reflexivity|].
  unfold Switch, ExtraField_cases. simpl.
  apply String.eqb_neq in Hb, Hstr. rewrite Hb, Hstr. reflexivity.
Qed.

(** C10: the type tag of an extra-property entry is read with the string
    construct [StrId] and looked up among exactly "bool" and "string":
    "bool" is followed by a flag, "string" by a string, and any other
    tag, at whatever position in the map, makes the decoding of the
    component fail with the unknown-type error carrying that tag, raised
    under the key of the entry. *)
Theorem C10_extra_tag_is_a_string_matched_exactly :
  (forall s tag rest,
     StrId_construct s = Ok (tag, rest) ->
     ExtraField' s =
       if String.eqb tag "bool" then
         (let* v := Renamed "value" Flag in
          ret {| extra_type := tag; extra_value := ExtraBool v |}) rest
       else if String.eqb tag "string" then
         (let* v := Renamed "value" StrId' in
          ret {| extra_type := tag; extra_value := ExtraString v |}) rest
       else
         Some (Raise (At "value"
                        (MessageError SwitchError
                           ("Unknown argument type: " +:+ tag)))))
  /\ (forall s0 type s1 unk s2 blk s3 count s4 k items s5 key s6 tag s7,
        StrId_construct s0 = Ok (type, s1) ->
        Array 2 Int32ul s1 = Some (Ok (unk, s2)) ->
        PrefixedAllowZeroLen Int32ul (Component_fields' type) s2
          = Some (Ok (blk, s3)) ->
        is_child_of type "CComponent" = Ok true ->
        Int32ul s3 = Some (Ok (count, s4)) ->
        Array k (DictElement ExtraField' DictElement_key') s4
          = Some (Ok (items, s5)) ->
        (k < Z.to_nat count)%nat ->
        DictElement_key_construct s5 = Ok (key, s6) ->
        StrId_construct s6 = Ok (tag, s7) ->
        tag <> "bool" -> tag <> "string" ->
        Component' s0
        = Some (Raise (At "extra_fields"
                         (At key
                            (At "value"
                               (MessageError SwitchError
                                  ("Unknown argument type: " +:+ tag))))))).
Proof.
  split.
  - intros s tag rest Hs. unfold ExtraField.
    rewrite (bind_ok _ _ s tag rest);
      [|apply Renamed_ok; unfold StrId; rewrite lift_eq, Hs; reflexivity].
    unfold Switch, ExtraField_cases. simpl.
    destruct (String.eqb tag "bool"); [rewrite bind_Renamed_bind_ret; reflexivity|].
    destruct (String.eqb tag "string"); [rewrite bind_Renamed_bind_ret|]; reflexivity.
  - intros s0 type s1 unk s2 blk s3 count s4 k items s5 key s6 tag s7
           H0 H1 H2 Hchild H3 H4 Hk H5 H6 Hb Hstr.
    unfold Component.
    rewrite (bind_ok _ _ s0 type s1);
      [|apply Renamed_ok; unfold StrId; rewrite lift_eq, H0; reflexivity].
    erewrite bind_ok; [|apply Renamed_ok; exact H1].
    erewrite bind_ok; [|apply Renamed_ok; exact H2].
    apply bind_raise. apply Renamed_raise_at; [reflexivity|].
    unfold Component_extra_fields. rewrite Hchild, bind_evaluate_ok. unfold If.
    apply bind_raise. unfold DictAdapter.
    assert (Hvec : make_vector (DictElement ExtraField' DictElement_key') s3
                   = Some (Raise (At key
                                    (At "value"
                                       (MessageError SwitchError
                                          ("Unknown argument type: " +:+ tag)))))).
    { unfold make_vector. erewrite bind_ok; [|exact H3].
      eapply Array_raise_at; [exact H4 | exact Hk |].
      unfold DictElement.
      rewrite (bind_ok _ _ s5 key s6);
        [|unfold DictElement_key; rewrite lift_eq, H5; reflexivity].
      apply bind_raise. apply Renamed_raise_at; [reflexivity|].
      apply (ExtraField_unknown_tag s6 tag s7); assumption. }
    rewrite Hvec. reflexivity.
Qed.

(** What [FunctionArgument] does with the byte it starts on. *)
Lemma FunctionArgument_dispatch (b : byte) (rest : list byte) :
  FunctionArgument' (b :: rest) =
    if byte_val b =? 0 then
      Some (Raise (At "value" (MessageError SwitchError "Unknown argument type: ")))
    else if 128 <=? byte_val b then Some (Raise StringError)
    else
      let type := String (ascii_of_byte b) EmptyString in
      if String.eqb type "s" then
        (let* v := Renamed "value" StrId' in
         ret {| arg_type := type; arg_value := ArgString v |}) rest
      else if String.eqb type "f" then
        (let* v := Renamed "value" Float32l in
         ret {| arg_type := type; arg_value := ArgFloat v |}) rest
      else if String.eqb type "b" then
        (let* v := Renamed "value" Flag in
         ret {| arg_type := type; arg_value := ArgBool v |}) rest
      else if String.eqb type "i" then
        (let* v := Renamed "value" Int32ul in
         ret {| arg_type := type; arg_value := ArgInt v |}) rest
      else
        Some (Raise (At "value"
                       (MessageError SwitchError
                          ("Unknown argument type: " +:+ type)))).
Proof.
  destruct b; try reflexivity.
  all: unfold FunctionArgument; simpl.
  all: erewrite bind_ok; [|reflexivity].
  all: unfold Switch; simpl; rewrite bind_Renamed_bind_ret; reflexivity.
Qed.

(** C6: an argument value starts with a one-byte ASCII
    discriminant: [s] is followed by a string, [f] by a 32-bit float,
    [b] by a one-byte flag, [i] by a 32-bit unsigned integer; any other
    discriminant fails with the unknown-type error, whose text carries
    the discriminant and whose path carries the key of the argument:
    the error of an argument leaves its map entry under the key that was
    read, the function under "params", and the function table as it
    is. *)
Theorem C6_argument_discriminant_dispatch :
  (forall (b : byte) (rest : list byte),
     FunctionArgument' (b :: rest) =
       if byte_val b =? 0 then
         Some (Raise (At "value" (MessageError SwitchError "Unknown argument type: ")))
       else if 128 <=? byte_val b then Some (Raise StringError)
       else
         let type := String (ascii_of_byte b) EmptyString in
         if String.eqb type "s" then
           (let* v := Renamed "value" StrId' in
            ret {| arg_type := type; arg_value := ArgString v |}) rest
         else if String.eqb type "f" then
           (let* v := Renamed "value" Float32l in
            ret {| arg_type := type; arg_value := ArgFloat v |}) rest
         else if String.eqb type "b" then
           (let* v := Renamed "value" Flag in
            ret {| arg_type := type; arg_value := ArgBool v |}) rest
         else if String.eqb type "i" then
           (let* v := Renamed "value" Int32ul in
            ret {| arg_type := type; arg_value := ArgInt v |}) rest
         else
           Some (Raise (At "value"
                          (MessageError SwitchError
                             ("Unknown argument type: " +:+ type)))))
  /\ (forall s key rest e,
        PropertyEnum_construct s = Ok (key, rest) ->
        FunctionArgument' rest = Some (Raise e) ->
        DictElement FunctionArgument' PropertyEnum' s = Some (Raise (under key e)))
  /\ (forall s0 name s1 unk s2 count s3 k items s4 key b rest,
        StrId_construct s0 = Ok (name, s1) ->
        Int16ul s1 = Some (Ok (unk, s2)) ->
        Int32ul s2 = Some (Ok (count, s3)) ->
        Array k (DictElement FunctionArgument' PropertyEnum') s3
          = Some (Ok (items, s4)) ->
        (k < Z.to_nat count)%nat ->
        PropertyEnum_construct s4 = Ok (key, b :: rest) ->
        0 < byte_val b < 128 ->
        let type := String (ascii_of_byte b) EmptyString in
        type <> "s" -> type <> "f" -> type <> "b" -> type <> "i" ->
        let e :=
          At "params"
            (At key
               (At "value"
                  (MessageError SwitchError ("Unknown argument type: " +:+ type)))) in
        Function' s0 = Some (Raise e)
        /\ cause e = MessageError SwitchError ("Unknown argument type: " +:+ type)
        /\ mentions e type = true
        /\ path_of e = ["params"; key; "value"])
  /\ (forall s count s1 j fs s2 e,
        Int32ul s = Some (Ok (count, s1)) ->
        Array j Function' s1 = Some (Ok (fs, s2)) ->
        (j < Z.to_nat count)%nat ->
        Function' s2 = Some (Raise e) ->
        Functions' s = Some (Raise e)).
Proof.
  split; [|split; [|split]].
  - exact FunctionArgument_dispatch.
  - intros s key rest e Hk He. unfold DictElement.
    rewrite (bind_ok _ _ s key rest);
      [|unfold PropertyEnum; rewrite lift_eq, Hk; reflexivity].
    apply bind_raise. apply Renamed_raise. exact He.
  - intros s0 name s1 unk s2 count s3 k items s4 key b rest
           H0 H1 H2 H3 Hk H4 Hb type Hs Hf Hbb Hi e.
    split; [|split; [|split]]; try reflexivity.
    + unfold Function.
      rewrite (bind_ok _ _ s0 name s1);
        [|apply Renamed_ok; unfold StrId; rewrite lift_eq, H0; reflexivity].
      erewrite bind_ok; [|apply Renamed_ok; exact H1].
      apply bind_raise. apply Renamed_raise_at; [reflexivity|].
      unfold DictAdapter.
      assert (Hvec : make_vector (DictElement FunctionArgument' PropertyEnum') s2
                     = Some (Raise (At key
                                      (At "value"
                                         (MessageError SwitchError
                                            ("Unknown argument type: " +:+ type)))))).
      { unfold make_vector. erewrite bind_ok; [|exact H2].
        eapply Array_raise_at; [exact H3 | exact Hk |].
        unfold DictElement.
        rewrite (bind_ok _ _ s4 key (b :: rest));
          [|unfold PropertyEnum; rewrite lift_eq, H4; reflexivity].
        apply bind_raise. apply Renamed_raise_at; [reflexivity|].
        rewrite FunctionArgument_dispatch.
        replace (byte_val b =? 0) with false by (symmetry; apply Z.eqb_neq; lia).
        replace (128 <=? byte_val b) with false by (symmetry; apply Z.leb_gt; lia).
        cbv zeta. fold type.
        apply String.eqb_neq in Hs, Hf, Hbb, Hi. rewrite Hs, Hf, Hbb, Hi.
        reflexivity. }
      rewrite Hvec. reflexivity.
    + unfold mentions. apply is_infix_append.
  - intros s count s1 j fs s2 e H0 H1 Hj He.
    unfold Functions, make_vector. erewrite bind_ok; [|exact H0].
    eapply Array_raise_at; eassumption.
Qed.

Local Notation find' :=
  (find_charclass_for_type FieldsValue fieldtypes get_parent_for).

Lemma Component_fields_inv type window v rest :
  Component_fields' type window = Some (Ok (v, rest)) ->
  exists w1 w2 name c,
    PropertyEnum_construct window = Ok (empty_string v, w1)
    /\ PropertyEnum_construct w1 = Ok (root v, w2)
    /\ find' depth (Some type) = Some (Ok name)
    /\ fieldtypes !! name = Some c
    /\ c w2 = Ok (fields_of_type v, rest).
Proof.
  unfold Component_fields. intros H.
  bind_inv H. bind_inv H. bind_inv H. apply ret_inv_ok in H as [-> ->].
  unfold PropertyEnum in Hp, Hp0. rewrite lift_eq in Hp, Hp0.
  destruct (find' depth (Some type)) as [[name|e]|] eqn:Hfind; try discriminate.
  unfold Switch in Hp1.
  destruct (fieldtypes !! name) as [c|] eqn:Hc; simpl in Hp1; [|discriminate].
  rewrite lift_eq in Hp1.
  injection Hp as Hp. injection Hp0 as Hp0. injection Hp1 as Hp1.
  exists s, s0, name, c. simpl. auto 10.
Qed.

(** C5: a field block whose 32-bit length is zero reads nothing after
    the length, whatever the schema tables and the result of the
    resolution, and its value is [None], the value of an entry that is
    missing.  A block of nonzero length is decoded from exactly the
    declared number of bytes: the two key placeholders and the fields of
    the resolved schema see those bytes and nothing after them, so that
    a content that needs more fails as it would at the end of the data,
    and data shorter than declared is fatal; the bytes of the block that
    the content leaves unread are passed over, and the decoding goes on
    after the block. *)
Theorem C5_field_block_framing :
  forall type : string,
    (forall rest,
       PrefixedAllowZeroLen Int32ul (Component_fields' type)
         ([x00; x00; x00; x00] ++ rest) = Some (Ok (None, rest)))
    /\ (forall len_bytes window rest,
          length len_bytes = 4%nat ->
          le_uint len_bytes <> 0 ->
          Z.of_nat (length window) = le_uint len_bytes ->
          PrefixedAllowZeroLen Int32ul (Component_fields' type)
            (len_bytes ++ window ++ rest) =
            match Component_fields' type window with
            | Some (Ok (v, unread)) => Some (Ok (Some v, rest))
            | Some (Raise e) => Some (Raise e)
            | None => None
            end)
    /\ (forall len_bytes short,
          length len_bytes = 4%nat ->
          Z.of_nat (length short) < le_uint len_bytes ->
          PrefixedAllowZeroLen Int32ul (Component_fields' type)
            (len_bytes ++ short) = Some (Raise StreamError))
    /\ (forall window v unread,
          Component_fields' type window = Some (Ok (v, unread)) ->
          exists w1 w2 name c,
            PropertyEnum_construct window = Ok (empty_string v, w1)
            /\ PropertyEnum_construct w1 = Ok (root v, w2)
            /\ find' depth (Some type) = Some (Ok name)
            /\ fieldtypes !! name = Some c
            /\ c w2 = Ok (fields_of_type v, unread)).
Proof.
  intros type. split; [|split; [|split]].
  - intros rest. reflexivity.
  - intros len_bytes window rest Hlen Hnz Hwin.
    unfold PrefixedAllowZeroLen.
    erewrite bind_ok; [|apply Int32ul_app; exact Hlen].
    apply Z.eqb_neq in Hnz. rewrite Hnz.
    erewrite bind_ok; [|apply stream_read_app; lia].
    destruct (Component_fields' type window) as [[[v unread]|e]|]; reflexivity.
  - intros len_bytes short Hlen Hshort.
    unfold PrefixedAllowZeroLen.
    erewrite bind_ok; [|apply Int32ul_app; exact Hlen].
    assert (Hnz : (le_uint len_bytes =? 0) = false) by (apply Z.eqb_neq; lia).
    rewrite Hnz. apply bind_raise. apply stream_read_short. lia.
  - intros window v unread. apply Component_fields_inv.
Qed.

End ComponentProperties.

(** ** Maps and their keys *)

Lemma dict_of_items_spec {A} (items acc : list (string * A)) :
  NoDup acc.*1 ->
  match dict_of_items acc items with
  | Ok d => d = acc ++ items /\ NoDup d.*1
  | Raise e =>
      exists k, e = DuplicateKeyError k /\ k ∈ items.*1
                /\ ~ NoDup (acc ++ items).*1
  end.
Proof.
  revert acc. induction items as [|[k v] items IH]; intros acc Hacc; simpl.
  - rewrite app_nil_r. auto.
  - case_bool_decide as Hk.
    + exists k. split; [reflexivity|]. split; [apply elem_of_cons; auto|].
      rewrite fmap_app. simpl. intros Hnd.
      apply NoDup_app in Hnd as (_ & Hdisj & _).
      apply (Hdisj k Hk). apply elem_of_cons. auto.
    + assert (Hacc' : NoDup (acc ++ [(k, v)]).*1).
      { rewrite fmap_app. simpl. apply NoDup_app. split; [exact Hacc|].
        split; [|apply NoDup_singleton].
        intros x Hx Hx'. apply list_elem_of_singleton in Hx'. subst. auto. }
      specialize (IH _ Hacc').
      rewrite <- app_assoc in IH. simpl in IH.
      destruct (dict_of_items (acc ++ [(k, v)]) items) as [d|e]; [exact IH|].
      destruct IH as (k' & -> & Hin & Hnd).
      exists k'. split; [reflexivity|]. split; [|exact Hnd].
      apply elem_of_cons. auto.
Qed.

Lemma DictAdapter_inv {A} (p : Parser (list (string * A))) s d rest :
  DictAdapter p s = Some (Ok (d, rest)) ->
  p s = Some (Ok (d, rest)) /\ NoDup d.*1.
Proof.
  unfold DictAdapter.
  destruct (p s) as [[[items rest']|e]|]; try discriminate.
  pose proof (dict_of_items_spec items [] (NoDup_nil_2 : NoDup ([] : list (string * A)).*1)) as Hspec.
  destruct (dict_of_items [] items) as [d'|e]; [|discriminate].
  destruct Hspec as [-> Hnd]. intros [= <- <-]. auto.
Qed.

Lemma DictAdapter_no_dup {A} (p : Parser (list (string * A))) s items rest :
  p s = Some (Ok (items, rest)) -> NoDup items.*1 ->
  DictAdapter p s = Some (Ok (items, rest)).
Proof.
  intros Hp Hnd. unfold DictAdapter. rewrite Hp.
  pose proof (dict_of_items_spec items [] (NoDup_nil_2 : NoDup ([] : list (string * A)).*1)) as Hspec.
  destruct (dict_of_items [] items) as [d'|e].
  - destruct Hspec as [-> _]. reflexivity.
  - destruct Hspec as (k & _ & _ & Hdup). contradiction.
Qed.

Lemma DictAdapter_dup {A} (p : Parser (list (string * A))) s items rest :
  p s = Some (Ok (items, rest)) -> ~ NoDup items.*1 ->
  exists k, k ∈ items.*1 /\ DictAdapter p s = Some (Raise (DuplicateKeyError k)).
Proof.
  intros Hp Hdup. unfold DictAdapter. rewrite Hp.
  pose proof (dict_of_items_spec items [] (NoDup_nil_2 : NoDup ([] : list (string * A)).*1)) as Hspec.
  destruct (dict_of_items [] items) as [d'|e].
  - destruct Hspec as [-> Hnd]. contradiction.
  - destruct Hspec as (k & -> & Hin & _). exists k. auto.
Qed.

(** ** Whole resources *)

Section DefinitionProperties.

Context {FieldsValue : Type}.
Variable fieldtypes : gmap string (Construct FieldsValue).
Variable get_parent_for : string -> result (option string).
Variable is_child_of : string -> string -> result bool.
Variable StrId_construct : Construct string.
Variable PropertyEnum_construct : Construct string.
Variable DictElement_key_construct : Construct string.
Variable depth : nat.

Local Notation Component' :=
  (Component FieldsValue fieldtypes get_parent_for is_child_of StrId_construct
     PropertyEnum_construct DictElement_key_construct depth).
Local Notation Function' := (Function StrId_construct PropertyEnum_construct).
Local Notation Functions' := (Functions StrId_construct PropertyEnum_construct).
Local Notation FunctionArgument' := (FunctionArgument StrId_construct).
Local Notation ExtraField' := (ExtraField StrId_construct).
Local Notation StrId' := (StrId StrId_construct).
Local Notation PropertyEnum' := (PropertyEnum PropertyEnum_construct).
Local Notation DictElement_key' := (DictElement_key DictElement_key_construct).
Local Notation make_dict' := (make_dict DictElement_key_construct).
Local Notation CActorDef' :=
  (CActorDef FieldsValue fieldtypes get_parent_for is_child_of StrId_construct
     PropertyEnum_construct DictElement_key_construct depth).
Local Notation CCharClass' :=
  (CCharClass FieldsValue fieldtypes get_parent_for is_child_of StrId_construct
     PropertyEnum_construct DictElement_key_construct depth).
Local Notation BMSAD' :=
  (BMSAD FieldsValue fieldtypes get_parent_for is_child_of StrId_construct
     PropertyEnum_construct DictElement_key_construct depth).
Local Notation find' :=
  (find_charclass_for_type FieldsValue fieldtypes get_parent_for).
Local Notation Component_fields' :=
  (Component_fields FieldsValue fieldtypes get_parent_for PropertyEnum_construct depth).
Local Notation Component_extra_fields' :=
  (Component_extra_fields is_child_of StrId_construct DictElement_key_construct).
Local Notation Dependencies' := (Dependencies is_child_of StrId_construct).

Lemma Functions_keys_unique s fs rest :
  Functions' s = Some (Ok (fs, rest)) ->
  Forall (fun f => NoDup (fn_params f).*1) fs.
Proof.
  unfold Functions, make_vector. intros H. bind_inv H.
  eapply Array_inv_Forall; [|exact H].
  clear. intros s f rest H. unfold Function in H.
  bind_inv H. bind_inv H. bind_inv H. apply ret_inv_ok in H as [-> _].
  simpl. apply DictAdapter_inv in Hp1 as [_ Hnd]. exact Hnd.
Qed.

Lemma Component_keys_unique s c rest :
  Component' s = Some (Ok (c, rest)) -> component_keys_unique c.
Proof.
  unfold Component. intros H.
  bind_inv H. bind_inv H. bind_inv H. bind_inv H. bind_inv H. bind_inv H.
  apply ret_inv_ok in H as [-> _].
  split; simpl.
  - intros m ->.
    apply Component_extra_fields_inv in Hp2
      as [(_ & x & [= <-] & Hx)|(_ & [=] & _)].
    apply DictAdapter_inv in Hx as [_ Hnd]. exact Hnd.
  - eapply Functions_keys_unique. exact Hp3.
Qed.

Lemma make_dict_Component_unique s d rest :
  make_dict' Component' s = Some (Ok (d, rest)) ->
  NoDup d.*1 /\ Forall (fun kc => component_keys_unique kc.2) d.
Proof.
  unfold make_dict. intros H.
  apply DictAdapter_inv in H as [H Hnd]. split; [exact Hnd|].
  unfold make_vector in H. bind_inv H.
  eapply Array_inv_Forall; [|exact H].
  intros s1 [k c] rest1 He. unfold DictElement in He.
  bind_inv He. bind_inv He. apply ret_inv_ok in He as [[= -> ->] _].
  simpl. eapply Component_keys_unique. exact Hp1.
Qed.

(** C7: on each of the three maps the decoder builds, the arguments of
    a function, the extra properties of a component and the components
    of a definition, the entries are read as a vector and a key met a
    second time is fatal: when the keys of the entries read all differ
    the map holds every entry, in the order read, and when they do not
    the function, the component or the definition fails with the
    duplicate key error for a key of the entries, and no map is made;
    so in a decoded resource the component keys, the keys of each
    component's extra properties and the argument keys of each function
    are pairwise distinct. *)
Theorem C7_duplicate_keys_are_fatal :
  (forall s0 name s1 unk s2 items s3,
     StrId_construct s0 = Ok (name, s1) ->
     Int16ul s1 = Some (Ok (unk, s2)) ->
     make_vector (DictElement FunctionArgument' PropertyEnum') s2
       = Some (Ok (items, s3)) ->
     (NoDup items.*1 ->
      Function' s0
      = Some (Ok ({| fn_name := name; fn_unk := unk; fn_params := items |}, s3)))
     /\ (~ NoDup items.*1 ->
         exists k, k ∈ items.*1
                   /\ Function' s0
                      = Some (Raise (At "params" (DuplicateKeyError k)))))
  /\ (forall s0 type s1 unk s2 blk s3 items s4,
        StrId_construct s0 = Ok (type, s1) ->
        Array 2 Int32ul s1 = Some (Ok (unk, s2)) ->
        PrefixedAllowZeroLen Int32ul (Component_fields' type) s2
          = Some (Ok (blk, s3)) ->
        is_child_of type "CComponent" = Ok true ->
        make_vector (DictElement ExtraField' DictElement_key') s3
          = Some (Ok (items, s4)) ->
        (NoDup items.*1 ->
         Component_extra_fields' type s3 = Some (Ok (Some items, s4)))
        /\ (~ NoDup items.*1 ->
            exists k, k ∈ items.*1
                      /\ Component' s0
                         = Some (Raise (At "extra_fields" (DuplicateKeyError k)))))
  /\ (forall s items rest,
        make_vector (DictElement Component' DictElement_key') s
          = Some (Ok (items, rest)) ->
        (NoDup items.*1 -> make_dict' Component' s = Some (Ok (items, rest)))
        /\ (~ NoDup items.*1 ->
            exists k,
              k ∈ items.*1
              /\ make_dict' Component' s = Some (Raise (DuplicateKeyError k))
              /\ (forall s0 u1 s1 u2 s2 u3 s3 subs s4 u4,
                    Int16ul s0 = Some (Ok (u1, s1)) ->
                    Int32ul s1 = Some (Ok (u2, s2)) ->
                    Int16ul s2 = Some (Ok (u3, s3)) ->
                    PrefixedArray Int32ul StrId' s3 = Some (Ok (subs, s4)) ->
                    StrId_construct s4 = Ok (u4, s) ->
                    CActorDef' s0
                    = Some (Raise (At "components" (DuplicateKeyError k))))
              /\ (forall s0 model s1 u1 s2 u2 s3 u3 s4 subs s5 u4 s6 magic s7
                         u5 s8 u6 s9 u7,
                    StrId_construct s0 = Ok (model, s1) ->
                    Int16ul s1 = Some (Ok (u1, s2)) ->
                    Int32ul s2 = Some (Ok (u2, s3)) ->
                    Int16ul s3 = Some (Ok (u3, s4)) ->
                    PrefixedArray Int32ul StrId' s4 = Some (Ok (subs, s5)) ->
                    Array 9 Float32l s5 = Some (Ok (u4, s6)) ->
                    Const 4294967295 Int32ul s6 = Some (Ok (magic, s7)) ->
                    Byte s7 = Some (Ok (u5, s8)) ->
                    StrId_construct s8 = Ok (u6, s9) ->
                    Byte s9 = Some (Ok (u7, s)) ->
                    CCharClass' s0
                    = Some (Raise (At "components" (DuplicateKeyError k))))))
  /\ (forall data r,
        parse BMSAD' data = Some (Ok r) ->
        NoDup (components_of r).*1
        /\ Forall (fun kc => component_keys_unique kc.2) (components_of r)).
Proof.
  split; [|split; [|split]].
  - intros s0 name s1 unk s2 items s3 H0 H1 H2.
    split.
    + intros Hnd. unfold Function.
      rewrite (bind_ok _ _ s0 name s1);
        [|apply Renamed_ok; unfold StrId; rewrite lift_eq, H0; reflexivity].
      erewrite bind_ok; [|apply Renamed_ok; exact H1].
      erewrite bind_ok; [reflexivity|].
      apply Renamed_ok. apply DictAdapter_no_dup; assumption.
    + intros Hdup.
      destruct (DictAdapter_dup _ _ _ _ H2 Hdup) as (k & Hin & Hk).
      exists k. split; [exact Hin|]. unfold Function.
      rewrite (bind_ok _ _ s0 name s1);
        [|apply Renamed_ok; unfold StrId; rewrite lift_eq, H0; reflexivity].
      erewrite bind_ok; [|apply Renamed_ok; exact H1].
      apply bind_raise. apply Renamed_raise_at; [reflexivity | exact Hk].
  - intros s0 type s1 unk s2 blk s3 items s4 H0 H1 H2 Hchild H3. split.
    + intros Hnd. unfold Component_extra_fields.
      rewrite Hchild, bind_evaluate_ok. unfold If.
      erewrite bind_ok; [reflexivity|].
      apply DictAdapter_no_dup; assumption.
    + intros Hdup.
      destruct (DictAdapter_dup _ _ _ _ H3 Hdup) as (k & Hin & Hk).
      exists k. split; [exact Hin|]. unfold Component.
      rewrite (bind_ok _ _ s0 type s1);
        [|apply Renamed_ok; unfold StrId; rewrite lift_eq, H0; reflexivity].
      erewrite bind_ok; [|apply Renamed_ok; exact H1].
      erewrite bind_ok; [|apply Renamed_ok; exact H2].
      apply bind_raise. apply Renamed_raise_at; [reflexivity|].
      unfold Component_extra_fields. rewrite Hchild, bind_evaluate_ok.
      unfold If. apply bind_raise. exact Hk.
  - intros s items rest H. split.
    + intros Hnd. unfold make_dict. apply DictAdapter_no_dup; assumption.
    + intros Hdup.
      destruct (DictAdapter_dup _ _ _ _ H Hdup) as (k & Hin & Hk).
      exists k. split; [exact Hin|]. split; [exact Hk|]. split.
      * intros s0 u1 s1 u2 s2 u3 s3 subs s4 u4 H1 H2 H3 H4 H5.
        unfold CActorDef.
        erewrite bind_ok; [|apply Renamed_ok; exact H1].
        erewrite bind_ok; [|apply Renamed_ok; exact H2].
        erewrite bind_ok; [|apply Renamed_ok; exact H3].
        erewrite bind_ok; [|apply Renamed_ok; exact H4].
        erewrite bind_ok;
          [|apply Renamed_ok; unfold StrId; rewrite lift_eq, H5; reflexivity].
        apply bind_raise. apply Renamed_raise_at; [reflexivity | exact Hk].
      * intros s0 model s1 u1 s2 u2 s3 u3 s4 subs s5 u4 s6 magic s7
               u5 s8 u6 s9 u7 H0 H1 H2 H3 H4 H5 H6 H7 H8 H9.
        unfold CCharClass.
        erewrite bind_ok;
          [|apply Renamed_ok; unfold StrId; rewrite lift_eq, H0; reflexivity].
        erewrite bind_ok; [|apply Renamed_ok; exact H1].
        erewrite bind_ok; [|apply Renamed_ok; exact H2].
        erewrite bind_ok; [|apply Renamed_ok; exact H3].
        erewrite bind_ok; [|apply Renamed_ok; exact H4].
        erewrite bind_ok; [|apply Renamed_ok; exact H5].
        erewrite bind_ok; [|apply Renamed_ok; exact H6].
        erewrite bind_ok; [|apply Renamed_ok; exact H7].
        erewrite bind_ok;
          [|apply Renamed_ok; unfold StrId; rewrite lift_eq, H8; reflexivity].
        erewrite bind_ok; [|apply Renamed_ok; exact H9].
        apply bind_raise. apply Renamed_raise_at; [reflexivity | exact Hk].
  - intros data r H. unfold parse in H.
    destruct (BMSAD' data) as [[[r' rest]|e]|] eqn:Hd; try discriminate.
    injection H as ->. unfold BMSAD in Hd.
    bind_inv Hd. bind_inv Hd. bind_inv Hd. bind_inv Hd. bind_inv Hd. bind_inv Hd.
    apply ret_inv_ok in Hd as [-> _].
    unfold components_of. simpl.
    unfold Switch, property_types in Hp3. simpl in Hp3.
    destruct (String.eqb v2 "CCharClass").
    + bind_inv Hp3. apply ret_inv_ok in Hp3 as [-> _].
      unfold CCharClass in Hp5.
      do 13 (bind_inv Hp5). apply ret_inv_ok in Hp5 as [-> _]. simpl.
      eapply make_dict_Component_unique. eassumption.
    + destruct (String.eqb v2 "CActorDef"); [|discriminate].
      bind_inv Hp3. apply ret_inv_ok in Hp3 as [-> _].
      unfold CActorDef in Hp5.
      do 8 (bind_inv Hp5). apply ret_inv_ok in Hp5 as [-> _]. simpl.
      eapply make_dict_Component_unique. eassumption.
Qed.

(** ** Every construct returns *)

Lemma returns_Int32ul : returns Int32ul.
Proof.
  unfold Int32ul.
  apply returns_bind; [apply returns_stream_read | intros; apply returns_ret].
Qed.

Lemma returns_make_vector {A} (p : Parser A) : returns p -> returns (make_vector p).
Proof.
  intros Hp. unfold make_vector.
  apply returns_bind; [apply returns_Int32ul|]. intros n.
  apply returns_Array, Hp.
Qed.

Ltac returns_step :=
  first
    [ solve [auto 1]
    | apply returns_ret | apply returns_raise | apply returns_lift
    | apply returns_stream_read | apply returns_evaluate
    | apply returns_Int32ul
    | apply returns_Renamed | apply returns_Array | apply returns_make_vector
    | apply returns_DictAdapter | apply returns_PrefixedAllowZeroLen
    | apply returns_bind; [|intros ?] ].

Ltac returns_tac := repeat returns_step.

Lemma returns_Int16ul : returns Int16ul.
Proof. unfold Int16ul. returns_tac. Qed.

Lemma returns_Byte : returns Byte.
Proof. unfold Byte. returns_tac. Qed.

Lemma returns_Float32l : returns Float32l.
Proof. unfold Float32l. returns_tac. Qed.

Lemma returns_Flag : returns Flag.
Proof. unfold Flag. returns_tac. Qed.

Lemma returns_Char : returns Char.
Proof.
  unfold Char. returns_tac.
  destruct a as [|b [|b' bs]]; returns_tac.
  destruct (byte_val b =? 0); returns_tac.
  destruct (byte_val b <? 128); returns_tac.
Qed.

Lemma returns_Terminated : returns Terminated.
Proof. intros [|b s]; eexists; reflexivity. Qed.

Lemma returns_StrId : returns StrId'.
Proof. apply returns_lift. Qed.

Lemma returns_Const v (p : Parser Z) : returns p -> returns (Const v p).
Proof.
  intros Hp. unfold Const. apply returns_bind; [exact Hp|]. intros x.
  destruct (x =? v); [apply returns_ret | apply returns_raise].
Qed.

Lemma returns_dict_get {A} (d : list (string * Parser A)) k p :
  Forall (fun kp => returns kp.2) d -> dict_get d k = Some p -> returns p.
Proof.
  induction 1 as [|[k' p'] d Hp' _ IH]; simpl; [discriminate|].
  destruct (String.eqb k k'); [intros [= <-]; exact Hp' | exact IH].
Qed.

Lemma returns_FunctionArgument : returns FunctionArgument'.
Proof.
  pose proof returns_StrId. pose proof returns_Float32l.
  pose proof returns_Flag.
  unfold FunctionArgument.
  apply returns_bind; [apply returns_Renamed, returns_Char|]. intros type.
  apply returns_bind; [|intros; apply returns_ret].
  apply returns_Renamed, returns_Switch; [|apply returns_raise].
  intros k0 p. unfold FunctionArgument_cases. apply returns_dict_get.
  repeat constructor; simpl; returns_tac.
Qed.

Lemma returns_Functions : returns Functions'.
Proof.
  pose proof returns_StrId. pose proof returns_Int16ul.
  pose proof returns_FunctionArgument.
  unfold Functions, Function, DictElement, PropertyEnum. returns_tac.
Qed.

Lemma returns_Dependencies type : returns (Dependencies' type).
Proof.
  pose proof returns_StrId. pose proof returns_Int16ul.
  pose proof returns_Byte. pose proof returns_Float32l.
  unfold Dependencies.
  apply returns_bind; [apply returns_evaluate|]. intros key.
  apply returns_Switch; [|unfold Pass; returns_tac].
  intros [k|] p; cbn [mbind option_bind]; [|discriminate].
  apply returns_dict_get.
  repeat constructor; simpl;
    unfold FXLayout, CollisionLayout, GrabLayout, BillboardLayout,
      SwarmControllerLayout; returns_tac.
Qed.

Lemma returns_Component_fields type : returns (Component_fields' type).
Proof.
  unfold Component_fields, PropertyEnum. returns_tac.
  intros s.
  destruct (find_returns fieldtypes get_parent_for depth (Some type))
    as [[name|err] ->]; [|eexists; reflexivity].
  unfold Switch. destruct (fieldtypes !! name); simpl; eexists; reflexivity.
Qed.

Lemma returns_ExtraField : returns ExtraField'.
Proof.
  pose proof returns_StrId. pose proof returns_Flag.
  unfold ExtraField.
  apply returns_bind; [apply returns_Renamed; assumption|]. intros tag.
  apply returns_bind; [|intros; apply returns_ret].
  apply returns_Renamed, returns_Switch; [|apply returns_raise].
  intros k0 p. unfold ExtraField_cases. apply returns_dict_get.
  repeat constructor; simpl; returns_tac.
Qed.

Lemma returns_Component_extra_fields type :
  returns (Component_extra_fields' type).
Proof.
  pose proof returns_ExtraField.
  unfold Component_extra_fields.
  apply returns_bind; [apply returns_evaluate|].
  intros [|]; unfold If, DictElement, DictElement_key; returns_tac.
Qed.

Lemma returns_Component : returns Component'.
Proof.
  pose proof returns_StrId. pose proof returns_Component_extra_fields.
  pose proof returns_Functions. pose proof returns_Dependencies.
  pose proof returns_Component_fields.
  unfold Component. returns_tac.
Qed.

Lemma returns_make_dict_Component : returns (make_dict' Component').
Proof.
  pose proof returns_Component.
  unfold make_dict, DictElement, DictElement_key. returns_tac.
Qed.

Lemma returns_BMSAD : returns BMSAD'.
Proof.
  pose proof returns_StrId. pose proof returns_Int16ul.
  pose proof returns_Byte. pose proof returns_Float32l.
  pose proof returns_Terminated.
  pose proof returns_make_dict_Component.
  pose proof (returns_Const 4294967295 Int32ul returns_Int32ul).
  pose proof (returns_Const 33554447 Int32ul returns_Int32ul).
  unfold BMSAD.
  apply returns_bind.
  { apply returns_Renamed. unfold Const_bytes.
    apply returns_bind; [apply returns_stream_read|]. intros bs.
    case_bool_decide; [apply returns_ret | apply returns_raise]. }
  intros magic. returns_tac.
  apply returns_Switch; [|apply returns_raise].
  intros k p. unfold property_types. apply returns_dict_get.
  repeat constructor; simpl;
    unfold CCharClass, CActorDef, PrefixedArray, Sequence2; returns_tac.
Qed.

Lemma find_on_endless_chain budget :
  forall t,
    (forall a, climbs fieldtypes get_parent_for t a ->
       a <> "CActorComponent" /\ fieldtypes !! as_char a = None
       /\ exists p, get_parent_for a = Ok (Some p)) ->
    find' budget (Some t) = Some (Raise RecursionError).
Proof.
  induction budget as [|budget IH]; intros t Hchain; [reflexivity|].
  rewrite find_unfold.
  destruct (Hchain t (climbs_here _ _ t)) as (Hne & Hnone & p & Hp).
  apply String.eqb_neq in Hne. rewrite Hne.
  rewrite bool_decide_eq_false_2; [|rewrite Hnone; intros [? [=]]].
  rewrite Hp. apply IH. intros a Ha. apply Hchain.
  apply String.eqb_neq in Hne. eapply climbs_up; eassumption.
Qed.

Lemma find_settled (rank : string -> nat) :
  (forall t p, get_parent_for t = Ok (Some p) -> (rank p < rank t)%nat) ->
  forall t budget budget',
    (S (rank t) < budget)%nat -> (budget <= budget')%nat ->
    find' budget' (Some t) = find' budget (Some t).
Proof.
  intros Hrank t budget budget' Ht. induction 1 as [|budget' Hle IH]; [reflexivity|].
  rewrite <- IH. apply (find_settles_within_rank _ _ rank Hrank). lia.
Qed.

(** C8: one decoding call returns for every input and whatever the
    registries hold, with a value or with an exception.  The ascent of
    the schema resolution has no bound of its own: along a chain of
    parents that never ends (as on a cycle) and never meets a schema, it
    goes on for as long as the interpreter lets it, and what ends it, at
    whatever depth, is the [RecursionError] of the interpreter, with
    which the field block fails.  Where the parent edges strictly lower
    a rank, a depth of two above the rank is enough, and more room
    changes nothing.  The lookups of [type_lib] are taken to return,
    with a value or with an exception, as every call does that the
    interpreter bounds. *)
Theorem C8_decoding_always_returns :
  (forall data : list byte, is_Some (parse BMSAD' data))
  /\ (forall t : string,
        (forall a, climbs fieldtypes get_parent_for t a ->
           a <> "CActorComponent" /\ fieldtypes !! as_char a = None
           /\ exists p, get_parent_for a = Ok (Some p)) ->
        (forall budget, find' budget (Some t) = Some (Raise RecursionError))
        /\ (forall s e s1 r s2,
              PropertyEnum_construct s = Ok (e, s1) ->
              PropertyEnum_construct s1 = Ok (r, s2) ->
              Component_fields' t s = Some (Raise RecursionError)))
  /\ (forall rank : string -> nat,
        (forall t p, get_parent_for t = Ok (Some p) -> (rank p < rank t)%nat) ->
        forall t budget budget',
          (S (rank t) < budget)%nat -> (budget <= budget')%nat ->
          find' budget' (Some t) = find' budget (Some t)).
Proof.
  split; [|split].
  - intros data. unfold parse.
    destruct (returns_BMSAD data) as [[[r rest]|e] ->]; eexists; reflexivity.
  - intros t Hchain. split.
    + intros budget. apply find_on_endless_chain, Hchain.
    + intros s e s1 r s2 H1 H2. unfold Component_fields, PropertyEnum.
      rewrite (bind_ok _ _ s e s1);
        [|apply Renamed_ok; rewrite lift_eq, H1; reflexivity].
      rewrite (bind_ok _ _ s1 r s2);
        [|apply Renamed_ok; rewrite lift_eq, H2; reflexivity].
      unfold bind at 1, Renamed.
      rewrite (find_on_endless_chain depth t Hchain). reflexivity.
  - exact find_settled.
Qed.

Lemma Const_bytes_app expected rest :
  Const_bytes expected (expected ++ rest) = Some (Ok (expected, rest)).
Proof.
  unfold Const_bytes.
  erewrite bind_ok; [|apply stream_read_app; reflexivity].
  rewrite bool_decide_eq_true_2; reflexivity.
Qed.

Lemma Const_Int32ul_app expected bs rest :
  length bs = 4%nat -> le_uint bs = expected ->
  Const expected Int32ul (bs ++ rest) = Some (Ok (expected, rest)).
Proof.
  intros Hl <-. unfold Const.
  erewrite bind_ok; [|apply Int32ul_app; exact Hl].
  rewrite Z.eqb_refl. reflexivity.
Qed.

Lemma StrId_app bs text :
  (forall rest, StrId_construct (bs ++ rest) = Ok (text, rest)) ->
  forall rest, StrId' (bs ++ rest) = Some (Ok (text, rest)).
Proof. intros H rest. unfold StrId. rewrite lift_eq, H. reflexivity. Qed.

Lemma make_vector_empty {A} (p : Parser A) rest :
  make_vector p ([x00; x00; x00; x00] ++ rest) = Some (Ok ([], rest)).
Proof. reflexivity. Qed.

Lemma make_dict_empty {A} (p : Parser A) rest :
  make_dict' p ([x00; x00; x00; x00] ++ rest) = Some (Ok ([], rest)).
Proof. reflexivity. Qed.

(** C1: the data made of the magic "MSAD", the version
    0x0200000F, the name "test", the type "CActorDef" and an actor body
    with no sub-actor, no component, no binary and no source decodes to
    an actor definition whose collections are all empty; with one more
    byte at the end, the decoding fails on the bytes left over. *)
Theorem C1_empty_actor_definition_decodes :
  forall (name_bytes type_bytes unk4_bytes u1 u2 u3 : list byte) (unk_4 : string),
    (forall rest, StrId_construct (name_bytes ++ rest) = Ok ("test", rest)) ->
    (forall rest, StrId_construct (type_bytes ++ rest) = Ok ("CActorDef", rest)) ->
    (forall rest, StrId_construct (unk4_bytes ++ rest) = Ok (unk_4, rest)) ->
    length u1 = 2%nat -> length u2 = 4%nat -> length u3 = 2%nat ->
    let zero := [x00; x00; x00; x00] in
    let data :=
      String.list_byte_of_string "MSAD" ++ [x0f; x00; x00; x02]
      ++ name_bytes ++ type_bytes
      ++ u1 ++ u2 ++ u3 ++ zero ++ unk4_bytes ++ zero ++ zero ++ zero in
    parse BMSAD' data
      = Some (Ok {| bmsad_magic := String.list_byte_of_string "MSAD";
                    bmsad_version := 0x0200000F;
                    bmsad_name := "test";
                    bmsad_type := "CActorDef";
                    bmsad_property :=
                      PropActorDef
                        {| ad_unk_1 := le_uint u1; ad_unk_2 := le_uint u2;
                           ad_unk_3 := le_uint u3; ad_sub_actors := [];
                           ad_unk_4 := unk_4; ad_components := [];
                           ad_binaries := []; ad_sources := [] |} |})
    /\ forall extra : byte,
         parse BMSAD' (data ++ [extra]) = Some (Raise (At "_end" TerminatedError)).
Proof.
  intros name_bytes type_bytes unk4_bytes u1 u2 u3 unk_4
         Hname Htype Hunk4 Hu1 Hu2 Hu3 zero data.
  assert (Hrun : forall tail,
    BMSAD' (data ++ tail) =
      (let* _end := Renamed "_end" Terminated in
       ret {| bmsad_magic := String.list_byte_of_string "MSAD";
              bmsad_version := 0x0200000F;
              bmsad_name := "test";
              bmsad_type := "CActorDef";
              bmsad_property :=
                PropActorDef
                  {| ad_unk_1 := le_uint u1; ad_unk_2 := le_uint u2;
                     ad_unk_3 := le_uint u3; ad_sub_actors := [];
                     ad_unk_4 := unk_4; ad_components := [];
                     ad_binaries := []; ad_sources := [] |} |}) tail).
  { intros tail. subst data. rewrite <- !app_assoc. unfold BMSAD.
    erewrite bind_ok; [|apply Renamed_ok, Const_bytes_app].
    erewrite bind_ok; [|apply Renamed_ok, Const_Int32ul_app; reflexivity].
    erewrite bind_ok; [|apply Renamed_ok, StrId_app, Hname].
    erewrite bind_ok; [|apply Renamed_ok, StrId_app, Htype].
    erewrite bind_ok; [reflexivity|].
    apply Renamed_ok.
    unfold Switch, property_types.
    change (dict_get _ "CActorDef") with
      (Some (let* a := CActorDef' in ret (PropActorDef a))).
    cbv beta iota.
    erewrite bind_ok; [reflexivity|].
    unfold CActorDef.
    erewrite bind_ok; [|apply Renamed_ok, Int16ul_app, Hu1].
    erewrite bind_ok; [|apply Renamed_ok, Int32ul_app, Hu2].
    erewrite bind_ok; [|apply Renamed_ok, Int16ul_app, Hu3].
    erewrite bind_ok; [|apply Renamed_ok; subst zero; reflexivity].
    erewrite bind_ok; [|apply Renamed_ok, StrId_app, Hunk4].
    erewrite bind_ok; [|apply Renamed_ok; subst zero; apply make_dict_empty].
    erewrite bind_ok; [|apply Renamed_ok; subst zero; apply make_vector_empty].
    erewrite bind_ok; [|apply Renamed_ok; subst zero; apply make_vector_empty].
    reflexivity. }
  split.
  - rewrite <- (app_nil_r data). unfold parse. rewrite Hrun. reflexivity.
  - intros extra. unfold parse. rewrite Hrun. reflexivity.
Qed.

End DefinitionProperties.

(** ** The properties on concrete data *)

Import Examples.

Lemma CString_cstr (text : string) (rest : list byte) :
  Forall (fun b => b <> x00) (String.list_byte_of_string text) ->
  CString (cstr text ++ rest) = Ok (text, rest).
Proof.
  intros Hnz. unfold CString, cstr.
  assert (Hsplit : forall bs, Forall (fun b => b <> x00) bs ->
            CString_split ((bs ++ [x00]) ++ rest) = Some (bs, rest)).
  { induction 1 as [|b bs Hb _ IH]; simpl.
    - reflexivity.
    - rewrite bool_decide_eq_false_2 by exact Hb. rewrite IH. reflexivity. }
  rewrite (Hsplit _ Hnz), String.string_of_list_byte_of_string. reflexivity.
Qed.

(** C1: with the type written "ActorDef" the data is rejected,
    with or without a byte appended, because the table of definition
    types has no such entry. *)
Lemma C1_type_ActorDef_is_rejected :
  decode schemas parents 5 (header "ActorDef" ++ empty_actor_body)
    = Some (Raise (At "property"
                     (MessageError ExplicitError "Unknown property type: ActorDef")))
  /\ decode schemas parents 5 (header "ActorDef" ++ empty_actor_body ++ [x00])
     = Some (Raise (At "property"
                      (MessageError ExplicitError "Unknown property type: ActorDef"))).
Proof. split; vm_compute; reflexivity. Qed.

Lemma C1_witness :
  decode schemas parents 5 (header "CActorDef" ++ empty_actor_body)
    = Some (Ok {| bmsad_magic := String.list_byte_of_string "MSAD";
                  bmsad_version := 0x0200000F;
                  bmsad_name := "test";
                  bmsad_type := "CActorDef";
                  bmsad_property :=
                    PropActorDef
                      {| ad_unk_1 := 1; ad_unk_2 := 2; ad_unk_3 := 3;
                         ad_sub_actors := []; ad_unk_4 := "";
                         ad_components := []; ad_binaries := [];
                         ad_sources := [] |} |})
  /\ forall extra : byte,
       decode schemas parents 5 ((header "CActorDef" ++ empty_actor_body) ++ [extra])
         = Some (Raise (At "_end" TerminatedError)).
Proof.
  apply (C1_empty_actor_definition_decodes schemas
           (TypeLib.get_parent_for parents) (child_of parents 5)
           CString CString CString 5
           (cstr "test") (cstr "CActorDef") (cstr "")
           [x01; x00] [x02; x00; x00; x00] [x03; x00] "").
  - intros rest. reflexivity.
  - intros rest. reflexivity.
  - intros rest. reflexivity.
  - reflexivity.
  - reflexivity.
  - reflexivity.
Defined.

Lemma C3_witness :
  exists c rest,
    decode_component schemas parents 5 foo_component = Some (Ok (c, rest))
    /\ (is_Some (comp_extra_fields c)
        <-> child_of parents 5 (comp_type c) "CComponent" = Ok true).
Proof.
  eexists. eexists. split.
  - vm_compute. reflexivity.
  - eapply (proj1 (C3_extra_fields_iff_child_of_CComponent schemas
                     (TypeLib.get_parent_for parents)
                     (child_of parents 5) CString CString CString 5)
              foo_component).
    vm_compute. reflexivity.
Defined.

(** The order of the layouts decides: under a hierarchy where
    [CCollisionComponent] descends from [CFXComponent], a type below both
    gets the layout of [CFXComponent], which is listed first. *)
Example C4_first_listed_base_wins :
  child_of nested_parents 8 "CMyCollision" "CFXComponent" = Ok true
  /\ child_of nested_parents 8 "CMyCollision" "CCollisionComponent" = Ok true
  /\ component_type (child_of nested_parents 8) CString "CMyCollision"
     = Ok (Some "CFXComponent").
Proof. repeat split; vm_compute; reflexivity. Qed.

(** A block of length zero needs no schema: it decodes where the
    resolution of the type would fail. *)
Example C5_zero_block_needs_no_schema :
  find_charclass_for_type Z no_schemas (TypeLib.get_parent_for parents) 5
    (Some "CPlain") = Some (Raise TypeError)
  /\ decode_component no_schemas parents 5 plain_component
     = Some (Ok ({| comp_type := "CPlain"; comp_unk_1 := [0; 0];
                    comp_fields := None; comp_extra_fields := None;
                    comp_functions := []; comp_dependencies := DepNone |}, [])).
Proof. split; vm_compute; reflexivity. Qed.

(** C5: a component whose field block declares eight bytes, of which its
    content reads seven, decodes, alone and inside a resource, and the
    decoding goes on after the eighth byte; and the value of a field
    block of length zero is [None], the value that the extra properties
    have when they are missing. *)
Lemma C5_unread_bytes_are_passed_over :
  decode_component schemas parents 5 slack_component
  = Some (Ok ({| comp_type := "CFooComponent"; comp_unk_1 := [1; 2];
                 comp_fields :=
                   Some {| empty_string := ""; root := "Root";
                           fields_of_type := 42 |};
                 comp_extra_fields :=
                   Some [("ENABLED",
                          {| extra_type := "bool"; extra_value := ExtraBool true |})];
                 comp_functions :=
                   [{| fn_name := "OnHit"; fn_unk := 9;
                       fn_params :=
                         [("DAMAGE",
                           {| arg_type := "i"; arg_value := ArgInt 5 |})] |}];
                 comp_dependencies := DepNone |}, []))
  /\ decode_component schemas parents 5 slack_component
     = decode_component schemas parents 5 foo_component
  /\ decode schemas parents 5 (actor_with "FOO" slack_component)
     = decode schemas parents 5 (actor_with "FOO" foo_component)
  /\ decode_component schemas parents 5 plain_component
     = Some (Ok ({| comp_type := "CPlain"; comp_unk_1 := [0; 0];
                    comp_fields := None; comp_extra_fields := None;
                    comp_functions := []; comp_dependencies := DepNone |}, [])).
Proof. repeat split; vm_compute; reflexivity. Qed.

Lemma C5_witness :
  PrefixedAllowZeroLen Int32ul
    (Component_fields Z schemas (TypeLib.get_parent_for parents) CString 5
       "CFooComponent")
    ([x08; x00; x00; x00] ++ (cstr "" ++ cstr "Root" ++ [x2a; xee]) ++ [x01])
  = Some (Ok (Some {| empty_string := ""; root := "Root"; fields_of_type := 42 |},
              [x01])).
Proof.
  rewrite (proj1 (proj2 (C5_field_block_framing schemas
                           (TypeLib.get_parent_for parents) CString 5
                           "CFooComponent"))).
  - vm_compute. reflexivity.
  - reflexivity.
  - vm_compute. discriminate.
  - reflexivity.
Defined.

(** C6: the error raised for the discriminant [x] of the argument
    [DAMAGE] carries the discriminant in its text and the key in its
    path. *)
Example C6_error_names_the_discriminant_and_the_key :
  let e :=
    At "params" (At "DAMAGE" (At "value"
      (MessageError SwitchError "Unknown argument type: x"))) in
  Functions CString CString bad_function = Some (Raise e)
  /\ mentions e "x" = true
  /\ path_of e = ["params"; "DAMAGE"; "value"].
Proof. repeat split; vm_compute; reflexivity. Qed.

Lemma C6_witness :
  Function CString CString
    (cstr "OnHit" ++ [x09; x00] ++ [x01; x00; x00; x00]
     ++ cstr "DAMAGE" ++ String.list_byte_of_string "x" ++ [x05; x00; x00; x00])
  = Some (Raise (At "params" (At "DAMAGE" (At "value"
            (MessageError SwitchError "Unknown argument type: x"))))).
Proof.
  destruct (C6_argument_discriminant_dispatch CString CString)
    as (_ & _ & Hfun & _).
  eapply proj1.
  eapply (Hfun _ _ _ _ _ _ _ 0%nat [] _ "DAMAGE" "x"%byte [x05; x00; x00; x00]).
  - vm_compute. reflexivity.
  - vm_compute. reflexivity.
  - vm_compute. reflexivity.
  - vm_compute. reflexivity.
  - vm_compute. lia.
  - vm_compute. reflexivity.
  - vm_compute. split; reflexivity.
  - discriminate.
  - discriminate.
  - discriminate.
  - discriminate.
Defined.

(** C7: a key met twice, in each of the three maps. *)
Example C7_duplicates_on_concrete_data :
  Functions CString CString twice_function
  = Some (Raise (At "params" (DuplicateKeyError "DAMAGE")))
  /\ decode_component schemas parents 5 twice_extra_component
     = Some (Raise (At "extra_fields" (DuplicateKeyError "ENABLED")))
  /\ decode schemas parents 5 (actor_with_twice "FOO" foo_component)
     = Some (Raise (At "property" (At "components" (DuplicateKeyError "FOO")))).
Proof. repeat split; vm_compute; reflexivity. Qed.

Lemma C7_witness :
  exists k,
    k ∈ ["DAMAGE"; "DAMAGE"]
    /\ Function CString CString
         (cstr "OnHit" ++ [x09; x00] ++ [x02; x00; x00; x00]
          ++ cstr "DAMAGE" ++ String.list_byte_of_string "i" ++ [x05; x00; x00; x00]
          ++ cstr "DAMAGE" ++ String.list_byte_of_string "i" ++ [x06; x00; x00; x00])
       = Some (Raise (At "params" (DuplicateKeyError k))).
Proof.
  destruct (C7_duplicate_keys_are_fatal schemas
              (TypeLib.get_parent_for parents) (child_of parents 5)
              CString CString CString 5) as (Hfun & _).
  edestruct (Hfun (cstr "OnHit" ++ [x09; x00] ++ [x02; x00; x00; x00]
                   ++ cstr "DAMAGE" ++ String.list_byte_of_string "i"
                   ++ [x05; x00; x00; x00]
                   ++ cstr "DAMAGE" ++ String.list_byte_of_string "i"
                   ++ [x06; x00; x00; x00])
               "OnHit"
               ([x09; x00] ++ [x02; x00; x00; x00]
                ++ cstr "DAMAGE" ++ String.list_byte_of_string "i"
                ++ [x05; x00; x00; x00]
                ++ cstr "DAMAGE" ++ String.list_byte_of_string "i"
                ++ [x06; x00; x00; x00])
               9
               ([x02; x00; x00; x00]
                ++ cstr "DAMAGE" ++ String.list_byte_of_string "i"
                ++ [x05; x00; x00; x00]
                ++ cstr "DAMAGE" ++ String.list_byte_of_string "i"
                ++ [x06; x00; x00; x00])
               [("DAMAGE", {| arg_type := "i"; arg_value := ArgInt 5 |});
                ("DAMAGE", {| arg_type := "i"; arg_value := ArgInt 6 |})] [])
    as [_ Hdup].
  - vm_compute. reflexivity.
  - vm_compute. reflexivity.
  - vm_compute. reflexivity.
  - apply Hdup. intros Hnd. apply NoDup_cons in Hnd as [Hnin _].
    apply Hnin. apply elem_of_cons. left. reflexivity.
Defined.

Lemma climbs_stay_on_the_cycle t a :
  climbs no_schemas (TypeLib.get_parent_for cyclic_parents) t a ->
  t = "CLoopA" \/ t = "CLoopB" -> a = "CLoopA" \/ a = "CLoopB".
Proof.
  induction 1 as [t | t p a Hne Hnone Hp _ IH]; [exact id|].
  intros Ht. apply IH.
  destruct Ht as [-> | ->]; vm_compute in Hp; injection Hp as <-; auto.
Qed.

Lemma chain_on_the_cycle_never_ends a :
  climbs no_schemas (TypeLib.get_parent_for cyclic_parents) "CLoopA" a ->
  a <> "CActorComponent" /\ no_schemas !! as_char a = None
  /\ exists p, TypeLib.get_parent_for cyclic_parents a = Ok (Some p).
Proof.
  intros H. apply climbs_stay_on_the_cycle in H; [|auto].
  destruct H as [-> | ->].
  - split; [discriminate|]. split; [reflexivity|]. exists "CLoopB". reflexivity.
  - split; [discriminate|]. split; [reflexivity|]. exists "CLoopA". reflexivity.
Qed.

Lemma component_on_cycle_ends_at_the_limit depth rest :
  decode_component no_schemas cyclic_parents depth
    (bare_component "CLoopA" ++ rest) = Some (Raise RecursionError).
Proof.
  unfold decode_component, Component.
  erewrite bind_ok; [|vm_compute; reflexivity].
  erewrite bind_ok; [|vm_compute; reflexivity].
  apply bind_raise. apply Renamed_raise_bare; [reflexivity|].
  unfold PrefixedAllowZeroLen.
  erewrite bind_ok; [|vm_compute; reflexivity].
  change (7 =? 0) with false. cbv iota.
  erewrite bind_ok; [|apply (stream_read_app 7 [x00; "R"; "o"; "o"; "t"; x00; x2a]%byte);
                       reflexivity].
  unfold Component_fields.
  erewrite bind_ok; [|vm_compute; reflexivity].
  erewrite bind_ok; [|vm_compute; reflexivity].
  unfold bind at 1, Renamed.
  rewrite (find_on_endless_chain no_schemas
             (TypeLib.get_parent_for cyclic_parents) depth "CLoopA"
             chain_on_the_cycle_never_ends).
  reflexivity.
Qed.

(** C8: under a hierarchy table with a cycle, decoding a resource with
    a component of a type on the cycle ends, whatever depth of recursion
    the interpreter allows, with the [RecursionError] of the
    interpreter: the ascent of the schema resolution stops at no depth
    of its own. *)
Lemma C8_ascent_ends_only_at_the_recursion_limit :
  ~ exists depth : nat,
      decode no_schemas cyclic_parents depth
        (actor_with "K" (bare_component "CLoopA"))
      <> Some (Raise RecursionError).
Proof.
  intros [depth Hr]. apply Hr. clear Hr. unfold decode.
  apply parse_raise.
  unfold BMSAD.
  erewrite bind_ok; [|vm_compute; reflexivity].
  erewrite bind_ok; [|vm_compute; reflexivity].
  erewrite bind_ok; [|vm_compute; reflexivity].
  erewrite bind_ok; [|vm_compute; reflexivity].
  apply bind_raise. apply Renamed_raise_bare; [reflexivity|].
  unfold Switch, property_types.
  match goal with
  | |- context [dict_get ?d "CActorDef"] =>
      let v := eval cbv [dict_get String.eqb Ascii.eqb Bool.eqb]
               in (dict_get d "CActorDef") in
      change (dict_get d "CActorDef") with v
  end.
  cbv beta iota.
  apply bind_raise. unfold CActorDef.
  erewrite bind_ok; [|vm_compute; reflexivity].
  erewrite bind_ok; [|vm_compute; reflexivity].
  erewrite bind_ok; [|vm_compute; reflexivity].
  erewrite bind_ok; [|vm_compute; reflexivity].
  erewrite bind_ok; [|vm_compute; reflexivity].
  apply bind_raise. apply Renamed_raise_bare; [reflexivity|].
  unfold make_dict, DictAdapter.
  assert (Hvec : forall s,
    make_vector
      (DictElement
         (Component Z no_schemas (TypeLib.get_parent_for cyclic_parents)
            (child_of cyclic_parents depth) CString CString CString depth)
         (DictElement_key CString))
      ([x01; x00; x00; x00] ++ cstr "K" ++ bare_component "CLoopA" ++ s)
    = Some (Raise RecursionError)).
  { intros s. unfold make_vector.
    erewrite bind_ok; [|vm_compute; reflexivity].
    change (Z.to_nat 1) with 1%nat. cbn [Array].
    apply bind_raise. unfold DictElement.
    erewrite bind_ok; [|vm_compute; reflexivity].
    apply bind_raise. apply Renamed_raise_bare; [reflexivity|].
    apply component_on_cycle_ends_at_the_limit. }
  match goal with
  | |- match ?items with _ => _ end = _ =>
      assert (Hitems : items = Some (Raise RecursionError));
      [|rewrite Hitems; reflexivity]
  end.
  exact (Hvec [x00; x00; x00; x00; x00; x00; x00; x00]).
Qed.

Lemma rank_decreases_on_parents t p :
  TypeLib.get_parent_for parents t = Ok (Some p) -> (rank p < rank t)%nat.
Proof.
  unfold TypeLib.get_parent_for, parents.
  destruct (decide (t = "CFooComponent")) as [->|Hfoo].
  { vm_compute. intros [= <-]. lia. }
  destruct (decide (t = "CBarComponent")) as [->|Hbar].
  { vm_compute. intros [= <-]. lia. }
  destruct (decide (t = "COrphanComponent")) as [->|Horphan].
  { vm_compute. intros [= <-]. lia. }
  destruct (decide (t = "CComponent")) as [->|Hcomp].
  { vm_compute. discriminate. }
  destruct (decide (t = "CPlain")) as [->|Hplain].
  { vm_compute. discriminate. }
  rewrite !lookup_insert_ne by congruence.
  rewrite lookup_singleton_ne by congruence. discriminate.
Qed.

Lemma C8_witness :
  is_Some (decode no_schemas cyclic_parents 5
             (actor_with "K" (bare_component "CLoopA")))
  /\ (forall budget,
        find_charclass_for_type Z no_schemas
          (TypeLib.get_parent_for cyclic_parents) budget (Some "CLoopA")
        = Some (Raise RecursionError))
  /\ find_charclass_for_type Z schemas (TypeLib.get_parent_for parents) 9
       (Some "CBarComponent")
     = find_charclass_for_type Z schemas (TypeLib.get_parent_for parents) 4
         (Some "CBarComponent").
Proof.
  split; [|split].
  - apply (proj1 (C8_decoding_always_returns no_schemas
                    (TypeLib.get_parent_for cyclic_parents)
                    (child_of cyclic_parents 5) CString CString CString 5)).
  - apply (proj1 (proj2 (C8_decoding_always_returns no_schemas
                           (TypeLib.get_parent_for cyclic_parents)
                           (child_of cyclic_parents 5) CString CString CString 5))
             "CLoopA").
    exact chain_on_the_cycle_never_ends.
  - apply (proj2 (proj2 (C8_decoding_always_returns schemas
                           (TypeLib.get_parent_for parents)
                           (child_of parents 5) CString CString CString 5))
             rank rank_decreases_on_parents "CBarComponent" 4%nat 9%nat).
    + vm_compute. lia.
    + lia.
Defined.

Lemma C10_witness :
  decode_component schemas parents 5 mistagged_component
    = Some (Raise (At "extra_fields" (At "VISIBLE" (At "value"
              (MessageError SwitchError "Unknown argument type: Bool"))))).
Proof.
  eapply (proj2 (C10_extra_tag_is_a_string_matched_exactly schemas
                   (TypeLib.get_parent_for parents)
                   (child_of parents 5) CString CString CString 5))
    with (k := 1%nat).
  - vm_compute. reflexivity.
  - vm_compute. reflexivity.
  - vm_compute. reflexivity.
  - vm_compute. reflexivity.
  - vm_compute. reflexivity.
  - vm_compute. reflexivity.
  - vm_compute. lia.
  - vm_compute. reflexivity.
  - vm_compute. reflexivity.
  - discriminate.
  - discriminate.
Defined.

(** * Further properties of the decoder *)

(** ** The path of the schema resolution *)

Section ResolutionPath.

Context {FieldsValue : Type}.
Variable fieldtypes : gmap string (Construct FieldsValue).
Variable get_parent_for : string -> result (option string).

Local Notation find := (find_charclass_for_type FieldsValue fieldtypes get_parent_for).
Local Notation climbs := (climbs fieldtypes get_parent_for).
Local Notation stops_with := (stops_with fieldtypes).

Lemma find_budget_step budget t r :
  find budget t = Some r -> r <> Raise RecursionError ->
  find (S budget) t = Some r.
Proof.
  revert t. induction budget as [|budget IH]; intros t.
  { intros [= <-] Hne. congruence. }
  destruct t as [t|]; [|exact (fun H _ => H)].
  rewrite (find_unfold _ _ (S budget)), (find_unfold _ _ budget).
  destruct (String.eqb t "CActorComponent"); [exact (fun H _ => H)|].
  case_bool_decide; [exact (fun H _ => H)|].
  destruct (get_parent_for t) as [p|e]; [apply IH | exact (fun H _ => H)].
Qed.

Lemma find_budget_mono budget budget' t r :
  (budget <= budget')%nat -> find budget t = Some r ->
  r <> Raise RecursionError -> find budget' t = Some r.
Proof.
  induction 1 as [|budget' _ IH]; [exact (fun H _ => H)|].
  intros H Hne. apply find_budget_step; [apply IH; assumption | exact Hne].
Qed.

Lemma find_climbs budget t name :
  find budget (Some t) = Some (Ok name) ->
  exists a, climbs t a /\ stops_with a name.
Proof.
  revert t. induction budget as [|budget IH]; intros t; [discriminate|].
  rewrite find_unfold.
  destruct (String.eqb t "CActorComponent") eqn:E.
  - apply String.eqb_eq in E. intros [= <-].
    exists t. split; [constructor | left; auto].
  - apply String.eqb_neq in E. case_bool_decide as Hreg.
    + intros [= <-]. exists t. split; [constructor | right; auto].
    + destruct (get_parent_for t) as [[p|]|e] eqn:Hp; [| |discriminate].
      * intros Hf. destruct (IH _ Hf) as (a & Ha & Hstop).
        exists a. split; [|exact Hstop].
        eapply climbs_up; try eassumption.
        destruct (fieldtypes !! as_char t) eqn:El; [|reflexivity].
        exfalso. apply Hreg. eexists. reflexivity.
      * destruct budget; discriminate.
Qed.

Lemma climbs_find t a name :
  climbs t a -> stops_with a name ->
  exists budget, find budget (Some t) = Some (Ok name).
Proof.
  induction 1 as [t | t p a Hne Hnone Hp _ IH]; intros Hstop.
  - exists 1%nat. rewrite find_unfold.
    destruct Hstop as [[-> ->] | (Hne & -> & Hreg)]; [reflexivity|].
    apply String.eqb_neq in Hne. rewrite Hne.
    rewrite bool_decide_eq_true_2 by exact Hreg. reflexivity.
  - destruct (IH Hstop) as [budget Hb]. exists (S budget).
    rewrite find_unfold.
    apply String.eqb_neq in Hne. rewrite Hne.
    rewrite bool_decide_eq_false_2; [|rewrite Hnone; intros [? [=]]].
    rewrite Hp. exact Hb.
Qed.

(** The resolution returns the schema of the nearest ancestor that has
    one: a name is returned exactly when the chain of parents, passing
    only types that are not [CActorComponent] and have no registered
    candidate, reaches a type that is [CActorComponent] or has a
    registered candidate; and once a depth of recursion gives an
    outcome of the resolution itself, one that is not the
    [RecursionError] of the interpreter, every larger depth gives the
    same. *)
Theorem resolution_returns_the_nearest_schema :
  forall (type_name name : string),
    ((exists budget, find budget (Some type_name) = Some (Ok name))
     <-> (exists a, climbs type_name a /\ stops_with a name))
    /\ (forall budget budget' r,
          (budget <= budget')%nat ->
          find budget (Some type_name) = Some r ->
          r <> Raise RecursionError ->
          find budget' (Some type_name) = Some r).
Proof.
  intros type_name name. split.
  - split.
    + intros [budget H]. eapply find_climbs, H.
    + intros (a & Ha & Hstop). eapply climbs_find; eassumption.
  - intros budget budget' r. apply find_budget_mono.
Qed.

(** Where a [SwitchError] of the field block comes from.  The only name
    the resolution can return without its being in the schema table is
    the fixed "CActorComponentDef", so the default of the [Switch], with
    its text "Unknown component type: " followed by the component's own
    type, is reached exactly when the resolution returns that name and
    it is not registered; any other such error was raised by the
    selected schema construct or by the parent lookup.  The error
    leaves the block under the name of its field, "fields". *)
Theorem unknown_component_type_error_sources :
  forall (PropertyEnum_construct : Construct string) (depth : nat)
         (type : string) (s : list byte) (e : string) (s1 : list byte)
         (r : string) (s2 : list byte) (message : string),
    PropertyEnum_construct s = Ok (e, s1) ->
    PropertyEnum_construct s1 = Ok (r, s2) ->
    (Component_fields FieldsValue fieldtypes get_parent_for
       PropertyEnum_construct depth type s
     = Some (Raise (At "fields" (MessageError SwitchError message)))
     <-> (find depth (Some type) = Some (Ok "CActorComponentDef")
          /\ fieldtypes !! "CActorComponentDef" = None
          /\ message = "Unknown component type: " +:+ type)
         \/ (exists name c,
               find depth (Some type) = Some (Ok name)
               /\ fieldtypes !! name = Some c
               /\ c s2 = Raise (MessageError SwitchError message))
         \/ find depth (Some type)
            = Some (Raise (MessageError SwitchError message))).
Proof.
  intros P depth type s e s1 r s2 message H1 H2.
  unfold Component_fields, PropertyEnum.
  rewrite (bind_ok _ _ s e s1);
    [|apply Renamed_ok; rewrite lift_eq, H1; reflexivity].
  rewrite (bind_ok _ _ s1 r s2);
    [|apply Renamed_ok; rewrite lift_eq, H2; reflexivity].
  unfold bind at 1, Renamed.
  destruct (find depth (Some type)) as [[name|err]|] eqn:Hfind.
  - unfold Switch.
    destruct (fieldtypes !! name) as [c|] eqn:Hc; simpl.
    + split.
      * destruct (c s2) as [[v rest]|err] eqn:Hcs; [discriminate|].
        unfold under. destruct (records_path err) eqn:Hce.
        -- intros [= ->]. right. left. exists name, c. auto.
        -- intros [= ->]. discriminate.
      * intros [(Hn & Hnone & _) | [(name' & c' & Hn & Hc' & Hcs) | Hn]].
        -- injection Hn as ->. congruence.
        -- injection Hn as Hn. subst name'.
           assert (Heq : Some c = Some c') by exact (eq_trans (eq_sym Hc) Hc').
           injection Heq as <-.
           rewrite Hcs. reflexivity.
        -- discriminate.
    + destruct (find_climbs _ _ _ Hfind) as (a & _ & Hstop).
      assert (Hname : name = "CActorComponentDef").
      { destruct Hstop as [[_ ->] | (_ & -> & [c Hreg])]; [reflexivity|].
        congruence. }
      subst name. split.
      * intros [= <-]. left. auto.
      * intros [(_ & _ & ->) | [(name' & c' & Hn & Hc' & _) | Hn]].
        -- reflexivity.
        -- injection Hn as Hn. subst name'.
           assert (Heq : None = Some c') by exact (eq_trans (eq_sym Hc) Hc').
           discriminate.
        -- discriminate.
  - split.
    + unfold under. destruct (records_path err) eqn:Hce.
      * intros [= ->]. right. right. reflexivity.
      * intros [= ->]. discriminate.
    + intros [(Hn & _) | [(name' & c' & Hn & _) | Hn]]; try discriminate.
      injection Hn as ->. reflexivity.
  - split; [discriminate|].
    intros [(Hn & _) | [(name' & c' & Hn & _) | Hn]]; discriminate.
Qed.

End ResolutionPath.

(** ** Widths, sizes and tags of what is decoded *)

Lemma byte_val_range b : 0 <= byte_val b < 256.
Proof.
  unfold byte_val. pose proof (Byte.to_N_bounded b). lia.
Qed.

Lemma le_uint_range bs : 0 <= le_uint bs < 256 ^ Z.of_nat (length bs).
Proof.
  induction bs as [|b bs IH]; simpl le_uint; simpl length.
  - simpl. lia.
  - rewrite Nat2Z.inj_succ, Z.pow_succ_r by lia.
    pose proof (byte_val_range b). lia.
Qed.

Lemma stream_read_ok_inv n s bs rest :
  stream_read n s = Some (Ok (bs, rest)) -> s = bs ++ rest /\ length bs = n.
Proof.
  unfold stream_read. destruct (length s <? n)%nat eqn:E; [discriminate|].
  apply Nat.ltb_ge in E. intros H. injection H as <- <-.
  split; [symmetry; apply take_drop | rewrite length_take; lia].
Qed.

Lemma fixed_width_inv n s v rest :
  (let* bs := stream_read n in ret (le_uint bs)) s = Some (Ok (v, rest)) ->
  0 <= v < 256 ^ Z.of_nat n /\ (length rest + n = length s)%nat.
Proof.
  intros H. apply bind_inv_ok in H as (bs & s' & Hr & Hk).
  apply stream_read_ok_inv in Hr as [-> Hl].
  apply ret_inv_ok in Hk as [-> ->].
  split; [rewrite <- Hl; apply le_uint_range | rewrite length_app; lia].
Qed.

Lemma Int32ul_ok_inv s v rest :
  Int32ul s = Some (Ok (v, rest)) ->
  0 <= v < 2 ^ 32 /\ (length rest + 4 = length s)%nat.
Proof. apply (fixed_width_inv 4). Qed.

Lemma Int16ul_ok_inv s v rest :
  Int16ul s = Some (Ok (v, rest)) ->
  0 <= v < 2 ^ 16 /\ (length rest + 2 = length s)%nat.
Proof. apply (fixed_width_inv 2). Qed.

Lemma Byte_ok_inv s v rest :
  Byte s = Some (Ok (v, rest)) ->
  0 <= v < 256 /\ (length rest + 1 = length s)%nat.
Proof. apply (fixed_width_inv 1). Qed.

Lemma Float32l_ok_inv s v rest :
  Float32l s = Some (Ok (v, rest)) ->
  0 <= v < 2 ^ 32 /\ (length rest + 4 = length s)%nat.
Proof. apply (fixed_width_inv 4). Qed.

Lemma Array_length {A} (p : Parser A) n :
  forall s items rest, Array n p s = Some (Ok (items, rest)) -> length items = n.
Proof.
  induction n as [|n IH]; intros s items rest H; simpl in H.
  - apply ret_inv_ok in H as [-> _]. reflexivity.
  - bind_inv H. bind_inv H. apply ret_inv_ok in H as [-> _].
    simpl. f_equal. eapply IH. eassumption.
Qed.

Lemma make_vector_inv_Forall {A} (p : Parser A) (P : A -> Prop) :
  (forall s x rest, p s = Some (Ok (x, rest)) -> P x) ->
  forall s items rest, make_vector p s = Some (Ok (items, rest)) -> Forall P items.
Proof.
  intros Hp s items rest H. unfold make_vector in H. bind_inv H.
  eapply Array_inv_Forall; eassumption.
Qed.

Section DecoderInvariants.

Context {FieldsValue : Type}.
Variable fieldtypes : gmap string (Construct FieldsValue).
Variable get_parent_for : string -> result (option string).
Variable is_child_of : string -> string -> result bool.
Variable StrId_construct : Construct string.
Variable PropertyEnum_construct : Construct string.
Variable DictElement_key_construct : Construct string.
Variable depth : nat.

Local Notation Component' :=
  (Component FieldsValue fieldtypes get_parent_for is_child_of StrId_construct
     PropertyEnum_construct DictElement_key_construct depth).
Local Notation Functions' := (Functions StrId_construct PropertyEnum_construct).
Local Notation FunctionArgument' := (FunctionArgument StrId_construct).
Local Notation ExtraField' := (ExtraField StrId_construct).
Local Notation StrId' := (StrId StrId_construct).
Local Notation Dependencies' := (Dependencies is_child_of StrId_construct).
Local Notation component_type' := (component_type is_child_of StrId_construct).
Local Notation make_dict' := (make_dict DictElement_key_construct).
Local Notation CActorDef' :=
  (CActorDef FieldsValue fieldtypes get_parent_for is_child_of StrId_construct
     PropertyEnum_construct DictElement_key_construct depth).
Local Notation CCharClass' :=
  (CCharClass FieldsValue fieldtypes get_parent_for is_child_of StrId_construct
     PropertyEnum_construct DictElement_key_construct depth).
Local Notation BMSAD' :=
  (BMSAD FieldsValue fieldtypes get_parent_for is_child_of StrId_construct
     PropertyEnum_construct DictElement_key_construct depth).

Lemma FunctionArgument_agrees s a rest :
  FunctionArgument' s = Some (Ok (a, rest)) -> argument_agrees a.
Proof.
  unfold FunctionArgument. intros H.
  apply bind_inv_ok in H as (type & s1 & _ & H).
  apply bind_inv_ok in H as (value & s2 & Hv & H). apply Renamed_inv_ok in Hv.
  apply ret_inv_ok in H as [-> _].
  unfold argument_agrees. simpl.
  unfold Switch, FunctionArgument_cases in Hv. simpl in Hv.
  destruct (String.eqb type "s") eqn:Es.
  { apply String.eqb_eq in Es.
    apply bind_inv_ok in Hv as (v & s3 & _ & Hv).
    apply ret_inv_ok in Hv as [-> _]. exact Es. }
  destruct (String.eqb type "f") eqn:Ef.
  { apply String.eqb_eq in Ef.
    apply bind_inv_ok in Hv as (v & s3 & Hf & Hv).
    apply ret_inv_ok in Hv as [-> _].
    apply Float32l_ok_inv in Hf as [Hf _]. auto. }
  destruct (String.eqb type "b") eqn:Eb.
  { apply String.eqb_eq in Eb.
    apply bind_inv_ok in Hv as (v & s3 & _ & Hv).
    apply ret_inv_ok in Hv as [-> _]. exact Eb. }
  destruct (String.eqb type "i") eqn:Ei; [|discriminate].
  apply String.eqb_eq in Ei.
  apply bind_inv_ok in Hv as (v & s3 & Hi & Hv).
  apply ret_inv_ok in Hv as [-> _].
  apply Int32ul_ok_inv in Hi as [Hi _]. auto.
Qed.

(** In a decoded function table, the value of every argument is of the
    variant its one-character discriminant names (a string under "s", a
    float under "f", a flag under "b", an integer under "i"), integers
    and float patterns fit 32 bits, and the [unk] field of every
    function fits 16 bits. *)
Theorem function_arguments_agree_with_their_discriminants :
  forall s fs rest,
    Functions' s = Some (Ok (fs, rest)) ->
    Forall (fun f => 0 <= fn_unk f < 2 ^ 16
                     /\ Forall (fun kv => argument_agrees kv.2) (fn_params f))
           fs.
Proof.
  unfold Functions. intros s fs rest H.
  eapply make_vector_inv_Forall; [|exact H].
  clear. intros s f rest H. unfold Function in H.
  apply bind_inv_ok in H as (name & s1 & _ & H).
  apply bind_inv_ok in H as (unk & s2 & Hunk & H). apply Renamed_inv_ok in Hunk.
  apply bind_inv_ok in H as (params & s3 & Hparams & H). apply Renamed_inv_ok in Hparams.
  apply ret_inv_ok in H as [-> _]. simpl.
  split; [apply Int16ul_ok_inv in Hunk as [Hunk _]; exact Hunk|].
  apply DictAdapter_inv in Hparams as [Hparams _].
  eapply make_vector_inv_Forall; [|exact Hparams].
  intros s' [k a] rest' He. unfold DictElement in He.
  apply bind_inv_ok in He as (k' & s4 & _ & He).
  apply bind_inv_ok in He as (a' & s5 & Ha & He). apply Renamed_inv_ok in Ha.
  apply ret_inv_ok in He as [[= -> ->] _].
  simpl. eapply FunctionArgument_agrees, Ha.
Qed.

Lemma ExtraField_agrees s e rest :
  ExtraField' s = Some (Ok (e, rest)) -> extra_agrees e.
Proof.
  unfold ExtraField. intros H.
  apply bind_inv_ok in H as (type & s1 & _ & H).
  apply bind_inv_ok in H as (value & s2 & Hv & H). apply Renamed_inv_ok in Hv.
  apply ret_inv_ok in H as [-> _].
  unfold extra_agrees. simpl.
  unfold Switch, ExtraField_cases in Hv. simpl in Hv.
  destruct (String.eqb type "bool") eqn:Eb.
  { apply String.eqb_eq in Eb.
    apply bind_inv_ok in Hv as (v & s3 & _ & Hv).
    apply ret_inv_ok in Hv as [-> _]. exact Eb. }
  destruct (String.eqb type "string") eqn:Es; [|discriminate].
  apply String.eqb_eq in Es.
  apply bind_inv_ok in Hv as (v & s3 & _ & Hv).
  apply ret_inv_ok in Hv as [-> _]. exact Es.
Qed.

(** A decoded component has exactly two [unk_1] words, each fitting 32
    bits, and in its extra properties, when it has them, every value is
    of the variant its tag names: a flag under "bool", a string under
    "string". *)
Theorem decoded_component_is_well_typed :
  forall s c rest,
    Component' s = Some (Ok (c, rest)) ->
    length (comp_unk_1 c) = 2%nat
    /\ Forall (fun u => 0 <= u < 2 ^ 32) (comp_unk_1 c)
    /\ (forall m, comp_extra_fields c = Some m ->
                  Forall (fun kv => extra_agrees kv.2) m).
Proof.
  unfold Component. intros s c rest H.
  apply bind_inv_ok in H as (type & s1 & _ & H).
  apply bind_inv_ok in H as (unk & s2 & Hunk & H). apply Renamed_inv_ok in Hunk.
  apply bind_inv_ok in H as (blk & s3 & _ & H).
  apply bind_inv_ok in H as (extra & s4 & Hextra & H). apply Renamed_inv_ok in Hextra.
  apply bind_inv_ok in H as (fs & s5 & _ & H).
  apply bind_inv_ok in H as (deps & s6 & _ & H).
  apply ret_inv_ok in H as [-> _]. simpl.
  split; [eapply Array_length; exact Hunk|].
  split.
  - eapply Array_inv_Forall; [|exact Hunk].
    intros s' v rest' Hv. apply Int32ul_ok_inv in Hv as [Hv _]. exact Hv.
  - intros m ->.
    apply Component_extra_fields_inv in Hextra
      as [(_ & x & [= <-] & Hx)|(_ & [=] & _)].
    apply DictAdapter_inv in Hx as [Hx _].
    eapply make_vector_inv_Forall; [|exact Hx].
    intros s' [k e] rest' He. unfold DictElement in He.
    apply bind_inv_ok in He as (k' & s7 & _ & He).
    apply bind_inv_ok in He as (e' & s8 & He' & He). apply Renamed_inv_ok in He'.
    apply ret_inv_ok in He as [[= -> ->] _].
    simpl. eapply ExtraField_agrees, He'.
Qed.

Lemma FXLayout_inv s d rest :
  FXLayout StrId_construct s = Some (Ok (d, rest)) ->
  (exists items, d = DepFX items) /\ payload_shape d.
Proof.
  unfold FXLayout. intros H.
  apply bind_inv_ok in H as (items & s1 & Hitems & H).
  apply ret_inv_ok in H as [-> _].
  split; [eexists; reflexivity|]. simpl.
  eapply make_vector_inv_Forall; [|exact Hitems].
  clear. intros s i rest H.
  apply bind_inv_ok in H as (file & s1 & _ & H).
  apply bind_inv_ok in H as (u1 & s2 & H1 & H). apply Renamed_inv_ok in H1.
  apply bind_inv_ok in H as (u2 & s3 & H2 & H). apply Renamed_inv_ok in H2.
  apply bind_inv_ok in H as (u3 & s4 & H3 & H). apply Renamed_inv_ok in H3.
  apply ret_inv_ok in H as [-> _]. simpl.
  apply Int32ul_ok_inv in H1 as [H1 _]. apply Int32ul_ok_inv in H2 as [H2 _].
  apply Byte_ok_inv in H3 as [H3 _]. auto.
Qed.

Lemma CollisionLayout_inv s d rest :
  CollisionLayout StrId_construct s = Some (Ok (d, rest)) ->
  (exists file unk, d = DepCollision file unk) /\ payload_shape d.
Proof.
  unfold CollisionLayout. intros H.
  apply bind_inv_ok in H as (file & s1 & _ & H).
  apply bind_inv_ok in H as (unk & s2 & Hunk & H). apply Renamed_inv_ok in Hunk.
  apply ret_inv_ok in H as [-> _].
  split; [eexists; eexists; reflexivity|]. simpl.
  apply Int16ul_ok_inv in Hunk as [Hunk _]. exact Hunk.
Qed.

Lemma GrabLayout_inv s d rest :
  GrabLayout StrId_construct s = Some (Ok (d, rest)) ->
  (exists items, d = DepGrab items) /\ payload_shape d.
Proof.
  unfold GrabLayout. intros H.
  apply bind_inv_ok in H as (items & s1 & Hitems & H).
  apply ret_inv_ok in H as [-> _].
  split; [eexists; reflexivity|]. simpl.
  eapply make_vector_inv_Forall; [|exact Hitems].
  clear. intros s g rest H.
  apply bind_inv_ok in H as (u1 & s1 & _ & H).
  apply bind_inv_ok in H as (u2 & s2 & _ & H).
  apply bind_inv_ok in H as (u3 & s3 & _ & H).
  apply bind_inv_ok in H as (u4 & s4 & _ & H).
  apply bind_inv_ok in H as (u5 & s5 & H5 & H). apply Renamed_inv_ok in H5.
  apply bind_inv_ok in H as (u6 & s6 & H6 & H). apply Renamed_inv_ok in H6.
  apply bind_inv_ok in H as (u7 & s7 & H7 & H). apply Renamed_inv_ok in H7.
  apply bind_inv_ok in H as (u8 & s8 & H8 & H). apply Renamed_inv_ok in H8.
  apply ret_inv_ok in H as [-> _]. simpl.
  apply Byte_ok_inv in H5 as [H5 _]. apply Byte_ok_inv in H6 as [H6 _].
  apply Int16ul_ok_inv in H7 as [H7 _].
  split; [eapply Array_length; exact H8|].
  split; [|auto].
  eapply Array_inv_Forall; [|exact H8].
  clear. intros s u rest H.
  apply bind_inv_ok in H as (x2 & s1 & H2 & H). apply Renamed_inv_ok in H2.
  apply bind_inv_ok in H as (x1 & s2 & H1 & H). apply Renamed_inv_ok in H1.
  apply ret_inv_ok in H as [-> _]. simpl.
  apply Int16ul_ok_inv in H2 as [H2 _].
  split; [eapply Array_length; exact H1 | exact H2].
Qed.

Lemma BillboardLayout_inv s d rest :
  BillboardLayout StrId_construct s = Some (Ok (d, rest)) ->
  (exists id1 unk1 id2 unk2, d = DepBillboard id1 unk1 id2 unk2)
  /\ payload_shape d.
Proof.
  unfold BillboardLayout. intros H.
  apply bind_inv_ok in H as (id1 & s1 & _ & H).
  apply bind_inv_ok in H as (unk1 & s2 & Hunk1 & H). apply Renamed_inv_ok in Hunk1.
  apply bind_inv_ok in H as (id2 & s3 & _ & H).
  apply bind_inv_ok in H as (unk2 & s4 & Hunk2 & H). apply Renamed_inv_ok in Hunk2.
  apply ret_inv_ok in H as [-> _].
  split; [do 4 eexists; reflexivity|]. simpl. split.
  - eapply make_vector_inv_Forall; [|exact Hunk1].
    clear. intros s b rest H.
    apply bind_inv_ok in H as (id & s1 & _ & H).
    apply bind_inv_ok in H as (u1 & s2 & H1 & H). apply Renamed_inv_ok in H1.
    apply bind_inv_ok in H as (u2 & s3 & H2 & H). apply Renamed_inv_ok in H2.
    apply bind_inv_ok in H as (u3 & s4 & H3 & H). apply Renamed_inv_ok in H3.
    apply bind_inv_ok in H as (u4 & s5 & _ & H).
    apply ret_inv_ok in H as [-> _]. simpl.
    apply Byte_ok_inv in H2 as [H2 _].
    split; [eapply Array_length; exact H1|].
    split; [eapply Array_length; exact H3 | exact H2].
  - eapply make_vector_inv_Forall; [|exact Hunk2].
    clear. intros s b rest H.
    apply bind_inv_ok in H as (id & s1 & _ & H).
    apply bind_inv_ok in H as (u1 & s2 & H1 & H). apply Renamed_inv_ok in H1.
    apply bind_inv_ok in H as (u2 & s3 & H2 & H). apply Renamed_inv_ok in H2.
    apply ret_inv_ok in H as [-> _]. simpl.
    apply Byte_ok_inv in H1 as [H1 _].
    split; [eapply Array_length; exact H2 | exact H1].
Qed.

Lemma SwarmControllerLayout_inv s d rest :
  SwarmControllerLayout StrId_construct s = Some (Ok (d, rest)) ->
  (exists u1 u2 u3, d = DepSwarm u1 u2 u3) /\ payload_shape d.
Proof.
  unfold SwarmControllerLayout. intros H.
  apply bind_inv_ok in H as (u1 & s1 & _ & H).
  apply bind_inv_ok in H as (u2 & s2 & _ & H).
  apply bind_inv_ok in H as (u3 & s3 & _ & H).
  apply ret_inv_ok in H as [-> _].
  split; [do 3 eexists; reflexivity | exact I].
Qed.

(** The dependency payload of a component has the layout of the base
    its type was matched with, and is the empty payload, with nothing
    read, only when no base matched; the type [CStandaloneFXComponent]
    shares the layout of [CFXComponent].  Inside a payload the arrays
    of fixed size have their size (two blocks of eight floats in a grab
    entry; three, two and four integers in the billboard entries) and
    every integer fits the width it is read with. *)
Theorem dependency_payload_matches_its_base :
  forall type s d rest,
    Dependencies' type s = Some (Ok (d, rest)) ->
    match component_type' type with
    | Ok (Some base) => layout_of_base base d
    | Ok None => d = DepNone /\ rest = s
    | Raise _ => False
    end
    /\ payload_shape d.
Proof.
  intros type s d rest. unfold Dependencies, component_type. simpl first_base.
  destruct (is_child_of type "CFXComponent") as [[|]|e]; [| |discriminate].
  { intros H. apply FXLayout_inv in H as [[items ->] Hs]. simpl. auto. }
  destruct (is_child_of type "CCollisionComponent") as [[|]|e]; [| |discriminate].
  { intros H. apply CollisionLayout_inv in H as [(f & u & ->) Hs]. simpl. auto. }
  destruct (is_child_of type "CGrabComponent") as [[|]|e]; [| |discriminate].
  { intros H. apply GrabLayout_inv in H as [[items ->] Hs]. simpl in *. auto. }
  destruct (is_child_of type "CBillboardComponent") as [[|]|e]; [| |discriminate].
  { intros H. apply BillboardLayout_inv in H as [(a & b & c & e & ->) Hs].
    simpl in *. auto. }
  destruct (is_child_of type "CSwarmControllerComponent") as [[|]|e];
    [| |discriminate].
  { intros H. apply SwarmControllerLayout_inv in H as [(a & b & c & ->) Hs].
    simpl. auto. }
  destruct (is_child_of type "CStandaloneFXComponent") as [[|]|e];
    [| |discriminate].
  { intros H. apply FXLayout_inv in H as [[items ->] Hs]. simpl. auto. }
  intros H. injection H as <- <-. simpl. auto.
Qed.

Lemma Const_bytes_mismatch expected bs rest :
  length bs = length expected -> bs <> expected ->
  Const_bytes expected (bs ++ rest) = Some (Raise ConstError).
Proof.
  intros Hl Hne. unfold Const_bytes.
  erewrite bind_ok; [|apply stream_read_app; exact Hl].
  rewrite bool_decide_eq_false_2 by exact Hne. reflexivity.
Qed.

(** What the envelope does with a bad start: data shorter than the
    magic, or a magic without four more bytes after it, ends with a
    stream error; four bytes other than "MSAD", or a version word other
    than 0x0200000F, end with a constant error, whatever follows. *)
Theorem envelope_rejects_a_bad_header :
  (forall data,
     (length data < 4)%nat ->
     parse BMSAD' data = Some (Raise (At "magic" StreamError)))
  /\ (forall magic rest,
        length magic = 4%nat -> magic <> String.list_byte_of_string "MSAD" ->
        parse BMSAD' (magic ++ rest) = Some (Raise (At "magic" ConstError)))
  /\ (forall rest,
        (length rest < 4)%nat ->
        parse BMSAD' (String.list_byte_of_string "MSAD" ++ rest)
          = Some (Raise (At "version" StreamError)))
  /\ (forall version rest,
        length version = 4%nat -> le_uint version <> 0x0200000F ->
        parse BMSAD' (String.list_byte_of_string "MSAD" ++ version ++ rest)
          = Some (Raise (At "version" ConstError))).
Proof.
  split; [|split; [|split]].
  - intros data Hl. apply parse_raise. unfold BMSAD.
    apply bind_raise. apply Renamed_raise_at; [reflexivity|].
    unfold Const_bytes. apply bind_raise.
    apply stream_read_short. exact Hl.
  - intros magic rest Hl Hne. apply parse_raise. unfold BMSAD.
    apply bind_raise. apply Renamed_raise_at; [reflexivity|].
    apply Const_bytes_mismatch; assumption.
  - intros rest Hl. apply parse_raise. unfold BMSAD.
    erewrite bind_ok; [|apply Renamed_ok, Const_bytes_app].
    apply bind_raise. apply Renamed_raise_at; [reflexivity|].
    unfold Const. apply bind_raise.
    unfold Int32ul. apply bind_raise. apply stream_read_short. exact Hl.
  - intros version rest Hl Hne. apply parse_raise. unfold BMSAD.
    erewrite bind_ok; [|apply Renamed_ok, Const_bytes_app].
    apply bind_raise. apply Renamed_raise_at; [reflexivity|].
    unfold Const.
    erewrite bind_ok; [|apply Int32ul_app; exact Hl].
    apply Z.eqb_neq in Hne. rewrite Hne. reflexivity.
Qed.

(** After a good header, a resource whose type is neither "CCharClass"
    nor "CActorDef" is rejected with the text "Unknown property type: "
    followed by that type; nothing after the type is read. *)
Theorem envelope_rejects_an_unknown_definition_type :
  forall s0 name s1 type s2,
    StrId_construct s0 = Ok (name, s1) ->
    StrId_construct s1 = Ok (type, s2) ->
    type <> "CCharClass" -> type <> "CActorDef" ->
    parse BMSAD'
      (String.list_byte_of_string "MSAD" ++ [x0f; x00; x00; x02] ++ s0)
    = Some (Raise (At "property"
                     (MessageError ExplicitError
                        ("Unknown property type: " +:+ type)))).
Proof.
  intros s0 name s1 type s2 Hname Htype Hcc Had.
  apply parse_raise. unfold BMSAD.
  erewrite bind_ok; [|apply Renamed_ok; apply Const_bytes_app].
  erewrite bind_ok; [|apply Renamed_ok; apply (Const_Int32ul_app _ [x0f; x00; x00; x02]); reflexivity].
  erewrite bind_ok; [|apply Renamed_ok; unfold StrId; rewrite lift_eq, Hname; reflexivity].
  erewrite bind_ok; [|apply Renamed_ok; unfold StrId; rewrite lift_eq, Htype; reflexivity].
  apply bind_raise. apply Renamed_raise_at; [reflexivity|].
  unfold Switch, property_types. simpl.
  apply String.eqb_neq in Hcc, Had. rewrite Hcc, Had. reflexivity.
Qed.

Lemma Const_ok_inv expected (p : Parser Z) s v rest :
  Const expected p s = Some (Ok (v, rest)) ->
  v = expected /\ p s = Some (Ok (expected, rest)).
Proof.
  unfold Const. intros H.
  apply bind_inv_ok in H as (x & s1 & Hp & H).
  destruct (x =? expected) eqn:E; [|discriminate].
  apply Z.eqb_eq in E. subst x.
  apply ret_inv_ok in H as [-> ->]. auto.
Qed.

(** A resource that decodes was read to its last byte, carries the magic
    "MSAD" and the version 0x0200000F, and its body is of the variant
    its type names: under "CCharClass" a character class, whose own
    magic word is 0xFFFFFFFF and whose [unk_4] holds nine floats; under
    "CActorDef" an actor definition; no other type decodes. *)
Theorem decoded_resource_is_well_formed :
  forall data r,
    parse BMSAD' data = Some (Ok r) ->
    BMSAD' data = Some (Ok (r, []))
    /\ bmsad_magic r = String.list_byte_of_string "MSAD"
    /\ bmsad_version r = 0x0200000F
    /\ match bmsad_property r with
       | PropCharClass c =>
           bmsad_type r = "CCharClass" /\ cc_magic c = 0xFFFFFFFF
           /\ length (cc_unk_4 c) = 9%nat
       | PropActorDef _ => bmsad_type r = "CActorDef"
       end.
Proof.
  intros data r H. unfold parse in H.
  destruct (BMSAD' data) as [[[r' rest]|e]|] eqn:Hd; try discriminate.
  injection H as ->.
  unfold BMSAD in Hd.
  apply bind_inv_ok in Hd as (magic & s1 & Hmagic & Hd). apply Renamed_inv_ok in Hmagic.
  apply bind_inv_ok in Hd as (version & s2 & Hversion & Hd). apply Renamed_inv_ok in Hversion.
  apply bind_inv_ok in Hd as (name & s3 & _ & Hd).
  apply bind_inv_ok in Hd as (type & s4 & _ & Hd).
  apply bind_inv_ok in Hd as (property & s5 & Hprop & Hd). apply Renamed_inv_ok in Hprop.
  apply bind_inv_ok in Hd as (u & s6 & Hend & Hd). apply Renamed_inv_ok in Hend.
  apply ret_inv_ok in Hd as [-> ->].
  assert (s6 = []) as ->.
  { unfold Terminated in Hend. destruct s5; [|discriminate].
    injection Hend as _ <-. reflexivity. }
  split; [reflexivity|]. simpl.
  split.
  { unfold Const_bytes in Hmagic.
    apply bind_inv_ok in Hmagic as (bs & s7 & _ & Hmagic).
    case_bool_decide as Hbs; [|discriminate].
    apply ret_inv_ok in Hmagic as [-> _]. exact Hbs. }
  split; [apply Const_ok_inv in Hversion as [-> _]; reflexivity|].
  unfold Switch, property_types in Hprop. simpl in Hprop.
  destruct (String.eqb type "CCharClass") eqn:Ecc.
  - apply String.eqb_eq in Ecc.
    apply bind_inv_ok in Hprop as (c & s7 & Hc & Hprop).
    apply ret_inv_ok in Hprop as [-> _].
    split; [exact Ecc|].
    unfold CCharClass in Hc.
    apply bind_inv_ok in Hc as (model & t1 & _ & Hc).
    apply bind_inv_ok in Hc as (u1 & t2 & _ & Hc).
    apply bind_inv_ok in Hc as (u2 & t3 & _ & Hc).
    apply bind_inv_ok in Hc as (u3 & t4 & _ & Hc).
    apply bind_inv_ok in Hc as (subs & t5 & _ & Hc).
    apply bind_inv_ok in Hc as (u4 & t6 & Hu4 & Hc). apply Renamed_inv_ok in Hu4.
    apply bind_inv_ok in Hc as (mg & t7 & Hmg & Hc). apply Renamed_inv_ok in Hmg.
    do 6 (bind_inv Hc). apply ret_inv_ok in Hc as [-> _]. simpl.
    split; [apply Const_ok_inv in Hmg as [-> _]; reflexivity|].
    eapply Array_length. exact Hu4.
  - destruct (String.eqb type "CActorDef") eqn:Ead; [|discriminate].
    apply String.eqb_eq in Ead.
    apply bind_inv_ok in Hprop as (a & s7 & _ & Hprop).
    apply ret_inv_ok in Hprop as [-> _]. exact Ead.
Qed.

(** The magic word of a character class is checked where it stands:
    when the fields before it decode and the word is not 0xFFFFFFFF,
    the body fails with a constant error whatever the bytes after the
    word are. *)
Theorem character_class_magic_is_checked_in_place :
  forall s0 model s1 u1 s2 u2 s3 u3 s4 subs s5 u4 word rest,
    StrId_construct s0 = Ok (model, s1) ->
    Int16ul s1 = Some (Ok (u1, s2)) ->
    Int32ul s2 = Some (Ok (u2, s3)) ->
    Int16ul s3 = Some (Ok (u3, s4)) ->
    PrefixedArray Int32ul StrId' s4 = Some (Ok (subs, s5)) ->
    length word = 4%nat -> le_uint word <> 0xFFFFFFFF ->
    Array 9 Float32l s5 = Some (Ok (u4, word ++ rest)) ->
    CCharClass' s0 = Some (Raise (At "magic" ConstError)).
Proof.
  intros s0 model s1 u1 s2 u2 s3 u3 s4 subs s5 u4 word rest
         H0 H1 H2 H3 H4 Hl Hne H5.
  unfold CCharClass.
  erewrite bind_ok; [|apply Renamed_ok; unfold StrId; rewrite lift_eq, H0; reflexivity].
  erewrite bind_ok; [|apply Renamed_ok; exact H1].
  erewrite bind_ok; [|apply Renamed_ok; exact H2].
  erewrite bind_ok; [|apply Renamed_ok; exact H3].
  erewrite bind_ok; [|apply Renamed_ok; exact H4].
  erewrite bind_ok; [|apply Renamed_ok; exact H5].
  apply bind_raise. apply Renamed_raise_at; [reflexivity|]. unfold Const.
  erewrite bind_ok; [|apply Int32ul_app; exact Hl].
  apply Z.eqb_neq in Hne. rewrite Hne. reflexivity.
Qed.

End DecoderInvariants.

(** ** What a decoded value costs in bytes *)

Lemma uses_le {A} (p : Parser A) k k' :
  uses_at_least k p -> (k' <= k)%nat -> uses_at_least k' p.
Proof. intros Hp Hle s v rest H. specialize (Hp _ _ _ H). lia. Qed.

Lemma uses_bind {A B} (p : Parser A) (k : A -> Parser B) a b :
  uses_at_least a p -> (forall x, uses_at_least b (k x)) ->
  uses_at_least (a + b) (bind p k).
Proof.
  intros Hp Hk s v rest H.
  apply bind_inv_ok in H as (x & s1 & H1 & H2).
  specialize (Hp _ _ _ H1). specialize (Hk _ _ _ _ H2). lia.
Qed.

Lemma uses_ret {A} (a : A) : uses_at_least 0 (ret a).
Proof. intros s v rest H. apply ret_inv_ok in H as [_ ->]. lia. Qed.

Lemma uses_raise {A} e k : uses_at_least k (@raise A e).
Proof. intros s v rest H. discriminate. Qed.

Lemma uses_lift {A} (c : Construct A) :
  moves_forward c -> uses_at_least 0 (lift c).
Proof.
  intros Hc s v rest H. unfold lift in H. injection H as H.
  specialize (Hc _ _ _ H). lia.
Qed.

Lemma uses_stream_read n : uses_at_least n (stream_read n).
Proof.
  intros s v rest H. apply stream_read_ok_inv in H as [-> Hl].
  rewrite length_app. lia.
Qed.

Lemma uses_Int32ul : uses_at_least 4 Int32ul.
Proof. intros s v rest H. apply Int32ul_ok_inv in H. lia. Qed.

Lemma uses_Int16ul : uses_at_least 2 Int16ul.
Proof. intros s v rest H. apply Int16ul_ok_inv in H. lia. Qed.

Lemma uses_Byte : uses_at_least 1 Byte.
Proof. intros s v rest H. apply Byte_ok_inv in H. lia. Qed.

Lemma uses_Float32l : uses_at_least 4 Float32l.
Proof. intros s v rest H. apply Float32l_ok_inv in H. lia. Qed.

Lemma uses_Flag : uses_at_least 1 Flag.
Proof.
  unfold Flag. eapply uses_le.
  - apply uses_bind; [apply uses_stream_read | intros; apply uses_ret].
  - lia.
Qed.

Lemma uses_Char : uses_at_least 1 Char.
Proof.
  unfold Char. intros s v rest H.
  apply bind_inv_ok in H as (bs & s1 & Hr & H).
  apply stream_read_ok_inv in Hr as [-> Hl]. rewrite length_app, Hl.
  destruct bs as [|b [|b' bs]]; try discriminate.
  destruct (byte_val b =? 0); [apply ret_inv_ok in H as [_ ->]; lia|].
  destruct (byte_val b <? 128); [apply ret_inv_ok in H as [_ ->]; lia|].
  discriminate.
Qed.

Lemma Array_uses {A} (p : Parser A) k :
  uses_at_least k p ->
  forall n s items rest,
    Array n p s = Some (Ok (items, rest)) ->
    length items = n /\ (length rest + k * n <= length s)%nat.
Proof.
  intros Hp. induction n as [|n IH]; intros s items rest H; simpl in H.
  - apply ret_inv_ok in H as [-> ->]. simpl. lia.
  - apply bind_inv_ok in H as (x & s1 & H1 & H).
    apply bind_inv_ok in H as (xs & s2 & H2 & H).
    apply ret_inv_ok in H as [-> ->].
    specialize (Hp _ _ _ H1). destruct (IH _ _ _ H2) as [Hl Hu].
    simpl. split; [lia | nia].
Qed.

Lemma uses_Array {A} (p : Parser A) k n :
  uses_at_least k p -> uses_at_least (k * n) (Array n p).
Proof. intros Hp s v rest H. apply (Array_uses p k Hp) in H. lia. Qed.

Lemma make_vector_uses {A} (p : Parser A) k :
  uses_at_least k p ->
  forall s items rest,
    make_vector p s = Some (Ok (items, rest)) ->
    (length rest + 4 + k * length items <= length s)%nat.
Proof.
  intros Hp s items rest H. unfold make_vector in H.
  apply bind_inv_ok in H as (n & s1 & Hn & H).
  apply Int32ul_ok_inv in Hn as [_ Hn].
  apply (Array_uses p k Hp) in H as [Hl Hu]. rewrite Hl. lia.
Qed.

Lemma uses_make_vector {A} (p : Parser A) :
  uses_at_least 0 p -> uses_at_least 4 (make_vector p).
Proof. intros Hp s v rest H. apply (make_vector_uses p 0 Hp) in H. lia. Qed.

Lemma uses_DictAdapter {A} (p : Parser (list (string * A))) k :
  uses_at_least k p -> uses_at_least k (DictAdapter p).
Proof.
  intros Hp s v rest H. apply DictAdapter_inv in H as [H _].
  exact (Hp _ _ _ H).
Qed.

Lemma uses_PrefixedAllowZeroLen {A} (p : Parser A) :
  uses_at_least 4 (PrefixedAllowZeroLen Int32ul p).
Proof.
  intros s v rest H. unfold PrefixedAllowZeroLen in H.
  apply bind_inv_ok in H as (len & s1 & Hlen & H).
  apply Int32ul_ok_inv in Hlen as [_ Hlen].
  destruct (len =? 0).
  - apply ret_inv_ok in H as [_ ->]. lia.
  - apply bind_inv_ok in H as (window & s2 & Hw & H).
    apply uses_stream_read in Hw.
    destruct (p window) as [[[x w]|e]|]; try discriminate.
    injection H as _ <-. lia.
Qed.

Lemma uses_Renamed {A} name (p : Parser A) k :
  uses_at_least k p -> uses_at_least k (Renamed name p).
Proof. intros Hp s v rest H. apply Renamed_inv_ok in H. exact (Hp _ _ _ H). Qed.

Lemma uses_evaluate {A} (r : result A) : uses_at_least 0 (evaluate r).
Proof. intros s v rest H. apply evaluate_inv_ok in H as [_ ->]. lia. Qed.

Lemma uses_dict_get {A} (d : list (string * Parser A)) key p k :
  Forall (fun kp => uses_at_least k kp.2) d ->
  dict_get d key = Some p -> uses_at_least k p.
Proof.
  induction 1 as [|[k' p'] d Hp' _ IH]; simpl; [discriminate|].
  destruct (String.eqb key k'); [intros [= <-]; exact Hp' | exact IH].
Qed.

(** Proves that a parser built from binds uses at least some number of
    bytes, found on the way. *)
Ltac uses_steps :=
  repeat first
    [ eassumption
    | apply uses_ret | apply uses_raise | apply uses_evaluate
    | apply uses_Renamed
    | apply uses_Int32ul | apply uses_Int16ul | apply uses_Byte
    | apply uses_Float32l | apply uses_Flag | apply uses_Char
    | apply uses_PrefixedAllowZeroLen
    | apply uses_stream_read
    | apply uses_make_vector; eapply uses_le; [|apply Nat.le_0_l]
    | eapply uses_DictAdapter
    | eapply uses_Array
    | eapply uses_bind; [|intros ?] ].

Section ByteCost.

Context {FieldsValue : Type}.
Variable fieldtypes : gmap string (Construct FieldsValue).
Variable get_parent_for : string -> result (option string).
Variable is_child_of : string -> string -> result bool.
Variable StrId_construct : Construct string.
Variable PropertyEnum_construct : Construct string.
Variable DictElement_key_construct : Construct string.
Variable depth : nat.

Hypothesis StrId_forward : moves_forward StrId_construct.
Hypothesis PropertyEnum_forward : moves_forward PropertyEnum_construct.
Hypothesis DictElement_key_forward : moves_forward DictElement_key_construct.

Local Notation Component' :=
  (Component FieldsValue fieldtypes get_parent_for is_child_of StrId_construct
     PropertyEnum_construct DictElement_key_construct depth).
Local Notation Functions' := (Functions StrId_construct PropertyEnum_construct).
Local Notation StrId' := (StrId StrId_construct).
Local Notation PropertyEnum' := (PropertyEnum PropertyEnum_construct).
Local Notation DictElement_key' := (DictElement_key DictElement_key_construct).
Local Notation Dependencies' := (Dependencies is_child_of StrId_construct).
Local Notation make_dict' := (make_dict DictElement_key_construct).
Local Notation CActorDef' :=
  (CActorDef FieldsValue fieldtypes get_parent_for is_child_of StrId_construct
     PropertyEnum_construct DictElement_key_construct depth).
Local Notation CCharClass' :=
  (CCharClass FieldsValue fieldtypes get_parent_for is_child_of StrId_construct
     PropertyEnum_construct DictElement_key_construct depth).
Local Notation BMSAD' :=
  (BMSAD FieldsValue fieldtypes get_parent_for is_child_of StrId_construct
     PropertyEnum_construct DictElement_key_construct depth).

Lemma uses_StrId : uses_at_least 0 StrId'.
Proof. apply uses_lift, StrId_forward. Qed.

Lemma uses_PropertyEnum : uses_at_least 0 PropertyEnum'.
Proof. apply uses_lift, PropertyEnum_forward. Qed.

Lemma uses_DictElement_key : uses_at_least 0 DictElement_key'.
Proof. apply uses_lift, DictElement_key_forward. Qed.

Lemma uses_FunctionArgument : uses_at_least 1 (FunctionArgument StrId_construct).
Proof.
  pose proof uses_StrId.
  unfold FunctionArgument. eapply uses_le.
  - eapply uses_bind; [apply uses_Renamed, uses_Char|]. intros type.
    eapply uses_bind; [|intros; apply uses_ret].
    apply uses_Renamed. unfold Switch.
    destruct (FunctionArgument_cases StrId_construct type) as [p|] eqn:E;
      [|apply (uses_raise _ 0)].
    unfold FunctionArgument_cases in E.
    eapply (uses_dict_get _ _ _ 0); [|exact E].
    repeat constructor; simpl; (eapply uses_le; [uses_steps | lia]).
  - lia.
Qed.

Lemma uses_Functions : uses_at_least 4 Functions'.
Proof.
  pose proof uses_StrId. pose proof uses_PropertyEnum.
  pose proof uses_FunctionArgument.
  unfold Functions. apply uses_make_vector.
  eapply uses_le; [|apply Nat.le_0_l]. unfold Function.
  eapply uses_bind; [apply uses_Renamed; eassumption|]. intros name.
  eapply uses_bind; [apply uses_Renamed, uses_Int16ul|]. intros unk.
  eapply uses_bind; [|intros; apply uses_ret].
  apply uses_Renamed, uses_DictAdapter, uses_make_vector. unfold DictElement.
  eapply uses_le; [|apply Nat.le_0_l].
  eapply uses_bind; [eassumption|]. intros k.
  eapply uses_bind; [apply uses_Renamed; eassumption|]. intros a. apply uses_ret.
Qed.

Lemma uses_Dependencies type : uses_at_least 0 (Dependencies' type).
Proof.
  pose proof uses_StrId.
  unfold Dependencies.
  apply (uses_bind _ _ 0 0); [apply uses_evaluate|]. intros key.
  unfold Switch.
  destruct key as [base|]; cbn [mbind option_bind];
    [|eapply uses_le; [uses_steps | lia]].
  destruct (dict_get (component_dependencies StrId_construct) base) as [p|] eqn:E;
    [|eapply uses_le; [uses_steps | lia]].
  eapply uses_dict_get; [|exact E].
  repeat constructor; simpl.
  - unfold FXLayout. eapply uses_le; [uses_steps | lia].
  - unfold CollisionLayout. eapply uses_le; [uses_steps | lia].
  - unfold GrabLayout. eapply uses_le; [uses_steps | lia].
  - unfold BillboardLayout. eapply uses_le; [uses_steps | lia].
  - unfold SwarmControllerLayout. eapply uses_le; [uses_steps | lia].
  - unfold FXLayout. eapply uses_le; [uses_steps | lia].
Qed.

Lemma uses_ExtraField : uses_at_least 0 (ExtraField StrId_construct).
Proof.
  pose proof uses_StrId.
  unfold ExtraField. eapply uses_le.
  - eapply uses_bind; [apply uses_Renamed; eassumption|]. intros type.
    eapply uses_bind; [|intros; apply uses_ret].
    apply uses_Renamed. unfold Switch.
    destruct (ExtraField_cases StrId_construct type) as [p|] eqn:E;
      [|apply (uses_raise _ 0)].
    unfold ExtraField_cases in E.
    eapply (uses_dict_get _ _ _ 0); [|exact E].
    repeat constructor; simpl; (eapply uses_le; [uses_steps | lia]).
  - lia.
Qed.

Lemma uses_Component : uses_at_least 16 Component'.
Proof.
  pose proof uses_StrId. pose proof uses_DictElement_key.
  pose proof uses_ExtraField.
  unfold Component. eapply uses_le.
  - eapply uses_bind; [apply uses_Renamed; eassumption|]. intros type.
    eapply uses_bind; [apply uses_Renamed, uses_Array, uses_Int32ul|]. intros unk.
    eapply uses_bind; [apply uses_Renamed, uses_PrefixedAllowZeroLen|]. intros blk.
    eapply uses_bind.
    { apply uses_Renamed. unfold Component_extra_fields.
      apply (uses_bind _ _ 0 0); [apply uses_evaluate|]. intros cond.
      unfold If. destruct cond; [|apply uses_ret].
      eapply uses_le with (k := 4%nat); [|apply Nat.le_0_l].
      eapply uses_le.
      - eapply uses_bind; [|intros; apply uses_ret].
        apply uses_DictAdapter, uses_make_vector. unfold DictElement.
        eapply uses_le; [|apply Nat.le_0_l].
        eapply uses_bind; [eassumption|]. intros k.
        eapply uses_bind; [apply uses_Renamed; eassumption|]. intros e.
        apply uses_ret.
      - lia. }
    intros extra.
    eapply uses_bind; [apply uses_Renamed, uses_Functions|]. intros fs.
    eapply uses_bind; [apply uses_Renamed, uses_Dependencies|]. intros deps.
    apply uses_ret.
  - lia.
Qed.

Lemma make_dict_Component_uses s d rest :
  make_dict' Component' s = Some (Ok (d, rest)) ->
  (length rest + 4 + 16 * length d <= length s)%nat.
Proof.
  unfold make_dict. intros H. apply DictAdapter_inv in H as [H _].
  eapply (make_vector_uses _ 16); [|exact H].
  unfold DictElement. eapply uses_le.
  - eapply uses_bind; [apply uses_DictElement_key|]. intros k.
    eapply uses_bind; [apply uses_Renamed, uses_Component|]. intros c.
    apply uses_ret.
  - lia.
Qed.

(** With string constructs that never give back more data than they
    get, a resource that decodes is paid for in bytes: every component
    in its map took at least sixteen bytes of the data, and the
    envelope and the body around the map at least thirty-two more. *)
Theorem decoded_components_are_paid_for_in_bytes :
  forall data r,
    parse BMSAD' data = Some (Ok r) ->
    (16 * length (components_of r) + 32 <= length data)%nat.
Proof.
  pose proof uses_StrId as HS.
  assert (Hsub : uses_at_least 4 (PrefixedArray Int32ul StrId')).
  { unfold PrefixedArray. eapply uses_le.
    - eapply uses_bind; [apply uses_Int32ul|]. intros n.
      apply (uses_le _ (0 * Z.to_nat n) 0); [apply uses_Array, HS | lia].
    - lia. }
  assert (Hbin : uses_at_least 4 (make_vector StrId')).
  { apply uses_make_vector. exact HS. }
  assert (Hsrc : uses_at_least 4 (make_vector (Sequence2 StrId' Byte))).
  { apply uses_make_vector. unfold Sequence2.
    eapply uses_le; [uses_steps | lia]. }
  assert (Hconst : forall v, uses_at_least 4 (Const v Int32ul)).
  { intros v s x rest H. apply Const_ok_inv in H as [_ H].
    apply uses_Int32ul in H. exact H. }
  intros data r H. unfold parse in H.
  destruct (BMSAD' data) as [[[r' rest]|e]|] eqn:Hd; try discriminate.
  injection H as ->. unfold BMSAD in Hd.
  apply bind_inv_ok in Hd as (magic & s1 & Hmagic & Hd). apply Renamed_inv_ok in Hmagic.
  apply bind_inv_ok in Hd as (version & s2 & Hversion & Hd). apply Renamed_inv_ok in Hversion.
  apply bind_inv_ok in Hd as (name & s3 & Hname & Hd). apply Renamed_inv_ok in Hname.
  apply bind_inv_ok in Hd as (type & s4 & Htype & Hd). apply Renamed_inv_ok in Htype.
  apply bind_inv_ok in Hd as (property & s5 & Hprop & Hd). apply Renamed_inv_ok in Hprop.
  apply bind_inv_ok in Hd as (u & s6 & _ & Hd).
  apply ret_inv_ok in Hd as [-> _].
  unfold components_of. simpl.
  assert (Hm : (length s1 + 4 <= length data)%nat).
  { unfold Const_bytes in Hmagic.
    apply bind_inv_ok in Hmagic as (bs & s7 & Hr & Hmagic).
    apply uses_stream_read in Hr.
    case_bool_decide; [|discriminate].
    apply ret_inv_ok in Hmagic as [_ ->]. exact Hr. }
  apply Hconst in Hversion. apply HS in Hname. apply HS in Htype.
  unfold Switch, property_types in Hprop. simpl in Hprop.
  destruct (String.eqb type "CCharClass").
  - apply bind_inv_ok in Hprop as (c & s7 & Hc & Hprop).
    apply ret_inv_ok in Hprop as [-> ->].
    unfold CCharClass in Hc.
    apply bind_inv_ok in Hc as (model & t1 & H1 & Hc). apply Renamed_inv_ok in H1. apply HS in H1.
    apply bind_inv_ok in Hc as (u1 & t2 & H2 & Hc). apply Renamed_inv_ok in H2. apply uses_Int16ul in H2.
    apply bind_inv_ok in Hc as (u2 & t3 & H3 & Hc). apply Renamed_inv_ok in H3. apply uses_Int32ul in H3.
    apply bind_inv_ok in Hc as (u3 & t4 & H4 & Hc). apply Renamed_inv_ok in H4. apply uses_Int16ul in H4.
    apply bind_inv_ok in Hc as (subs & t5 & H5 & Hc). apply Renamed_inv_ok in H5. apply Hsub in H5.
    apply bind_inv_ok in Hc as (u4 & t6 & H6 & Hc). apply Renamed_inv_ok in H6.
    apply (uses_Array _ 4 9 uses_Float32l) in H6.
    apply bind_inv_ok in Hc as (mg & t7 & H7 & Hc). apply Renamed_inv_ok in H7. apply Hconst in H7.
    apply bind_inv_ok in Hc as (u5 & t8 & H8 & Hc). apply Renamed_inv_ok in H8. apply uses_Byte in H8.
    apply bind_inv_ok in Hc as (u6 & t9 & H9 & Hc). apply Renamed_inv_ok in H9. apply HS in H9.
    apply bind_inv_ok in Hc as (u7 & t10 & H10 & Hc). apply Renamed_inv_ok in H10. apply uses_Byte in H10.
    apply bind_inv_ok in Hc as (comps & t11 & H11 & Hc). apply Renamed_inv_ok in H11.
    apply make_dict_Component_uses in H11.
    apply bind_inv_ok in Hc as (bins & t12 & H12 & Hc). apply Renamed_inv_ok in H12. apply Hbin in H12.
    apply bind_inv_ok in Hc as (srcs & t13 & H13 & Hc). apply Renamed_inv_ok in H13. apply Hsrc in H13.
    apply ret_inv_ok in Hc as [-> ->]. simpl. lia.
  - destruct (String.eqb type "CActorDef"); [|discriminate].
    apply bind_inv_ok in Hprop as (a & s7 & Ha & Hprop).
    apply ret_inv_ok in Hprop as [-> ->].
    unfold CActorDef in Ha.
    apply bind_inv_ok in Ha as (u1 & t2 & H2 & Ha). apply Renamed_inv_ok in H2. apply uses_Int16ul in H2.
    apply bind_inv_ok in Ha as (u2 & t3 & H3 & Ha). apply Renamed_inv_ok in H3. apply uses_Int32ul in H3.
    apply bind_inv_ok in Ha as (u3 & t4 & H4 & Ha). apply Renamed_inv_ok in H4. apply uses_Int16ul in H4.
    apply bind_inv_ok in Ha as (subs & t5 & H5 & Ha). apply Renamed_inv_ok in H5. apply Hsub in H5.
    apply bind_inv_ok in Ha as (u4 & t6 & H6 & Ha). apply Renamed_inv_ok in H6. apply HS in H6.
    apply bind_inv_ok in Ha as (comps & t11 & H11 & Ha). apply Renamed_inv_ok in H11.
    apply make_dict_Component_uses in H11.
    apply bind_inv_ok in Ha as (bins & t12 & H12 & Ha). apply Renamed_inv_ok in H12. apply Hbin in H12.
    apply bind_inv_ok in Ha as (srcs & t13 & H13 & Ha). apply Renamed_inv_ok in H13. apply Hsrc in H13.
    apply ret_inv_ok in Ha as [-> ->]. simpl. lia.
Qed.

End ByteCost.

(** ** The further properties on concrete data *)

Lemma CString_moves_forward : moves_forward CString.
Proof.
  assert (Hsplit : forall s text rest,
            CString_split s = Some (text, rest) -> (length rest <= length s)%nat).
  { induction s as [|b s IH]; intros text rest; simpl; [discriminate|].
    case_bool_decide.
    - intros [= _ <-]. lia.
    - destruct (CString_split s) as [[t r]|]; [|discriminate].
      intros [= _ <-]. specialize (IH _ _ eq_refl). lia. }
  intros s v rest. unfold CString.
  destruct (CString_split s) as [[t r]|] eqn:E; [|discriminate].
  intros [= _ <-]. eapply Hsplit, E.
Qed.

Lemma resolution_returns_the_nearest_schema_witness :
  find_charclass_for_type Z schemas (TypeLib.get_parent_for parents) 5
    (Some "CBarComponent") = Some (Ok "CCharClassFooComponent").
Proof.
  apply (proj2 (resolution_returns_the_nearest_schema schemas
                  (TypeLib.get_parent_for parents) "CBarComponent"
                  "CCharClassFooComponent") 2%nat 5%nat).
  - lia.
  - vm_compute. reflexivity.
  - discriminate.
Defined.

Lemma unknown_component_type_error_sources_witness :
  Component_fields Z no_schemas (TypeLib.get_parent_for parents) CString 3
    "CActorComponent" (cstr "" ++ cstr "Root" ++ [x2a])
  = Some (Raise (At "fields"
                   (MessageError SwitchError
                      "Unknown component type: CActorComponent"))).
Proof.
  assert (H1 : CString (cstr "" ++ cstr "Root" ++ [x2a])
               = Ok ("", cstr "Root" ++ [x2a])) by reflexivity.
  assert (H2 : CString (cstr "Root" ++ [x2a]) = Ok ("Root", [x2a]))
    by reflexivity.
  apply (proj2 (unknown_component_type_error_sources no_schemas
                  (TypeLib.get_parent_for parents) CString 3
                  "CActorComponent" _ _ _ _ _ _ H1 H2)).
  left. split; [|split]; vm_compute; reflexivity.
Defined.

Lemma function_arguments_agree_witness :
  exists fs rest,
    Functions CString CString one_function = Some (Ok (fs, rest))
    /\ Forall (fun f => 0 <= fn_unk f < 2 ^ 16
                        /\ Forall (fun kv => argument_agrees kv.2) (fn_params f))
              fs.
Proof.
  eexists. eexists. split.
  - vm_compute. reflexivity.
  - eapply (function_arguments_agree_with_their_discriminants CString CString
              one_function).
    vm_compute. reflexivity.
Defined.

Lemma decoded_component_is_well_typed_witness :
  exists c rest,
    decode_component schemas parents 5 foo_component = Some (Ok (c, rest))
    /\ length (comp_unk_1 c) = 2%nat
    /\ Forall (fun u => 0 <= u < 2 ^ 32) (comp_unk_1 c)
    /\ (forall m, comp_extra_fields c = Some m ->
                  Forall (fun kv => extra_agrees kv.2) m).
Proof.
  eexists. eexists. split.
  - vm_compute. reflexivity.
  - eapply (decoded_component_is_well_typed schemas
              (TypeLib.get_parent_for parents) (child_of parents 5)
              CString CString CString 5 foo_component).
    vm_compute. reflexivity.
Defined.

Lemma dependency_payload_matches_its_base_witness :
  layout_of_base "CFXComponent"
    (DepFX [{| fx_file := "fx"; fx_unk1 := 1; fx_unk2 := 2; fx_unk3 := 3 |}])
  /\ payload_shape
       (DepFX [{| fx_file := "fx"; fx_unk1 := 1; fx_unk2 := 2; fx_unk3 := 3 |}]).
Proof.
  apply (dependency_payload_matches_its_base
           (child_of nested_parents 8) CString "CMyCollision"
           ([x01; x00; x00; x00] ++ cstr "fx"
            ++ [x01; x00; x00; x00; x02; x00; x00; x00; x03])
           _ []).
  vm_compute. reflexivity.
Defined.

Lemma envelope_rejects_a_bad_header_witness :
  decode schemas parents 5
    (String.list_byte_of_string "MSAX" ++ [x0f; x00; x00; x02] ++ cstr "test")
  = Some (Raise (At "magic" ConstError)).
Proof.
  apply (proj1 (proj2 (envelope_rejects_a_bad_header schemas
                         (TypeLib.get_parent_for parents)
                         (child_of parents 5)
                         CString CString CString 5))
           (String.list_byte_of_string "MSAX")).
  - reflexivity.
  - discriminate.
Defined.

Lemma envelope_rejects_an_unknown_definition_type_witness :
  decode schemas parents 5
    (String.list_byte_of_string "MSAD" ++ [x0f; x00; x00; x02]
     ++ cstr "test" ++ cstr "ActorDef" ++ empty_actor_body)
  = Some (Raise (At "property"
                   (MessageError ExplicitError "Unknown property type: ActorDef"))).
Proof.
  eapply (envelope_rejects_an_unknown_definition_type schemas
            (TypeLib.get_parent_for parents) (child_of parents 5)
            CString CString CString 5).
  - vm_compute. reflexivity.
  - vm_compute. reflexivity.
  - discriminate.
  - discriminate.
Defined.

Lemma decoded_resource_is_well_formed_witness :
  exists r,
    decode schemas parents 5 (actor_with "FOO" foo_component) = Some (Ok r)
    /\ bmsad_version r = 0x0200000F
    /\ bmsad_type r = "CActorDef".
Proof.
  eexists. split; [vm_compute; reflexivity|].
  pose proof (decoded_resource_is_well_formed schemas
                (TypeLib.get_parent_for parents) (child_of parents 5)
                CString CString CString 5
                (actor_with "FOO" foo_component) _
                ltac:(vm_compute; reflexivity)) as (_ & _ & Hv & Ht).
  split; [exact Hv | exact Ht].
Defined.

Lemma character_class_magic_is_checked_in_place_witness :
  CCharClass Z schemas (TypeLib.get_parent_for parents)
    (child_of parents 5) CString CString CString 5
    (cstr "model" ++ [x01; x00] ++ [x02; x00; x00; x00] ++ [x03; x00]
     ++ [x00; x00; x00; x00] ++ repeat x00 36
     ++ [xff; xff; xff; x7f] ++ [x2a])
  = Some (Raise (At "magic" ConstError)).
Proof.
  eapply (character_class_magic_is_checked_in_place schemas
            (TypeLib.get_parent_for parents) (child_of parents 5)
            CString CString CString 5)
    with (word := [xff; xff; xff; x7f]) (rest := [x2a]).
  - vm_compute. reflexivity.
  - vm_compute. reflexivity.
  - vm_compute. reflexivity.
  - vm_compute. reflexivity.
  - vm_compute. reflexivity.
  - reflexivity.
  - vm_compute. discriminate.
  - vm_compute. reflexivity.
Defined.

Lemma decoded_components_are_paid_for_in_bytes_witness :
  exists r,
    decode schemas parents 5 (actor_with "FOO" foo_component) = Some (Ok r)
    /\ (16 * length (components_of r) + 32
        <= length (actor_with "FOO" foo_component))%nat.
Proof.
  eexists. split; [vm_compute; reflexivity|].
  apply (decoded_components_are_paid_for_in_bytes schemas
           (TypeLib.get_parent_for parents) (child_of parents 5)
           CString CString CString 5
           CString_moves_forward CString_moves_forward CString_moves_forward).
  vm_compute. reflexivity.
Defined.

(** * Properties of the exporter *)

(** ** File names *)

Lemma strip_for_file_name_kept (s : string) :
  Forall (fun c => Tool.kept_in_file_name c = true)
         (String.list_ascii_of_string (Tool.strip_for_file_name s)).
Proof.
  induction s as [|c s IH]; simpl; [constructor|].
  destruct (Tool.kept_in_file_name c) eqn:E; [|exact IH].
  simpl. constructor; assumption.
Qed.

Lemma strip_for_file_name_fixed (s : string) :
  Tool.strip_for_file_name s = s
  <-> Forall (fun c => Tool.kept_in_file_name c = true)
             (String.list_ascii_of_string s).
Proof.
  split.
  - intros <-. apply strip_for_file_name_kept.
  - induction s as [|c s IH]; simpl; [reflexivity|].
    intros H. inversion H as [|? ? Hc Hs]; subst.
    rewrite Hc, (IH Hs). reflexivity.
Qed.

Lemma strip_for_file_name_length (s : string) :
  (String.length (Tool.strip_for_file_name s) <= String.length s)%nat.
Proof.
  induction s as [|c s IH]; simpl; [lia|].
  destruct (Tool.kept_in_file_name c); simpl; lia.
Qed.

Lemma append_json_inj (a b : string) :
  a +:+ ".json" = b +:+ ".json" -> a = b.
Proof.
  revert b. induction a as [|c a IH]; intros [|c' b]; simpl; intros H.
  - reflexivity.
  - exfalso. injection H as -> H. destruct b as [|? [|? [|? [|? [|? ?]]]]];
      discriminate.
  - exfalso. injection H as -> H. destruct a as [|? [|? [|? [|? [|? ?]]]]];
      discriminate.
  - injection H as -> H. f_equal. apply IH, H.
Qed.

(** The file a world is written to is named after the world, with every
    character other than a letter, a digit, a hyphen and a space
    dropped, and ".json" added: the stem holds only such characters, is
    not longer than the name, and stripping it again changes nothing.
    It is the file that the reader of the existing database opens,
    [name.json], exactly when the name of the world has no other
    character.  For a path outside the table, and before any level has
    been read, the look-up fails with a key error. *)
Theorem world_file_name_keeps_letters_digits_hyphens_spaces :
  (forall path name,
     dict_get Tool.world_names path = Some name ->
     let stem := Tool.strip_for_file_name name in
     Tool.current_world_file_name (Some path) = Tool.Returns (stem +:+ ".json")
     /\ Forall (fun c => Tool.kept_in_file_name c = true)
               (String.list_ascii_of_string stem)
     /\ (String.length stem <= String.length name)%nat
     /\ Tool.strip_for_file_name stem = stem
     /\ (Tool.current_world_file_name (Some path)
           = Tool.Returns (Tool.existing_db_file_name name)
         <-> Forall (fun c => Tool.kept_in_file_name c = true)
                    (String.list_ascii_of_string name)))
  /\ (forall path,
        dict_get Tool.world_names path = None ->
        Tool.current_world_file_name (Some path)
          = Tool.Raises (Tool.KeyError (Some path)))
  /\ Tool.current_world_file_name None = Tool.Raises (Tool.KeyError None).
Proof.
  split; [|split].
  - intros path name Hname stem.
    assert (Hrun : Tool.current_world_file_name (Some path)
                   = Tool.Returns (stem +:+ ".json")).
    { unfold Tool.current_world_file_name. cbn [mbind option_bind].
      rewrite Hname. reflexivity. }
    split; [exact Hrun|].
    split; [apply strip_for_file_name_kept|].
    split; [apply strip_for_file_name_length|].
    split; [apply strip_for_file_name_fixed, strip_for_file_name_kept|].
    rewrite Hrun. unfold Tool.existing_db_file_name.
    rewrite <- strip_for_file_name_fixed. fold stem. split.
    + intros [= H]. apply append_json_inj, H.
    + intros ->. reflexivity.
  - intros path Hnone. unfold Tool.current_world_file_name.
    cbn [mbind option_bind]. rewrite Hnone. reflexivity.
  - reflexivity.
Qed.

(** Over the table of worlds: no two worlds are written to the same
    file, and the worlds whose file the reader of the existing database
    does not find, because it looks for the name as it is, are the two
    whose names carry brackets. *)
Theorem written_world_files_are_distinct_and_two_are_not_read_back :
  NoDup (map (fun entry => Tool.strip_for_file_name entry.2 +:+ ".json")
             Tool.world_names)
  /\ map snd
       (filter (fun entry =>
                  Tool.current_world_file_name (Some entry.1)
                  <> Tool.Returns (Tool.existing_db_file_name entry.2))
               Tool.world_names)
     = ["Area 3 - Interior (Lower)"; "Area 3 - Interior (Upper)"].
Proof.
  split.
  - apply (bool_decide_unpack _). vm_compute. exact I.
  - vm_compute. reflexivity.
Qed.

(** ** Actors and nodes *)

Lemma py_bind_Returns {A B} (m : Tool.py_result A) (k : A -> Tool.py_result B) b :
  m ≫= k = Tool.Returns b -> exists a, m = Tool.Returns a /\ k a = Tool.Returns b.
Proof.
  destruct m as [a|e|]; simpl; try discriminate.
  intros H. exists a. auto.
Qed.

Lemma dict_get_set {A} (d : list (string * A)) k k' v :
  dict_get (Tool.dict_set d k v) k'
  = if String.eqb k' k then Some v else dict_get d k'.
Proof.
  induction d as [|[k0 v0] d IH]; simpl.
  - reflexivity.
  - destruct (String.eqb k k0) eqn:E; simpl.
    + apply String.eqb_eq in E. subst k0.
      destruct (String.eqb k' k); reflexivity.
    + destruct (String.eqb k' k0) eqn:E'.
      * apply String.eqb_eq in E'. subst k0.
        rewrite String.eqb_sym, E. reflexivity.
      * exact IH.
Qed.

Lemma dict_has_set {A} (d : list (string * A)) k k' v :
  Tool.dict_has (Tool.dict_set d k v) k'
  = (String.eqb k' k || Tool.dict_has d k').
Proof.
  unfold Tool.dict_has. rewrite dict_get_set.
  destruct (String.eqb k' k); reflexivity.
Qed.

Lemma elem_of_dict_set {A} (d : list (string * A)) k v n x :
  (n, x) ∈ Tool.dict_set d k v -> (n = k /\ x = v) \/ (n, x) ∈ d.
Proof.
  induction d as [|[k0 v0] d IH]; simpl.
  - intros H. apply list_elem_of_singleton in H. injection H as -> ->. auto.
  - destruct (String.eqb k k0) eqn:E.
    + apply String.eqb_eq in E. subst k0. intros H.
      apply elem_of_cons in H as [H|H].
      * injection H as -> ->. auto.
      * right. apply elem_of_cons. auto.
    + intros H. apply elem_of_cons in H as [H|H].
      * right. apply elem_of_cons. auto.
      * destruct (IH H) as [?|?]; [auto|]. right. apply elem_of_cons. auto.
Qed.

Lemma dict_get_elem_of_pair {A} (d : list (string * A)) k v :
  dict_get d k = Some v -> (k, v) ∈ d.
Proof.
  induction d as [|[k0 v0] d IH]; simpl; [discriminate|].
  destruct (String.eqb k k0) eqn:E.
  - apply String.eqb_eq in E. subst k0. intros [= ->]. apply elem_of_cons. auto.
  - intros H. apply elem_of_cons. right. apply IH, H.
Qed.

Lemma prefix_head a s t :
  String.prefix (String a s) t = true -> exists t', t = String a t'.
Proof.
  destruct t as [|b t]; cbn [String.prefix]; [discriminate|].
  destruct (ascii_dec a b) as [<-|_]; [eauto | discriminate].
Qed.

Lemma prefix_head_ne a b s t :
  a <> b -> String.prefix (String a s) (String b t) = false.
Proof.
  intros Hne. cbn [String.prefix].
  destruct (ascii_dec a b); [contradiction | reflexivity].
Qed.

Section ToolProperties.

Variable number : Type.
Variable num_add : number -> number -> number.
Variable num_half : number -> number.
Variable num_lt : number -> number -> bool.

Local Notation json := (Tool.json number).
Local Notation ActorDetails := (Tool.ActorDetails number).
Local Notation NodeDefinition := (Tool.NodeDefinition number).
Local Notation create_node_template := (Tool.create_node_template number).
Local Notation get_actor_name_for_node := (Tool.get_actor_name_for_node number).
Local Notation getitem := (Tool.getitem number).
Local Notation setitem := (Tool.setitem number).

(** An actor is of one kind at most: a door (its type starts with
    "door") is neither a pickup (type starting with "powerup_", "item_"
    or "itemsphere_") nor the usable platform, and a pickup is not the
    usable platform; so the order in which the exporter asks for the
    three kinds does not matter. *)
Theorem actor_kinds_exclude_one_another :
  forall (name : string) (actor : Tool.Actor number) (found_rooms : list string)
         (layer_name : string),
    let details := Tool.ActorDetails_init number name actor found_rooms layer_name in
    (Tool.is_door number details = true ->
     Tool.is_pickup number details = false
     /\ Tool.is_usable number details = false)
    /\ (Tool.is_pickup number details = true ->
        Tool.is_usable number details = false).
Proof.
  intros name actor found_rooms layer_name.
  unfold Tool.ActorDetails_init.
  cbn [Tool.is_door Tool.is_pickup Tool.is_usable existsb].
  generalize (Tool.actor_type_field number actor). intros t. split.
  - intros H. apply prefix_head in H as [t' ->].
    rewrite !prefix_head_ne by discriminate.
    split; [reflexivity|]. apply String.eqb_neq. discriminate.
  - intros H. apply String.eqb_neq. intros ->.
    rewrite !prefix_head_ne in H by discriminate. discriminate.
Qed.

(** For an actor that has no node yet in the area (no existing data, or
    none under its name), the template is always built: it is named
    with the default name, has no connections, is not a heal node, has
    an empty description, the node type asked for and the actor's
    coordinates, and is filed under the actor's own name. *)
Theorem new_node_template_is_always_built :
  forall (self : ActorDetails) (node_type default_name : string)
         (existing_data : option (list (string * NodeDefinition))),
    existing_data ≫= (fun d => dict_get d (Tool.name number self)) = None ->
    exists data,
      create_node_template self node_type default_name existing_data
        = Tool.Returns {| Tool.nd_name := default_name; Tool.nd_data := data |}
      /\ getitem data "node_type" = Tool.Returns (Tool.JStr node_type)
      /\ getitem data "heal" = Tool.Returns (Tool.JBool false)
      /\ getitem data "description" = Tool.Returns (Tool.JStr "")
      /\ getitem data "connections" = Tool.Returns (Tool.JDict [])
      /\ getitem data "coordinates"
         = Tool.Returns
             (Tool.JDict
                [ ("x", Tool.JNum (Tool.actor_x number (Tool.actor number self)));
                  ("y", Tool.JNum (Tool.actor_y number (Tool.actor number self)));
                  ("z", Tool.JNum (Tool.actor_z number (Tool.actor number self))) ])
      /\ get_actor_name_for_node data
         = Tool.Returns (Tool.JStr (Tool.name number self)).
Proof.
  intros self node_type default_name existing_data Hnew.
  unfold Tool.create_node_template. rewrite Hnew.
  destruct (String.eqb (Tool.actor_layer number self) "default");
    destruct (String.eqb node_type "dock");
    [| destruct (String.eqb node_type "pickup");
       [| destruct (String.eqb node_type "teleporter");
          [| destruct (String.eqb node_type "event")]]
     | | destruct (String.eqb node_type "pickup");
       [| destruct (String.eqb node_type "teleporter");
          [| destruct (String.eqb node_type "event")]]].
  all: eexists; split; [reflexivity|]; repeat split; reflexivity.
Qed.

Lemma dict_has_Some {A} (d : list (string * A)) k v :
  dict_get d k = Some v -> Tool.dict_has d k = true.
Proof. unfold Tool.dict_has. intros ->. reflexivity. Qed.

Lemma dict_has_None {A} (d : list (string * A)) k :
  dict_get d k = None -> Tool.dict_has d k = false.
Proof. unfold Tool.dict_has. intros ->. reflexivity. Qed.

Lemma keep_old_extra_entries_keeps (old extra : list (string * json)) k v :
  dict_get extra k = Some v ->
  dict_get (Tool.keep_old_extra_entries number old extra) k = Some v.
Proof.
  unfold Tool.keep_old_extra_entries.
  revert extra. induction old as [|[k0 v0] old IH]; intros extra H; simpl.
  - exact H.
  - apply IH. destruct (Tool.dict_has extra k0) eqn:E; [exact H|].
    rewrite dict_get_set. destruct (String.eqb k k0) eqn:Ek; [|exact H].
    apply String.eqb_eq in Ek. subst k0.
    rewrite (dict_has_Some _ _ _ H) in E. discriminate.
Qed.

Lemma keep_old_extra_entries_adds (old extra : list (string * json)) k :
  dict_get extra k = None ->
  dict_get (Tool.keep_old_extra_entries number old extra) k = dict_get old k.
Proof.
  unfold Tool.keep_old_extra_entries.
  revert extra. induction old as [|[k0 v0] old IH]; intros extra H; simpl.
  - exact H.
  - destruct (String.eqb k k0) eqn:Ek.
    + apply String.eqb_eq in Ek. subst k0.
      rewrite (dict_has_None _ _ H).
      apply (keep_old_extra_entries_keeps old). rewrite dict_get_set.
      rewrite String.eqb_refl. reflexivity.
    + apply IH. destruct (Tool.dict_has extra k0); [exact H|].
      rewrite dict_get_set, Ek. exact H.
Qed.

Lemma keep_old_extra_chars_same (old : string) (extra extra' : list (string * json)) :
  Tool.keep_old_extra_chars number old extra = Tool.Returns extra' -> extra' = extra.
Proof.
  induction old as [|c old IH]; simpl.
  - intros [= <-]. reflexivity.
  - destruct (Tool.dict_has extra (String c "")); [exact IH | discriminate].
Qed.

Lemma keep_old_extra_items_same (old : list json) (extra extra' : list (string * json)) :
  Tool.keep_old_extra_items number old extra = Tool.Returns extra' -> extra' = extra.
Proof.
  induction old as [|x old IH]; simpl.
  - intros [= <-]. reflexivity.
  - destruct x as [| | |s| |]; try discriminate.
    destruct (Tool.dict_has extra s); [exact IH | discriminate].
Qed.

Lemma keep_old_extra_keeps (old : json) (extra extra' : list (string * json)) k v :
  Tool.keep_old_extra number old extra = Tool.Returns extra' ->
  dict_get extra k = Some v -> dict_get extra' k = Some v.
Proof.
  destruct old as [| | |s|l|d]; simpl; try discriminate.
  - intros H. apply keep_old_extra_chars_same in H as ->. exact id.
  - intros H. apply keep_old_extra_items_same in H as ->. exact id.
  - intros [= <-]. apply keep_old_extra_entries_keeps.
Qed.

Ltac template_cases self node_type :=
  destruct (String.eqb (Tool.actor_layer number self) "default");
  destruct (String.eqb node_type "dock");
  [| destruct (String.eqb node_type "pickup");
     [| destruct (String.eqb node_type "teleporter");
        [| destruct (String.eqb node_type "event")]]
   | | destruct (String.eqb node_type "pickup");
     [| destruct (String.eqb node_type "teleporter");
        [| destruct (String.eqb node_type "event")]]].

Ltac py_cbn :=
  cbn [mbind Tool.py_result_bind Tool.setitem Tool.setitem2 Tool.getitem
       dict_get Tool.dict_set String.eqb Ascii.eqb Bool.eqb
       Tool.nd_data Tool.nd_name].

Ltac py_cbn_in H :=
  cbn [mbind Tool.py_result_bind Tool.setitem Tool.setitem2 Tool.getitem
       dict_get Tool.dict_set String.eqb Ascii.eqb Bool.eqb
       Tool.nd_data Tool.nd_name] in H.

Ltac py_step H :=
  let a := fresh "a" in
  let Ha := fresh "Ha" in
  apply py_bind_Returns in H as (a & Ha & H).

(** The tail of [create_node_template] for an actor with an old node
    that is kept: the old heal, description, connections and extra
    entries are carried over. *)
Ltac kept_node_tail H :=
  do 5 (py_step H); injection H as <-; split; [|reflexivity];
  unfold Tool.get_actor_name_for_node; py_cbn;
  erewrite keep_old_extra_keeps; [reflexivity | eassumption | reflexivity].

(** The tail for an old node that a generic template replaces. *)
Ltac replaced_node_tail H old :=
  destruct (Tool.nd_data number old) as [| | | | |od]; try discriminate H;
  py_cbn_in H; rewrite dict_get_set in H; py_cbn_in H;
  destruct (dict_get od "extra") as [[| | | | |oe]|]; try discriminate H;
  py_cbn_in H; injection H as <-; split; [|reflexivity];
  unfold Tool.get_actor_name_for_node, Tool.dict_update;
  cbn [fold_left fst snd]; py_cbn;
  rewrite !dict_get_set; py_cbn; rewrite ?dict_get_set; py_cbn; reflexivity.

Lemma create_node_template_Returns (self : ActorDetails)
    (node_type default_name : string)
    (existing_data : option (list (string * NodeDefinition)))
    (nd : NodeDefinition) :
  create_node_template self node_type default_name existing_data
    = Tool.Returns nd ->
  get_actor_name_for_node (Tool.nd_data number nd)
    = Tool.Returns (Tool.JStr (Tool.name number self))
  /\ Tool.nd_name number nd
     = match existing_data ≫= (fun d => dict_get d (Tool.name number self)) with
       | Some old => Tool.nd_name number old
       | None => default_name
       end.
Proof.
  unfold Tool.create_node_template.
  destruct (existing_data ≫= _) as [old|].
  2:{ template_cases self node_type; intros [= <-]; split; reflexivity. }
  destruct (String.eqb node_type "generic").
  - template_cases self node_type.
    all: py_cbn; intros H; py_step H; destruct a;
      [ replaced_node_tail H old | kept_node_tail H ].
  - template_cases self node_type.
    all: py_cbn; intros H; kept_node_tail H.
Qed.

(** Whatever the node type and whatever is already in the database, a
    template that is built is filed under the actor it was built for:
    the actor name read back from its data is the name of the actor.
    Entries carried over from an old node never replace it. *)
Theorem node_template_is_filed_under_its_actor :
  forall (self : ActorDetails) (node_type default_name : string)
         (existing_data : option (list (string * NodeDefinition)))
         (nd : NodeDefinition),
    create_node_template self node_type default_name existing_data
      = Tool.Returns nd ->
    get_actor_name_for_node (Tool.nd_data number nd)
      = Tool.Returns (Tool.JStr (Tool.name number self)).
Proof.
  intros self node_type default_name existing_data nd H.
  apply (create_node_template_Returns _ _ _ _ _ H).
Qed.

(** When the actor has a node in the database and the template is not
    a generic one, or the node is generic as well, the node keeps its
    name and what was edited on it:
    its heal flag, description and connections are those of the old
    node, and so is every extra entry except the actor name, the actor
    type and, when set, the layer, which are those of the actor as it
    is now.  An old node without a heal entry makes the call fail with
    a key error. *)
Theorem kept_node_carries_over_what_was_edited :
  forall (self : ActorDetails) (node_type default_name : string)
         (existing_data : option (list (string * NodeDefinition)))
         (old : NodeDefinition) (od : list (string * json)),
    (node_type = "generic" ->
     dict_get od "node_type" = Some (Tool.JStr "generic")) ->
    existing_data ≫= (fun d => dict_get d (Tool.name number self)) = Some old ->
    Tool.nd_data number old = Tool.JDict od ->
    (forall heal description connections oe,
       dict_get od "heal" = Some heal ->
       dict_get od "description" = Some description ->
       dict_get od "connections" = Some connections ->
       dict_get od "extra" = Some (Tool.JDict oe) ->
       exists data extra,
         create_node_template self node_type default_name existing_data
           = Tool.Returns {| Tool.nd_name := Tool.nd_name number old;
                             Tool.nd_data := data |}
         /\ getitem data "node_type" = Tool.Returns (Tool.JStr node_type)
         /\ getitem data "heal" = Tool.Returns heal
         /\ getitem data "description" = Tool.Returns description
         /\ getitem data "connections" = Tool.Returns connections
         /\ getitem data "extra" = Tool.Returns (Tool.JDict extra)
         /\ dict_get extra "actor_name"
            = Some (Tool.JStr (Tool.name number self))
         /\ dict_get extra "actor_type"
            = Some (Tool.JStr (Tool.actor_type_field number
                                 (Tool.actor number self)))
         /\ (forall k, k <> "actor_name" -> k <> "actor_type" ->
                       k <> "actor_layer" ->
                       dict_get extra k = dict_get oe k))
    /\ (dict_get od "heal" = None ->
        create_node_template self node_type default_name existing_data
          = Tool.Raises (Tool.KeyError (Some "heal"))).
Proof.
  intros self node_type default_name existing_data old od Hgen Hold Hod.
  assert (Hkeeps :
            (if String.eqb node_type "generic"
             then old_type ← getitem (Tool.JDict od) "node_type";
                  Tool.Returns (match old_type with
                                | Tool.JStr t => negb (String.eqb t "generic")
                                | _ => true
                                end)
             else Tool.Returns false) = Tool.Returns false).
  { destruct (String.eqb node_type "generic") eqn:E; [|reflexivity].
    apply String.eqb_eq in E. cbn [Tool.getitem]. rewrite (Hgen E).
    reflexivity. }
  split.
  - intros heal description connections oe Hh Hd Hc He.
    unfold Tool.create_node_template. rewrite Hold, Hod, Hkeeps.
    template_cases self node_type.
    all: py_cbn; rewrite Hh, Hd, Hc, He; py_cbn; cbn [Tool.keep_old_extra];
      py_cbn.
    all: eexists; eexists; split; [reflexivity|]; py_cbn.
    all: do 5 (split; [reflexivity|]).
    all: split; [apply keep_old_extra_entries_keeps; reflexivity|].
    all: split; [apply keep_old_extra_entries_keeps; reflexivity|].
    all: intros k Hk1 Hk2 Hk3; apply keep_old_extra_entries_adds.
    all: apply String.eqb_neq in Hk1, Hk2, Hk3.
    all: cbn [dict_get]; rewrite ?Hk1, ?Hk2, ?Hk3; reflexivity.
  - intros Hh.
    unfold Tool.create_node_template. rewrite Hold, Hod, Hkeeps.
    template_cases self node_type.
    all: py_cbn; rewrite Hh; reflexivity.
Qed.


Local Notation _find_room_orientation :=
  (Tool._find_room_orientation number num_add num_half num_lt).
Local Notation add_node := (Tool.add_node number).

(** Which of two rooms is the left one is decided by the centres of
    their bounds alone.  When the comparison of numbers is asymmetric,
    an answer is one of (0, 1) and (1, 0), asking with the rooms
    exchanged gives the exchanged answer, and a room is never found to
    be at a side of itself. *)
Theorem room_orientation_swaps_with_its_arguments :
  (forall a b, num_lt a b = true -> num_lt b a = false) ->
  forall (world : json) (room_a room_b : string),
    (forall left right,
       _find_room_orientation world room_a room_b = Tool.Returns (left, right) ->
       ((left, right) = (0, 1)%nat \/ (left, right) = (1, 0)%nat)
       /\ _find_room_orientation world room_b room_a
          = Tool.Returns (right, left))
    /\ (forall sides,
          _find_room_orientation world room_a room_a <> Tool.Returns sides).
Proof.
  intros Hasym world room_a room_b.
  assert (Hswap : forall ra rb left right,
             _find_room_orientation world ra rb = Tool.Returns (left, right) ->
             ((left, right) = (0, 1)%nat \/ (left, right) = (1, 0)%nat)
             /\ _find_room_orientation world rb ra
                = Tool.Returns (right, left)).
  { intros ra rb left right H. unfold Tool._find_room_orientation in *.
    apply py_bind_Returns in H as (a_bounds & Ha & H).
    apply py_bind_Returns in H as (b_bounds & Hb & H).
    apply py_bind_Returns in H as (a_cx & Hac & H).
    apply py_bind_Returns in H as (b_cx & Hbc & H).
    rewrite Hb, Ha. cbn [mbind Tool.py_result_bind].
    rewrite Hbc, Hac. cbn [mbind Tool.py_result_bind].
    destruct (num_lt a_cx b_cx) eqn:Hlt.
    - injection H as <- <-. rewrite (Hasym _ _ Hlt). auto.
    - destruct (num_lt b_cx a_cx) eqn:Hgt; [|discriminate H].
      injection H as <- <-. auto. }
  split; [apply Hswap|].
  intros [left right] H. destruct (Hswap _ _ _ _ H) as [[Hs|Hs] Hr];
    injection Hs as -> ->; rewrite H in Hr; discriminate Hr.
Qed.

Lemma py_eq_false_ne (a b : json) :
  Tool.py_eq number a b = Tool.Returns false -> a <> b.
Proof.
  intros H ->. destruct b as [| | |s| |]; try discriminate H.
  simpl in H. rewrite String.eqb_refl in H. discriminate H.
Qed.

Lemma check_no_conflict_Returns (nodes : list (string * json))
    (node_def : NodeDefinition) (new_actor : json) (target_area : string) :
  Tool.check_no_conflict number nodes node_def new_actor target_area
    = Tool.Returns tt ->
  forall n node,
    (n, node) ∈ nodes -> n <> Tool.nd_name number node_def ->
    exists existing_actor,
      get_actor_name_for_node node = Tool.Returns existing_actor
      /\ existing_actor <> new_actor.
Proof.
  induction nodes as [|[n0 node0] nodes IH]; intros H n node Hin Hne.
  - apply elem_of_nil in Hin as [].
  - cbn [Tool.check_no_conflict] in H.
    destruct (String.eqb n0 (Tool.nd_name number node_def)) eqn:E.
    + apply String.eqb_eq in E. apply elem_of_cons in Hin as [Hin|Hin].
      * injection Hin as -> ->. contradiction.
      * apply (IH H _ _ Hin Hne).
    + apply py_bind_Returns in H as (existing & Hex & H).
      apply py_bind_Returns in H as (same & Hsame & H).
      destruct same.
      { destruct new_actor; discriminate H. }
      apply elem_of_cons in Hin as [Hin|Hin].
      * injection Hin as -> ->. exists existing. split; [exact Hex|].
        apply py_eq_false_ne, Hsame.
      * apply (IH H _ _ Hin Hne).
Qed.

(** When a node is added to an area, the world that comes back holds
    the node's data under the node's name in that area, and no node of
    the area under another name belongs to the same actor.  The other
    areas and the other entries of the world are as they were. *)
Theorem added_node_is_the_only_one_of_its_actor :
  forall (world world' : json) (target_area : string)
         (node_def : NodeDefinition),
    add_node world target_area node_def = Tool.Returns world' ->
    exists areas' area' nodes' new_actor,
      getitem world' "areas" = Tool.Returns (Tool.JDict areas')
      /\ dict_get areas' target_area = Some (Tool.JDict area')
      /\ dict_get area' "nodes" = Some (Tool.JDict nodes')
      /\ dict_get nodes' (Tool.nd_name number node_def)
         = Some (Tool.nd_data number node_def)
      /\ get_actor_name_for_node (Tool.nd_data number node_def)
         = Tool.Returns new_actor
      /\ (forall n node,
            (n, node) ∈ nodes' -> n <> Tool.nd_name number node_def ->
            exists existing_actor,
              get_actor_name_for_node node = Tool.Returns existing_actor
              /\ existing_actor <> new_actor)
      /\ (forall other,
            other <> target_area ->
            getitem world' "areas" ≫= (fun areas => getitem areas other)
            = getitem world "areas" ≫= (fun areas => getitem areas other))
      /\ (forall key,
            key <> "areas" -> getitem world' key = getitem world key).
Proof.
  intros world world' target_area node_def H. unfold Tool.add_node in H.
  apply py_bind_Returns in H as (new_actor & Hnew & H).
  apply py_bind_Returns in H as (areas & Hareas & H).
  apply py_bind_Returns in H as (area & Harea & H).
  apply py_bind_Returns in H as (nodes & Hnodes & H).
  apply py_bind_Returns in H as (entries & Hentries & H).
  apply py_bind_Returns in H as ([] & Hcheck & H).
  destruct nodes as [| | | | |nd]; try discriminate Hentries.
  injection Hentries as <-.
  destruct area as [| | | | |ad]; try discriminate Hnodes.
  destruct areas as [| | | | |as_]; try discriminate Harea.
  destruct world as [| | | | |wd]; try discriminate Hareas.
  cbn [mbind Tool.py_result_bind Tool.setitem] in H. injection H as <-.
  eexists _, _, _, new_actor.
  split; [cbn [Tool.getitem]; rewrite dict_get_set; reflexivity|].
  split; [rewrite dict_get_set, String.eqb_refl; reflexivity|].
  split; [rewrite dict_get_set; reflexivity|].
  split; [rewrite dict_get_set, String.eqb_refl; reflexivity|].
  split; [exact Hnew|].
  split.
  - intros n node Hin Hne.
    apply elem_of_dict_set in Hin as [[-> _]|Hin]; [contradiction|].
    apply (check_no_conflict_Returns _ _ _ _ Hcheck _ _ Hin Hne).
  - split.
    + intros other Hother. rewrite Hareas.
      cbn [mbind Tool.py_result_bind Tool.getitem].
      rewrite dict_get_set. cbn [String.eqb Ascii.eqb Bool.eqb].
      cbn [mbind Tool.py_result_bind Tool.getitem].
      rewrite dict_get_set. apply String.eqb_neq in Hother. rewrite Hother.
      reflexivity.
    + intros key Hkey. cbn [Tool.getitem]. rewrite dict_get_set.
      apply String.eqb_neq in Hkey. rewrite Hkey. reflexivity.
Qed.

(** A node is refused when the area has a node under another name that
    belongs to the same actor: in an area whose nodes all carry an actor
    name that is a string, adding it raises a value error. *)
Theorem second_node_of_an_actor_is_refused :
  forall (world areas area : json) (nodes : list (string * json))
         (target_area : string) (node_def : NodeDefinition)
         (actor_name n : string) (node : json),
    get_actor_name_for_node (Tool.nd_data number node_def)
      = Tool.Returns (Tool.JStr actor_name) ->
    getitem world "areas" = Tool.Returns areas ->
    getitem areas target_area = Tool.Returns area ->
    getitem area "nodes" = Tool.Returns (Tool.JDict nodes) ->
    (forall n' node', (n', node') ∈ nodes ->
       exists s, get_actor_name_for_node node' = Tool.Returns (Tool.JStr s)) ->
    (n, node) ∈ nodes ->
    n <> Tool.nd_name number node_def ->
    get_actor_name_for_node node = Tool.Returns (Tool.JStr actor_name) ->
    exists message,
      add_node world target_area node_def
        = Tool.Raises (Tool.ValueError message).
Proof.
  intros world areas area nodes target_area node_def actor_name n node
         Hnew Hareas Harea Hnodes Hall Hin Hne Hsame.
  unfold Tool.add_node. rewrite Hnew. cbn [mbind Tool.py_result_bind].
  rewrite Hareas. cbn [mbind Tool.py_result_bind].
  rewrite Harea. cbn [mbind Tool.py_result_bind].
  rewrite Hnodes. cbn [mbind Tool.py_result_bind Tool.items].
  assert (Hcheck : exists message,
             Tool.check_no_conflict number nodes node_def
               (Tool.JStr actor_name) target_area
             = Tool.Raises (Tool.ValueError message)).
  { clear Hnodes. induction nodes as [|[n0 node0] nodes IH].
    - apply elem_of_nil in Hin as [].
    - cbn [Tool.check_no_conflict].
      destruct (String.eqb n0 (Tool.nd_name number node_def)) eqn:E.
      + apply String.eqb_eq in E. apply elem_of_cons in Hin as [Hin|Hin].
        * injection Hin as -> ->. contradiction.
        * apply IH; [|exact Hin].
          intros n' node' Hin'. apply (Hall n' node').
          apply elem_of_cons. auto.
      + destruct (Hall n0 node0) as [s Hs]; [apply elem_of_cons; auto|].
        rewrite Hs. cbn [mbind Tool.py_result_bind Tool.py_eq].
        destruct (String.eqb s actor_name) eqn:Es; [eauto|].
        apply elem_of_cons in Hin as [Hin|Hin].
        * injection Hin as -> ->. rewrite Hs in Hsame.
          injection Hsame as ->. rewrite String.eqb_refl in Es. discriminate.
        * apply IH; [|exact Hin].
          intros n' node' Hin'. apply (Hall n' node').
          apply elem_of_cons. auto. }
  destruct Hcheck as [message ->]. eauto.
Qed.

Local Notation _get_existing_node_data := (Tool._get_existing_node_data number).
Local Notation create_door_nodes_for_actor :=
  (Tool.create_door_nodes_for_actor number num_add num_half num_lt).

Lemma as_key_Returns (v : json) (s : string) :
  Tool.as_key number v = Tool.Returns s -> v = Tool.JStr s.
Proof. destruct v; simpl; intros H; try discriminate H. injection H as ->. reflexivity. Qed.

Lemma index_nodes_sound (all nodes : list (string * json))
    (acc r : list (string * NodeDefinition)) :
  Tool.index_nodes number nodes acc = Tool.Returns r ->
  (forall x, x ∈ nodes -> x ∈ all) ->
  (forall actor nd,
     dict_get acc actor = Some nd ->
     get_actor_name_for_node (Tool.nd_data number nd)
       = Tool.Returns (Tool.JStr actor)
     /\ (Tool.nd_name number nd, Tool.nd_data number nd) ∈ all) ->
  forall actor nd,
    dict_get r actor = Some nd ->
    get_actor_name_for_node (Tool.nd_data number nd)
      = Tool.Returns (Tool.JStr actor)
    /\ (Tool.nd_name number nd, Tool.nd_data number nd) ∈ all.
Proof.
  revert acc. induction nodes as [|[n node] nodes IH]; intros acc H Hsub Hacc.
  - injection H as <-. exact Hacc.
  - cbn [Tool.index_nodes] in H.
    apply py_bind_Returns in H as (actor_name & Hactor & H).
    apply py_bind_Returns in H as (key & Hkey & H).
    apply as_key_Returns in Hkey. subst actor_name.
    apply (IH _ H).
    + intros x Hx. apply Hsub, elem_of_cons. auto.
    + intros actor nd Hget. rewrite dict_get_set in Hget.
      destruct (String.eqb actor key) eqn:E; [|apply Hacc, Hget].
      apply String.eqb_eq in E. subst key. injection Hget as <-.
      split; [exact Hactor|]. apply Hsub, elem_of_cons. auto.
Qed.

Lemma index_areas_sound (all areas : list (string * json))
    (idx r : list (string * list (string * NodeDefinition)))
    (names names' : list (string * string)) :
  Tool.index_areas number areas idx names = Tool.Returns (r, names') ->
  (forall x, x ∈ areas -> x ∈ all) ->
  (forall area by_actor,
     dict_get idx area = Some by_actor ->
     exists area_data extra nodes,
       (area, area_data) ∈ all
       /\ getitem area_data "extra" = Tool.Returns extra
       /\ Tool.contains number "asset_id" extra = Tool.Returns true
       /\ getitem area_data "nodes" = Tool.Returns (Tool.JDict nodes)
       /\ forall actor nd,
            dict_get by_actor actor = Some nd ->
            get_actor_name_for_node (Tool.nd_data number nd)
              = Tool.Returns (Tool.JStr actor)
            /\ (Tool.nd_name number nd, Tool.nd_data number nd) ∈ nodes) ->
  forall area by_actor,
    dict_get r area = Some by_actor ->
    exists area_data extra nodes,
      (area, area_data) ∈ all
      /\ getitem area_data "extra" = Tool.Returns extra
      /\ Tool.contains number "asset_id" extra = Tool.Returns true
      /\ getitem area_data "nodes" = Tool.Returns (Tool.JDict nodes)
      /\ forall actor nd,
           dict_get by_actor actor = Some nd ->
           get_actor_name_for_node (Tool.nd_data number nd)
             = Tool.Returns (Tool.JStr actor)
           /\ (Tool.nd_name number nd, Tool.nd_data number nd) ∈ nodes.
Proof.
  revert idx names.
  induction areas as [|[area_name area_data] areas IH];
    intros idx names H Hsub Hidx.
  - injection H as <- <-. exact Hidx.
  - cbn [Tool.index_areas] in H.
    apply py_bind_Returns in H as (extra & Hextra & H).
    apply py_bind_Returns in H as (has_id & Hhas & H).
    assert (Hsub' : forall x, x ∈ areas -> x ∈ all).
    { intros x Hx. apply Hsub, elem_of_cons. auto. }
    destruct has_id; [|apply (IH _ _ H Hsub' Hidx)].
    apply py_bind_Returns in H as (asset_id & Hid & H).
    apply py_bind_Returns in H as (key & Hkey & H).
    apply py_bind_Returns in H as (nodes & Hnodes & H).
    apply py_bind_Returns in H as (entries & Hentries & H).
    apply py_bind_Returns in H as (indexed & Hindexed & H).
    destruct nodes as [| | | | |nd]; try discriminate Hentries.
    injection Hentries as <-.
    apply (IH _ _ H Hsub').
    intros area by_actor Hget. rewrite dict_get_set in Hget.
    destruct (String.eqb area area_name) eqn:E; [|apply Hidx, Hget].
    apply String.eqb_eq in E. subst area_name. injection Hget as <-.
    exists area_data, extra, nd.
    split; [apply Hsub, elem_of_cons; auto|].
    split; [exact Hextra|]. split; [exact Hhas|]. split; [exact Hnodes|].
    apply (index_nodes_sound nd nd [] indexed Hindexed); [auto|].
    intros actor nd0 Hnone. discriminate Hnone.
Qed.

(** What the index of the existing nodes holds is in the database: a
    node found for an actor under an area is a node of that area of the
    world, under the name it has there, the area has an asset id, and
    the actor name in the node's data is the actor it is found under. *)
Theorem existing_node_index_is_sound :
  forall (world : json) (area_names names : list (string * string))
         (index : list (string * list (string * NodeDefinition)))
         (area actor : string) (by_actor : list (string * NodeDefinition))
         (nd : NodeDefinition),
    _get_existing_node_data world area_names = Tool.Returns (index, names) ->
    dict_get index area = Some by_actor ->
    dict_get by_actor actor = Some nd ->
    exists areas area_data extra nodes,
      getitem world "areas" = Tool.Returns (Tool.JDict areas)
      /\ (area, area_data) ∈ areas
      /\ getitem area_data "extra" = Tool.Returns extra
      /\ Tool.contains number "asset_id" extra = Tool.Returns true
      /\ getitem area_data "nodes" = Tool.Returns (Tool.JDict nodes)
      /\ (Tool.nd_name number nd, Tool.nd_data number nd) ∈ nodes
      /\ get_actor_name_for_node (Tool.nd_data number nd)
         = Tool.Returns (Tool.JStr actor).
Proof.
  intros world area_names names index area actor by_actor nd H Harea Hactor.
  unfold Tool._get_existing_node_data in H.
  apply py_bind_Returns in H as (areas & Hareas & H).
  apply py_bind_Returns in H as (entries & Hentries & H).
  destruct areas as [| | | | |ad]; try discriminate Hentries.
  injection Hentries as <-.
  destruct (index_areas_sound ad ad [] index area_names names H) with
    (area := area) (by_actor := by_actor)
    as (area_data & extra & nodes & Hin & Hextra & Hhas & Hnodes & Hall);
    [auto | intros ? ? Hnone; discriminate Hnone | exact Harea |].
  destruct (Hall _ _ Hactor) as [Hfiled Hnode].
  exists ad, area_data, extra, nodes. auto 10.
Qed.

Lemma find_room_orientation_sides (world : json) (room_a room_b : string)
    (left right : nat) :
  _find_room_orientation world room_a room_b = Tool.Returns (left, right) ->
  (left = 0 /\ right = 1)%nat \/ (left = 1 /\ right = 0)%nat.
Proof.
  unfold Tool._find_room_orientation. intros H.
  apply py_bind_Returns in H as (a_bounds & Ha & H).
  apply py_bind_Returns in H as (b_bounds & Hb & H).
  apply py_bind_Returns in H as (a_cx & Hac & H).
  apply py_bind_Returns in H as (b_cx & Hbc & H).
  destruct (num_lt a_cx b_cx); [injection H as <- <-; auto|].
  destruct (num_lt b_cx a_cx); [injection H as <- <-; auto | discriminate H].
Qed.

Lemma dock_template_shape (self : ActorDetails) (default_name : string)
    (existing_data : option (list (string * NodeDefinition)))
    (nd : NodeDefinition) :
  create_node_template self "dock" default_name existing_data
    = Tool.Returns nd ->
  exists d e,
    Tool.nd_data number nd = Tool.JDict d
    /\ dict_get d "node_type" = Some (Tool.JStr "dock")
    /\ dict_get d "destination"
       = Some (Tool.JDict [ ("world_name", Tool.JNull);
                            ("area_name", Tool.JNull);
                            ("node_name", Tool.JNull) ])
    /\ dict_get d "dock_type" = Some (Tool.JStr "other")
    /\ dict_get d "dock_weakness" = Some (Tool.JStr "Not Determined")
    /\ dict_get d "extra" = Some (Tool.JDict e)
    /\ dict_get e "actor_name" = Some (Tool.JStr (Tool.name number self)).
Proof.
  unfold Tool.create_node_template.
  destruct (existing_data ≫= _) as [old|];
    destruct (String.eqb (Tool.actor_layer number self) "default").
  3,4: intros [= <-]; eexists _, _; repeat split; reflexivity.
  all: py_cbn; intros H; do 5 (py_step H); injection H as <-.
  all: eexists _, _; do 6 (split; [reflexivity|]).
  all: eapply keep_old_extra_keeps; [eassumption | reflexivity].
Qed.

Lemma link_door_Returns (details : ActorDetails) (world : json)
    (doors : list NodeDefinition) (custom_weakness : list (option string))
    (i : nat) (definition : NodeDefinition) (d e : list (string * json))
    (world_name : json) (room : string) (other : NodeDefinition)
    (w : option string) :
  Tool.nd_data number definition = Tool.JDict d ->
  dict_get d "destination"
    = Some (Tool.JDict [ ("world_name", Tool.JNull);
                         ("area_name", Tool.JNull);
                         ("node_name", Tool.JNull) ]) ->
  dict_get d "extra" = Some (Tool.JDict e) ->
  getitem world "name" = Tool.Returns world_name ->
  Tool.rooms number details !! ((i + 1) mod 2)%nat = Some room ->
  doors !! ((i + 1) mod 2)%nat = Some other ->
  custom_weakness !! i = Some w ->
  exists d',
    Tool.link_door number details world doors custom_weakness i definition
      = Tool.Returns {| Tool.nd_name := Tool.nd_name number definition;
                        Tool.nd_data := Tool.JDict d' |}
    /\ dict_get d' "destination"
       = Some (Tool.JDict
                 [ ("world_name", world_name);
                   ("area_name", Tool.JStr room);
                   ("node_name", Tool.JStr (Tool.nd_name number other)) ])
    /\ (forall k, k <> "destination" -> k <> "dock_type" ->
                  k <> "dock_weakness" -> dict_get d' k = dict_get d k)
    /\ match w with
       | Some text =>
           dict_get d' "dock_type" = Some (Tool.JStr "door")
           /\ dict_get d' "dock_weakness" = Some (Tool.JStr text)
       | None =>
           dict_get d' "dock_type" = dict_get d "dock_type"
           /\ dict_get d' "dock_weakness" = dict_get d "dock_weakness"
       end.
Proof.
  intros Hd Hdest Hextra Hname Hroom Hother Hw.
  unfold Tool.link_door. rewrite Hd. py_cbn. rewrite Hextra. py_cbn.
  rewrite Hname. py_cbn. rewrite Hdest. py_cbn.
  rewrite Hroom. py_cbn. rewrite dict_get_set. py_cbn.
  rewrite Hother. py_cbn. rewrite dict_get_set. py_cbn.
  rewrite Hw. py_cbn.
  destruct w as [text|]; py_cbn.
  all: eexists; split; [reflexivity|].
  all: split; [rewrite !dict_get_set; reflexivity|].
  all: split;
    [intros k Hk1 Hk2 Hk3; apply String.eqb_neq in Hk1, Hk2, Hk3;
     rewrite !dict_get_set, ?Hk1, ?Hk2, ?Hk3; reflexivity|].
  all: split; rewrite !dict_get_set; reflexivity.
Qed.

Lemma create_door_nodes_inv (details : ActorDetails)
    (node_data_for_area : list (string * list (string * NodeDefinition)))
    (world : json) (doors : list NodeDefinition) (printed : list string) :
  create_door_nodes_for_actor details node_data_for_area world
    = Tool.Returns (doors, printed) ->
  exists room_a room_b left right template_a template_b d_a d_b e_a e_b
         world_name w_a w_b,
    Tool.rooms number details = [room_a; room_b]
    /\ _find_room_orientation world room_a room_b = Tool.Returns (left, right)
    /\ create_node_template details "dock"
         ("Door (" +:+ Tool.name number details +:+ ")")
         (dict_get node_data_for_area room_a) = Tool.Returns template_a
    /\ create_node_template details "dock"
         ("Door (" +:+ Tool.name number details +:+ ")")
         (dict_get node_data_for_area room_b) = Tool.Returns template_b
    /\ getitem world "name" = Tool.Returns world_name
    /\ doors = [ {| Tool.nd_name := Tool.nd_name number template_a;
                    Tool.nd_data := Tool.JDict d_a |};
                 {| Tool.nd_name := Tool.nd_name number template_b;
                    Tool.nd_data := Tool.JDict d_b |} ]
    /\ dict_get d_a "destination"
       = Some (Tool.JDict
                 [ ("world_name", world_name);
                   ("area_name", Tool.JStr room_b);
                   ("node_name", Tool.JStr (Tool.nd_name number template_b)) ])
    /\ dict_get d_b "destination"
       = Some (Tool.JDict
                 [ ("world_name", world_name);
                   ("area_name", Tool.JStr room_a);
                   ("node_name", Tool.JStr (Tool.nd_name number template_a)) ])
    /\ dict_get d_a "node_type" = Some (Tool.JStr "dock")
    /\ dict_get d_b "node_type" = Some (Tool.JStr "dock")
    /\ dict_get d_a "extra" = Some (Tool.JDict e_a)
    /\ dict_get d_b "extra" = Some (Tool.JDict e_b)
    /\ dict_get e_a "actor_name" = Some (Tool.JStr (Tool.name number details))
    /\ dict_get e_b "actor_name" = Some (Tool.JStr (Tool.name number details))
    /\ match dict_get Tool._weakness_table_for_def
               (Tool.actor_type number details) with
       | Some (left_weakness, right_weakness) =>
           printed = []
           /\ [w_a; w_b] = <[right := Some right_weakness]>
                             (<[left := Some left_weakness]> [None; None])
       | None =>
           printed = ["no weakness for " +:+ Tool.actor_type number details
                      +:+ " without shields"]
           /\ w_a = None /\ w_b = None
       end
    /\ match w_a with
       | Some text =>
           dict_get d_a "dock_type" = Some (Tool.JStr "door")
           /\ dict_get d_a "dock_weakness" = Some (Tool.JStr text)
       | None =>
           dict_get d_a "dock_type" = Some (Tool.JStr "other")
           /\ dict_get d_a "dock_weakness" = Some (Tool.JStr "Not Determined")
       end
    /\ match w_b with
       | Some text =>
           dict_get d_b "dock_type" = Some (Tool.JStr "door")
           /\ dict_get d_b "dock_weakness" = Some (Tool.JStr text)
       | None =>
           dict_get d_b "dock_type" = Some (Tool.JStr "other")
           /\ dict_get d_b "dock_weakness" = Some (Tool.JStr "Not Determined")
       end.
Proof.
  intros H. unfold Tool.create_door_nodes_for_actor in H.
  destruct (Tool.rooms number details) as [|room_a [|room_b [|? ?]]] eqn:Hrooms;
    try discriminate H.
  apply py_bind_Returns in H as ([left right] & Hside & H).
  set (cwp := match dict_get Tool._weakness_table_for_def
                      (Tool.actor_type number details) with
              | Some (left_weakness, right_weakness) =>
                  (<[right := Some right_weakness]>
                     (<[left := Some left_weakness]> [None; None]), [])
              | None =>
                  ([None; None],
                   ["no weakness for " +:+ Tool.actor_type number details
                    +:+ " without shields"])
              end) in H.
  assert (Hcwp : exists w_a w_b pr,
             cwp = ([w_a; w_b], pr)
             /\ match dict_get Tool._weakness_table_for_def
                        (Tool.actor_type number details) with
                | Some (left_weakness, right_weakness) =>
                    pr = []
                    /\ [w_a; w_b] = <[right := Some right_weakness]>
                                      (<[left := Some left_weakness]> [None; None])
                | None =>
                    pr = ["no weakness for " +:+ Tool.actor_type number details
                          +:+ " without shields"]
                    /\ w_a = None /\ w_b = None
                end).
  { subst cwp.
    destruct (dict_get Tool._weakness_table_for_def
                (Tool.actor_type number details)) as [[lw rw]|].
    - destruct (find_room_orientation_sides _ _ _ _ _ Hside) as [[-> ->]|[-> ->]];
        eexists _, _, _; split; reflexivity || (split; reflexivity).
    - eexists _, _, _; split; [reflexivity|]. auto. }
  destruct Hcwp as (w_a & w_b & pr & -> & Hweak).
  apply py_bind_Returns in H as (templates & Htemplates & H).
  cbn [Tool.door_templates] in Htemplates.
  apply py_bind_Returns in Htemplates as (template_a & Hta & Htemplates).
  apply py_bind_Returns in Htemplates as (rest & Hrest & Htemplates).
  apply py_bind_Returns in Hrest as (template_b & Htb & Hrest).
  cbn [mbind Tool.py_result_bind] in Hrest. injection Hrest as <-.
  injection Htemplates as <-.
  apply py_bind_Returns in H as (linked & Hlinked & H).
  injection H as <- <-.
  destruct (dock_template_shape _ _ _ _ Hta)
    as (da & ea & Hda & Htype_a & Hdest_a & Hdt_a & Hdw_a & Hextra_a & Hname_a).
  destruct (dock_template_shape _ _ _ _ Htb)
    as (db & eb & Hdb & Htype_b & Hdest_b & Hdt_b & Hdw_b & Hextra_b & Hname_b).
  cbn [Tool.link_doors] in Hlinked.
  destruct (getitem world "name") as [world_name| |] eqn:Hworld.
  2,3: exfalso; unfold Tool.link_door in Hlinked; rewrite Hda in Hlinked;
    py_cbn_in Hlinked; rewrite Hextra_a in Hlinked; py_cbn_in Hlinked;
    rewrite Hworld in Hlinked; discriminate Hlinked.
  destruct (link_door_Returns details world [template_a; template_b]
              [w_a; w_b] 0 template_a da ea world_name room_b template_b w_a
              Hda Hdest_a Hextra_a Hworld)
    as (d_a & Hlink_a & Hto_a & Hsame_a & Hw_a);
    [rewrite Hrooms; reflexivity | reflexivity | reflexivity |].
  destruct (link_door_Returns details world [template_a; template_b]
              [w_a; w_b] 1 template_b db eb world_name room_a template_a w_b
              Hdb Hdest_b Hextra_b Hworld)
    as (d_b & Hlink_b & Hto_b & Hsame_b & Hw_b);
    [rewrite Hrooms; reflexivity | reflexivity | reflexivity |].
  rewrite Hlink_a, Hlink_b in Hlinked.
  cbn [mbind Tool.py_result_bind] in Hlinked. injection Hlinked as <-.
  exists room_a, room_b, left, right, template_a, template_b, d_a, d_b, ea, eb,
         world_name, w_a, w_b.
  split; [reflexivity|]. split; [exact Hside|]. split; [exact Hta|].
  split; [exact Htb|]. split; [reflexivity|]. split; [reflexivity|].
  split; [exact Hto_a|]. split; [exact Hto_b|].
  split; [rewrite Hsame_a by discriminate; exact Htype_a|].
  split; [rewrite Hsame_b by discriminate; exact Htype_b|].
  split; [rewrite Hsame_a by discriminate; exact Hextra_a|].
  split; [rewrite Hsame_b by discriminate; exact Hextra_b|].
  split; [exact Hname_a|]. split; [exact Hname_b|].
  split; [exact Hweak|].
  split.
  - destruct w_a; [exact Hw_a|]. destruct Hw_a as [-> ->]. auto.
  - destruct w_b; [exact Hw_b|]. destruct Hw_b as [-> ->]. auto.
Qed.

(** The nodes made for a door are two, one for each of the two rooms of
    the actor and in their order, and they lead to each other: the
    destination of each is the world by its name, the other room as
    area, and the name of the other node.  Both are docks filed under
    the actor, and each is named as its template is: as the node the
    actor has in that room already, or else "Door (actor)". *)
Theorem door_nodes_lead_to_each_other :
  forall (details : ActorDetails)
         (node_data_for_area : list (string * list (string * NodeDefinition)))
         (world : json) (doors : list NodeDefinition) (printed : list string),
    create_door_nodes_for_actor details node_data_for_area world
      = Tool.Returns (doors, printed) ->
    exists room_a room_b door_a door_b world_name,
      Tool.rooms number details = [room_a; room_b]
      /\ doors = [door_a; door_b]
      /\ getitem world "name" = Tool.Returns world_name
      /\ getitem (Tool.nd_data number door_a) "destination"
         = Tool.Returns
             (Tool.JDict
                [ ("world_name", world_name);
                  ("area_name", Tool.JStr room_b);
                  ("node_name", Tool.JStr (Tool.nd_name number door_b)) ])
      /\ getitem (Tool.nd_data number door_b) "destination"
         = Tool.Returns
             (Tool.JDict
                [ ("world_name", world_name);
                  ("area_name", Tool.JStr room_a);
                  ("node_name", Tool.JStr (Tool.nd_name number door_a)) ])
      /\ Forall (fun door =>
                   getitem (Tool.nd_data number door) "node_type"
                     = Tool.Returns (Tool.JStr "dock")
                   /\ get_actor_name_for_node (Tool.nd_data number door)
                      = Tool.Returns (Tool.JStr (Tool.name number details)))
                doors
      /\ (exists template,
            create_node_template details "dock"
              ("Door (" +:+ Tool.name number details +:+ ")")
              (dict_get node_data_for_area room_a) = Tool.Returns template
            /\ Tool.nd_name number door_a = Tool.nd_name number template)
      /\ (exists template,
            create_node_template details "dock"
              ("Door (" +:+ Tool.name number details +:+ ")")
              (dict_get node_data_for_area room_b) = Tool.Returns template
            /\ Tool.nd_name number door_b = Tool.nd_name number template).
Proof.
  intros details node_data_for_area world doors printed H.
  destruct (create_door_nodes_inv _ _ _ _ _ H)
    as (room_a & room_b & left & right & template_a & template_b & d_a & d_b
        & e_a & e_b & world_name & w_a & w_b & Hrooms & Hside & Hta & Htb
        & Hworld & -> & Hto_a & Hto_b & Htype_a & Htype_b & Hextra_a
        & Hextra_b & Hname_a & Hname_b & _).
  eexists room_a, room_b, _, _, world_name.
  split; [exact Hrooms|]. split; [reflexivity|]. split; [exact Hworld|].
  cbn [Tool.nd_data Tool.nd_name Tool.getitem].
  split; [rewrite Hto_a; reflexivity|].
  split; [rewrite Hto_b; reflexivity|].
  split.
  - repeat constructor; cbn [Tool.nd_data Tool.getitem].
    + rewrite Htype_a. reflexivity.
    + unfold Tool.get_actor_name_for_node. cbn [Tool.getitem].
      rewrite Hextra_a. cbn [mbind Tool.py_result_bind Tool.getitem].
      rewrite Hname_a. reflexivity.
    + rewrite Htype_b. reflexivity.
    + unfold Tool.get_actor_name_for_node. cbn [Tool.getitem].
      rewrite Hextra_b. cbn [mbind Tool.py_result_bind Tool.getitem].
      rewrite Hname_b. reflexivity.
  - split; eexists; split; try eassumption; reflexivity.
Qed.

(** How a door is opened is set by the type of the actor and the side
    of the room.  For a type in the table of weaknesses nothing is
    printed, both nodes are doors, the node of the room at the left has
    the first weakness of the entry and the node of the room at the
    right the second.  For any other type one line is printed and both
    nodes stay docks of type "other" with a weakness that is not
    determined. *)
Theorem door_weakness_follows_the_side_of_its_room :
  forall (details : ActorDetails)
         (node_data_for_area : list (string * list (string * NodeDefinition)))
         (world : json) (doors : list NodeDefinition) (printed : list string),
    create_door_nodes_for_actor details node_data_for_area world
      = Tool.Returns (doors, printed) ->
    match dict_get Tool._weakness_table_for_def
            (Tool.actor_type number details) with
    | Some (left_weakness, right_weakness) =>
        printed = []
        /\ exists room_a room_b left right door_left door_right,
             Tool.rooms number details = [room_a; room_b]
             /\ _find_room_orientation world room_a room_b
                = Tool.Returns (left, right)
             /\ doors !! left = Some door_left
             /\ doors !! right = Some door_right
             /\ getitem (Tool.nd_data number door_left) "dock_type"
                = Tool.Returns (Tool.JStr "door")
             /\ getitem (Tool.nd_data number door_left) "dock_weakness"
                = Tool.Returns (Tool.JStr left_weakness)
             /\ getitem (Tool.nd_data number door_right) "dock_type"
                = Tool.Returns (Tool.JStr "door")
             /\ getitem (Tool.nd_data number door_right) "dock_weakness"
                = Tool.Returns (Tool.JStr right_weakness)
    | None =>
        printed = ["no weakness for " +:+ Tool.actor_type number details
                   +:+ " without shields"]
        /\ Forall (fun door =>
                     getitem (Tool.nd_data number door) "dock_type"
                       = Tool.Returns (Tool.JStr "other")
                     /\ getitem (Tool.nd_data number door) "dock_weakness"
                        = Tool.Returns (Tool.JStr "Not Determined"))
                  doors
    end.
Proof.
  intros details node_data_for_area world doors printed H.
  destruct (create_door_nodes_inv _ _ _ _ _ H)
    as (room_a & room_b & left & right & template_a & template_b & d_a & d_b
        & e_a & e_b & world_name & w_a & w_b & Hrooms & Hside & _ & _
        & _ & -> & _ & _ & _ & _ & _ & _ & _ & _ & Hweak & Hw_a & Hw_b).
  destruct (dict_get Tool._weakness_table_for_def
              (Tool.actor_type number details)) as [[lw rw]|].
  - destruct Hweak as [-> Hweak]. split; [reflexivity|].
    exists room_a, room_b, left, right.
    destruct (find_room_orientation_sides _ _ _ _ _ Hside) as [[-> ->]|[-> ->]];
      injection Hweak as -> ->; destruct Hw_a as [Ha1 Ha2];
      destruct Hw_b as [Hb1 Hb2]; eexists _, _;
      (split; [exact Hrooms|]); (split; [exact Hside|]);
      (split; [reflexivity|]); (split; [reflexivity|]);
      cbn [Tool.nd_data Tool.getitem];
      rewrite Ha1, Ha2, Hb1, Hb2; auto.
  - destruct Hweak as (-> & -> & ->). split; [reflexivity|].
    destruct Hw_a as [Ha1 Ha2]. destruct Hw_b as [Hb1 Hb2].
    repeat constructor; cbn [Tool.nd_data Tool.getitem];
      rewrite ?Ha1, ?Ha2, ?Hb1, ?Hb2; reflexivity.
Qed.

(** A generic template does not take the place of a node that has a
    type: when the actor has a node that is not generic, the node comes
    back under its name with all its entries, its type among them; only
    the coordinates are those of the actor now, and in the extra
    entries the actor name, the actor type and a layer other than the
    default one.  An old node without a type makes the call fail with a
    key error. *)
Theorem generic_template_keeps_a_typed_node :
  forall (self : ActorDetails) (default_name : string)
         (existing_data : option (list (string * NodeDefinition)))
         (old : NodeDefinition) (od : list (string * json)),
    existing_data ≫= (fun d => dict_get d (Tool.name number self)) = Some old ->
    Tool.nd_data number old = Tool.JDict od ->
    (forall old_type oe,
       dict_get od "node_type" = Some old_type ->
       old_type <> Tool.JStr "generic" ->
       dict_get od "extra" = Some (Tool.JDict oe) ->
       exists d e,
         create_node_template self "generic" default_name existing_data
           = Tool.Returns {| Tool.nd_name := Tool.nd_name number old;
                             Tool.nd_data := Tool.JDict d |}
         /\ (forall k, k <> "coordinates" -> k <> "extra" ->
                       dict_get d k = dict_get od k)
         /\ dict_get d "coordinates"
            = Some (Tool.JDict
                      [ ("x", Tool.JNum (Tool.actor_x number (Tool.actor number self)));
                        ("y", Tool.JNum (Tool.actor_y number (Tool.actor number self)));
                        ("z", Tool.JNum (Tool.actor_z number (Tool.actor number self))) ])
         /\ dict_get d "extra" = Some (Tool.JDict e)
         /\ dict_get e "actor_name" = Some (Tool.JStr (Tool.name number self))
         /\ dict_get e "actor_type"
            = Some (Tool.JStr (Tool.actor_type_field number
                                 (Tool.actor number self)))
         /\ (Tool.actor_layer number self <> "default" ->
             dict_get e "actor_layer"
             = Some (Tool.JStr (Tool.actor_layer number self)))
         /\ (forall k, k <> "actor_name" -> k <> "actor_type" ->
                       k <> "actor_layer" -> dict_get e k = dict_get oe k))
    /\ (dict_get od "node_type" = None ->
        create_node_template self "generic" default_name existing_data
          = Tool.Raises (Tool.KeyError (Some "node_type"))).
Proof.
  intros self default_name existing_data old od Hold Hod. split.
  - intros old_type oe Htype Hne Hextra.
    assert (Hreplaces : match old_type with
                        | Tool.JStr t => negb (String.eqb t "generic")
                        | _ => true
                        end = true).
    { destruct old_type as [| | |t| |]; try reflexivity.
      apply negb_true_iff, String.eqb_neq. intros ->. apply Hne. reflexivity. }
    unfold Tool.create_node_template. rewrite Hold, Hod.
    destruct (String.eqb (Tool.actor_layer number self) "default") eqn:Hlayer.
    all: py_cbn; rewrite Htype; py_cbn; rewrite Hreplaces; py_cbn.
    all: rewrite dict_get_set; py_cbn; rewrite Hextra; py_cbn.
    all: unfold Tool.dict_update; cbn [fold_left fst snd].
    all: eexists _, _; split; [reflexivity|].
    all: split;
      [intros k Hk1 Hk2; apply String.eqb_neq in Hk1, Hk2;
       rewrite !dict_get_set, Hk1, Hk2; reflexivity|].
    all: split; [rewrite !dict_get_set; reflexivity|].
    all: split; [rewrite !dict_get_set; reflexivity|].
    all: split;
      [rewrite !dict_get_set; cbn [String.eqb Ascii.eqb Bool.eqb]; reflexivity|].
    all: split;
      [rewrite !dict_get_set; cbn [String.eqb Ascii.eqb Bool.eqb]; reflexivity|].
    all: split.
    1,3: intros Hl; apply String.eqb_neq in Hl; try congruence.
    1: rewrite !dict_get_set; reflexivity.
    all: intros k Hk1 Hk2 Hk3; apply String.eqb_neq in Hk1, Hk2, Hk3;
      rewrite !dict_get_set, ?Hk1, ?Hk2, ?Hk3; reflexivity.
  - intros Hnone. unfold Tool.create_node_template. rewrite Hold, Hod.
    destruct (String.eqb (Tool.actor_layer number self) "default").
    all: py_cbn; rewrite Hnone; reflexivity.
Qed.

(** The table of area names that comes back with the index holds what
    was given and what the database says: a name in it was in the table
    given, or is the name of an area of the world whose asset id is the
    key. *)
Theorem area_names_come_from_the_table_or_the_database :
  forall (world : json) (area_names names : list (string * string))
         (index : list (string * list (string * NodeDefinition)))
         (asset_id area_name : string),
    _get_existing_node_data world area_names = Tool.Returns (index, names) ->
    dict_get names asset_id = Some area_name ->
    dict_get area_names asset_id = Some area_name
    \/ exists areas area_data extra,
         getitem world "areas" = Tool.Returns (Tool.JDict areas)
         /\ (area_name, area_data) ∈ areas
         /\ getitem area_data "extra" = Tool.Returns extra
         /\ getitem extra "asset_id" = Tool.Returns (Tool.JStr asset_id).
Proof.
  intros world area_names names index asset_id area_name H Hget.
  unfold Tool._get_existing_node_data in H.
  apply py_bind_Returns in H as (areas & Hareas & H).
  apply py_bind_Returns in H as (entries & Hentries & H).
  destruct areas as [| | | | |ad]; try discriminate Hentries.
  injection Hentries as <-.
  assert (Hinv : forall (todo : list (string * json)) idx given,
             Tool.index_areas number todo idx given = Tool.Returns (index, names) ->
             (forall x, x ∈ todo -> x ∈ ad) ->
             dict_get given asset_id = Some area_name
             \/ exists area_data extra,
                  (area_name, area_data) ∈ ad
                  /\ getitem area_data "extra" = Tool.Returns extra
                  /\ getitem extra "asset_id" = Tool.Returns (Tool.JStr asset_id)).
  { clear H. induction todo as [|[name0 data0] todo IH]; intros idx given H Hsub.
    - injection H as _ <-. auto.
    - cbn [Tool.index_areas] in H.
      apply py_bind_Returns in H as (extra & Hextra & H).
      apply py_bind_Returns in H as (has_id & Hhas & H).
      assert (Hsub' : forall x, x ∈ todo -> x ∈ ad).
      { intros x Hx. apply Hsub, elem_of_cons. auto. }
      destruct has_id; [|apply (IH _ _ H Hsub')].
      apply py_bind_Returns in H as (id & Hid & H).
      apply py_bind_Returns in H as (key & Hkey & H).
      apply py_bind_Returns in H as (nodes & Hnodes & H).
      apply py_bind_Returns in H as (node_entries & Hentries & H).
      apply py_bind_Returns in H as (indexed & Hindexed & H).
      apply as_key_Returns in Hkey. subst id.
      destruct (IH _ _ H Hsub') as [Hgiven|Hfound]; [|auto].
      rewrite dict_get_set in Hgiven.
      destruct (String.eqb asset_id key) eqn:E; [|auto].
      apply String.eqb_eq in E. subst key. injection Hgiven as <-.
      right. exists data0, extra.
      split; [apply Hsub, elem_of_cons; auto|]. auto. }
  destruct (Hinv ad [] area_names H) as [Hgiven|(area_data & extra & Hfound)];
    [auto | auto |].
  right. exists ad, area_data, extra. tauto.
Qed.

Lemma elem_of_dict_set_key {A} (d : list (string * A)) k v x :
  x ∈ (Tool.dict_set d k v).*1 -> x = k \/ x ∈ d.*1.
Proof.
  intros H. apply list_elem_of_fmap in H as ([n y] & -> & H).
  apply elem_of_dict_set in H as [[-> _]|H]; [auto|].
  right. apply list_elem_of_fmap. exists (n, y). auto.
Qed.

Lemma dict_set_NoDup {A} (d : list (string * A)) k v :
  NoDup d.*1 -> NoDup (Tool.dict_set d k v).*1.
Proof.
  induction d as [|[k0 v0] d IH]; simpl; intros H.
  - apply NoDup_singleton.
  - apply NoDup_cons in H as [Hnotin Hd].
    destruct (String.eqb k k0) eqn:E; simpl.
    + apply NoDup_cons. auto.
    + apply NoDup_cons. split; [|auto].
      intros Hin. apply elem_of_dict_set_key in Hin as [->|Hin]; [|auto].
      rewrite String.eqb_refl in E. discriminate.
Qed.

Lemma check_no_conflict_passes (nodes : list (string * json))
    (node_def : NodeDefinition) (actor target_area : string) :
  (forall n node,
     (n, node) ∈ nodes -> n <> Tool.nd_name number node_def ->
     exists s, get_actor_name_for_node node = Tool.Returns (Tool.JStr s)
               /\ s <> actor) ->
  Tool.check_no_conflict number nodes node_def (Tool.JStr actor) target_area
    = Tool.Returns tt.
Proof.
  induction nodes as [|[n0 node0] nodes IH]; intros H; [reflexivity|].
  cbn [Tool.check_no_conflict].
  assert (IH' : Tool.check_no_conflict number nodes node_def
                  (Tool.JStr actor) target_area = Tool.Returns tt).
  { apply IH. intros n node Hin. apply H, elem_of_cons. auto. }
  destruct (String.eqb n0 (Tool.nd_name number node_def)) eqn:E; [exact IH'|].
  apply String.eqb_neq in E.
  destruct (H n0 node0) as (s & Hs & Hne); [apply elem_of_cons; auto | exact E |].
  rewrite Hs. cbn [mbind Tool.py_result_bind Tool.py_eq].
  apply String.eqb_neq in Hne. rewrite Hne. exact IH'.
Qed.

(** Exporting an actor into an area that holds one node for an actor
    never conflicts.  When what is known of the existing nodes agrees
    with the area on the actor, the template built for the actor is
    accepted by the area: it takes the place of the actor's node or of
    the node under the default name, or is added, and the area still
    holds one node for an actor. *)
Theorem export_of_an_actor_does_not_conflict :
  forall (world areas area : json) (nodes : list (string * json))
         (room : string)
         (existing_data : option (list (string * NodeDefinition)))
         (self : ActorDetails) (node_type default_name : string)
         (nd : NodeDefinition),
    getitem world "areas" = Tool.Returns areas ->
    getitem areas room = Tool.Returns area ->
    getitem area "nodes" = Tool.Returns (Tool.JDict nodes) ->
    one_node_per_actor nodes ->
    index_agrees existing_data (Tool.name number self) nodes ->
    create_node_template self node_type default_name existing_data
      = Tool.Returns nd ->
    exists world' areas' area',
      add_node world room nd = Tool.Returns world'
      /\ getitem world' "areas" = Tool.Returns (Tool.JDict areas')
      /\ dict_get areas' room = Some (Tool.JDict area')
      /\ dict_get area' "nodes"
         = Some (Tool.JDict (Tool.dict_set nodes (Tool.nd_name number nd)
                               (Tool.nd_data number nd)))
      /\ one_node_per_actor (Tool.dict_set nodes (Tool.nd_name number nd)
                               (Tool.nd_data number nd)).
Proof.
  intros world areas area nodes room existing_data self node_type default_name
         nd Hareas Harea Hnodes (Hnodup & Hstr & Hinj) Hagree Hcreate.
  destruct (create_node_template_Returns _ _ _ _ _ Hcreate) as [Hfiled Hname].
  assert (Hothers : forall n node,
             (n, node) ∈ nodes -> n <> Tool.nd_name number nd ->
             exists s, get_actor_name_for_node node = Tool.Returns (Tool.JStr s)
                       /\ s <> Tool.name number self).
  { intros n node Hin Hne. destruct (Hstr _ _ Hin) as [s Hs].
    exists s. split; [exact Hs|]. intros ->.
    unfold index_agrees in Hagree.
    destruct (existing_data ≫= _) as [old|].
    - destruct Hagree as [Hold_in Hold_actor]. rewrite Hname in Hne.
      apply Hne. apply (Hinj _ _ _ _ _ Hin Hold_in Hs Hold_actor).
    - apply (Hagree _ _ Hin Hs). }
  pose proof (check_no_conflict_passes nodes nd (Tool.name number self) room
                Hothers) as Hcheck.
  destruct area as [| | | | |ad]; try discriminate Hnodes.
  destruct areas as [| | | | |as_]; try discriminate Harea.
  destruct world as [| | | | |wd]; try discriminate Hareas.
  unfold Tool.add_node. rewrite Hfiled. cbn [mbind Tool.py_result_bind].
  rewrite Hareas. cbn [mbind Tool.py_result_bind].
  rewrite Harea. cbn [mbind Tool.py_result_bind].
  rewrite Hnodes. cbn [mbind Tool.py_result_bind Tool.items].
  rewrite Hcheck. cbn [mbind Tool.py_result_bind Tool.setitem].
  eexists _, _, _. split; [reflexivity|].
  split; [cbn [Tool.getitem]; rewrite dict_get_set; reflexivity|].
  split; [rewrite dict_get_set, String.eqb_refl; reflexivity|].
  split; [rewrite dict_get_set; reflexivity|].
  split; [apply dict_set_NoDup, Hnodup|]. split.
  - intros n node Hin. apply elem_of_dict_set in Hin as [[_ ->]|Hin].
    + eauto.
    + apply (Hstr _ _ Hin).
  - intros n1 x1 n2 x2 a H1 H2 Ha1 Ha2.
    apply elem_of_dict_set in H1 as [[-> ->]|H1];
      apply elem_of_dict_set in H2 as [[-> ->]|H2].
    + reflexivity.
    + destruct (decide (n2 = Tool.nd_name number nd)) as [->|Hne];
        [reflexivity|].
      destruct (Hothers _ _ H2 Hne) as (s & Hs & Hdiff).
      rewrite Hfiled in Ha1. injection Ha1 as <-.
      rewrite Hs in Ha2. injection Ha2 as ->. contradiction.
    + destruct (decide (n1 = Tool.nd_name number nd)) as [->|Hne];
        [reflexivity|].
      destruct (Hothers _ _ H1 Hne) as (s & Hs & Hdiff).
      rewrite Hfiled in Ha2. injection Ha2 as <-.
      rewrite Hs in Ha1. injection Ha1 as ->. contradiction.
    + apply (Hinj _ _ _ _ _ H1 H2 Ha1 Ha2).
Qed.

Lemma index_nodes_keeps (nodes : list (string * json))
    (acc r : list (string * NodeDefinition)) (actor : string) :
  Tool.index_nodes number nodes acc = Tool.Returns r ->
  is_Some (dict_get acc actor) -> is_Some (dict_get r actor).
Proof.
  revert acc. induction nodes as [|[n node] nodes IH]; intros acc H Hacc.
  - injection H as <-. exact Hacc.
  - cbn [Tool.index_nodes] in H.
    apply py_bind_Returns in H as (actor_name & Hactor & H).
    apply py_bind_Returns in H as (key & Hkey & H).
    apply (IH _ H). rewrite dict_get_set.
    destruct (String.eqb actor key); [eauto | exact Hacc].
Qed.

Lemma index_nodes_complete (nodes : list (string * json))
    (acc r : list (string * NodeDefinition)) (actor : string) :
  Tool.index_nodes number nodes acc = Tool.Returns r ->
  dict_get r actor = None ->
  forall n node,
    (n, node) ∈ nodes ->
    get_actor_name_for_node node <> Tool.Returns (Tool.JStr actor).
Proof.
  revert acc. induction nodes as [|[n0 node0] nodes IH];
    intros acc H Hnone n node Hin Hactor.
  - apply elem_of_nil in Hin as [].
  - cbn [Tool.index_nodes] in H.
    apply py_bind_Returns in H as (actor_name & Hname & H).
    apply py_bind_Returns in H as (key & Hkey & H).
    apply elem_of_cons in Hin as [Hin|Hin].
    + injection Hin as -> ->. rewrite Hactor in Hname.
      injection Hname as <-. injection Hkey as <-.
      destruct (index_nodes_keeps _ _ _ actor H) as [x Hx].
      * rewrite dict_get_set, String.eqb_refl. eauto.
      * rewrite Hx in Hnone. discriminate Hnone.
    + apply (IH _ H Hnone _ _ Hin Hactor).
Qed.

Lemma index_areas_passes_by (areas : list (string * json))
    (idx r : list (string * list (string * NodeDefinition)))
    (names names' : list (string * string)) (room : string) :
  Tool.index_areas number areas idx names = Tool.Returns (r, names') ->
  room ∉ areas.*1 -> dict_get r room = dict_get idx room.
Proof.
  revert idx names.
  induction areas as [|[area_name area_data] areas IH]; intros idx names H Hnot.
  - injection H as <- _. reflexivity.
  - cbn [Tool.index_areas] in H. rewrite fmap_cons in Hnot.
    apply not_elem_of_cons in Hnot as [Hne Hnot].
    apply py_bind_Returns in H as (extra & Hextra & H).
    apply py_bind_Returns in H as (has_id & Hhas & H).
    destruct has_id; [|apply (IH _ _ H Hnot)].
    apply py_bind_Returns in H as (asset_id & Hid & H).
    apply py_bind_Returns in H as (key & Hkey & H).
    apply py_bind_Returns in H as (nodes & Hnodes & H).
    apply py_bind_Returns in H as (entries & Hentries & H).
    apply py_bind_Returns in H as (indexed & Hindexed & H).
    rewrite (IH _ _ H Hnot), dict_get_set.
    apply String.eqb_neq in Hne. cbn [fst] in Hne. rewrite Hne. reflexivity.
Qed.

Lemma index_areas_finds (areas : list (string * json))
    (idx r : list (string * list (string * NodeDefinition)))
    (names names' : list (string * string)) (room : string)
    (area extra : json) (nodes : list (string * json)) :
  Tool.index_areas number areas idx names = Tool.Returns (r, names') ->
  NoDup areas.*1 ->
  (room, area) ∈ areas ->
  getitem area "extra" = Tool.Returns extra ->
  Tool.contains number "asset_id" extra = Tool.Returns true ->
  getitem area "nodes" = Tool.Returns (Tool.JDict nodes) ->
  exists by_actor,
    dict_get r room = Some by_actor
    /\ Tool.index_nodes number nodes [] = Tool.Returns by_actor.
Proof.
  revert idx names.
  induction areas as [|[area_name area_data] areas IH];
    intros idx names H Hnodup Hin Hextra Hhas Hnodes.
  - apply elem_of_nil in Hin as [].
  - cbn [Tool.index_areas] in H. rewrite fmap_cons in Hnodup.
    apply NoDup_cons in Hnodup as [Hnotin Hnodup]. cbn [fst] in Hnotin.
    apply elem_of_cons in Hin as [Hin|Hin].
    + injection Hin as <- <-.
      rewrite Hextra in H. cbn [mbind Tool.py_result_bind] in H.
      rewrite Hhas in H. cbn [mbind Tool.py_result_bind] in H.
      apply py_bind_Returns in H as (asset_id & Hid & H).
      apply py_bind_Returns in H as (key & Hkey & H).
      rewrite Hnodes in H. cbn [mbind Tool.py_result_bind Tool.items] in H.
      apply py_bind_Returns in H as (indexed & Hindexed & H).
      exists indexed. split; [|exact Hindexed].
      rewrite (index_areas_passes_by _ _ _ _ _ _ H Hnotin), dict_get_set.
      rewrite String.eqb_refl. reflexivity.
    + apply py_bind_Returns in H as (extra0 & Hextra0 & H).
      apply py_bind_Returns in H as (has_id & Hhas0 & H).
      destruct has_id; [|apply (IH _ _ H Hnodup Hin Hextra Hhas Hnodes)].
      apply py_bind_Returns in H as (asset_id & Hid & H).
      apply py_bind_Returns in H as (key & Hkey & H).
      apply py_bind_Returns in H as (nodes0 & Hnodes0 & H).
      apply py_bind_Returns in H as (entries & Hentries & H).
      apply py_bind_Returns in H as (indexed & Hindexed & H).
      apply (IH _ _ H Hnodup Hin Hextra Hhas Hnodes).
Qed.

(** The index read from a database agrees with the database: for an
    area of the world that has an asset id, and every actor, a node the
    index holds for the actor in the area is a node of the area that
    belongs to the actor, and when the index holds none the area has no
    node of the actor. *)
Theorem fresh_index_agrees_with_the_database :
  forall (world : json) (area_names names : list (string * string))
         (index : list (string * list (string * NodeDefinition)))
         (areas : list (string * json)) (room : string) (area extra : json)
         (nodes : list (string * json)) (actor : string),
    _get_existing_node_data world area_names = Tool.Returns (index, names) ->
    getitem world "areas" = Tool.Returns (Tool.JDict areas) ->
    NoDup areas.*1 ->
    dict_get areas room = Some area ->
    getitem area "extra" = Tool.Returns extra ->
    Tool.contains number "asset_id" extra = Tool.Returns true ->
    getitem area "nodes" = Tool.Returns (Tool.JDict nodes) ->
    index_agrees (dict_get index room) actor nodes.
Proof.
  intros world area_names names index areas room area extra nodes actor
         H Hareas Hnodup Harea Hextra Hhas Hnodes.
  unfold Tool._get_existing_node_data in H. rewrite Hareas in H.
  cbn [mbind Tool.py_result_bind Tool.items] in H.
  destruct (index_areas_finds _ _ _ _ _ room area extra nodes H Hnodup)
    as (by_actor & Hroom & Hindexed);
    [apply dict_get_elem_of_pair, Harea | exact Hextra | exact Hhas
     | exact Hnodes |].
  unfold index_agrees. rewrite Hroom. cbn [mbind option_bind].
  destruct (dict_get by_actor actor) as [old|] eqn:Hold.
  - destruct (index_nodes_sound nodes nodes [] by_actor Hindexed) with
      (actor := actor) (nd := old) as [Hfiled Hin];
      [auto | intros ? ? Hnone; discriminate Hnone | exact Hold |].
    auto.
  - apply (index_nodes_complete _ _ _ _ Hindexed Hold).
Qed.

End ToolProperties.

(** ** The properties of the exporter on the example data *)

Lemma world_file_name_witness :
  Tool.current_world_file_name
    (Some "maps/levels/c10_samus/s033_area3b/s033_area3b.bmsld")
  = Tool.Returns "Area 3 - Interior Lower.json".
Proof.
  pose proof (proj1 world_file_name_keeps_letters_digits_hyphens_spaces
                "maps/levels/c10_samus/s033_area3b/s033_area3b.bmsld"
                "Area 3 - Interior (Lower)" eq_refl) as H.
  cbv zeta in H. exact (proj1 H).
Defined.

Lemma actor_kinds_exclude_one_another_witness :
  Tool.is_door Z ToolExamples.door_details = true
  /\ Tool.is_pickup Z ToolExamples.door_details = false
  /\ Tool.is_usable Z ToolExamples.door_details = false.
Proof.
  split; [reflexivity|].
  apply (proj1 (actor_kinds_exclude_one_another Z "Door002"
                  ToolExamples.door_actor ["West"; "East"] "default")).
  reflexivity.
Defined.

Lemma new_node_template_is_always_built_witness :
  exists data,
    Tool.create_node_template Z ToolExamples.door_details "dock"
      "Door (Door002)" (Some [])
    = Tool.Returns {| Tool.nd_name := "Door (Door002)"; Tool.nd_data := data |}
    /\ Tool.getitem Z data "connections" = Tool.Returns (Tool.JDict []).
Proof.
  destruct (new_node_template_is_always_built Z ToolExamples.door_details
              "dock" "Door (Door002)" (Some []) eq_refl)
    as (data & Hrun & _ & _ & _ & Hconnections & _).
  exists data. split; [exact Hrun | exact Hconnections].
Defined.

Lemma node_template_is_filed_under_its_actor_witness :
  exists nd,
    Tool.create_node_template Z ToolExamples.door_details "generic"
      "Door (Door002)" (Some ToolExamples.existing_west) = Tool.Returns nd
    /\ Tool.get_actor_name_for_node Z (Tool.nd_data Z nd)
       = Tool.Returns (Tool.JStr "Door002").
Proof.
  eexists. split; [reflexivity|].
  apply (node_template_is_filed_under_its_actor Z ToolExamples.door_details
           "generic" "Door (Door002)" (Some ToolExamples.existing_west)).
  reflexivity.
Defined.

Lemma kept_node_carries_over_what_was_edited_witness :
  exists data extra,
    Tool.create_node_template Z ToolExamples.door_details "dock"
      "Door (Door002)" (Some ToolExamples.existing_west)
    = Tool.Returns {| Tool.nd_name := "Door to East"; Tool.nd_data := data |}
    /\ Tool.getitem Z data "heal" = Tool.Returns (Tool.JBool true)
    /\ Tool.getitem Z data "extra" = Tool.Returns (Tool.JDict extra)
    /\ dict_get extra "actor_type" = Some (Tool.JStr "doorpowerclosed")
    /\ dict_get extra "note" = Some (Tool.JStr "by hand").
Proof.
  destruct (proj1 (kept_node_carries_over_what_was_edited Z
                     ToolExamples.door_details "dock" "Door (Door002)"
                     (Some ToolExamples.existing_west) ToolExamples.old_node _
                     ltac:(intros H; discriminate H) eq_refl eq_refl)
              _ _ _ _ eq_refl eq_refl eq_refl eq_refl)
    as (data & extra & Hrun & _ & Hheal & _ & _ & Hextra & _ & Htype & Hrest).
  exists data, extra. split; [exact Hrun|]. split; [exact Hheal|].
  split; [exact Hextra|]. split; [exact Htype|].
  rewrite Hrest by discriminate. reflexivity.
Defined.

Lemma generic_template_keeps_a_typed_node_witness :
  exists d,
    Tool.create_node_template Z ToolExamples.door_details "generic"
      "Door (Door002)" (Some ToolExamples.existing_west)
    = Tool.Returns {| Tool.nd_name := "Door to East";
                      Tool.nd_data := Tool.JDict d |}
    /\ dict_get d "node_type" = Some (Tool.JStr "dock")
    /\ dict_get d "heal" = Some (Tool.JBool true).
Proof.
  destruct (proj1 (generic_template_keeps_a_typed_node Z
                     ToolExamples.door_details "Door (Door002)"
                     (Some ToolExamples.existing_west) ToolExamples.old_node _
                     eq_refl eq_refl)
              (Tool.JStr "dock") _ eq_refl
              ltac:(intros H; discriminate H) eq_refl)
    as (d & e & Hrun & Hsame & _).
  exists d. split; [exact Hrun|].
  split; rewrite Hsame by discriminate; reflexivity.
Defined.

Lemma room_orientation_swaps_with_its_arguments_witness :
  Tool._find_room_orientation Z Z.add ToolExamples.half Z.ltb
    ToolExamples.world "West" "East" = Tool.Returns (0, 1)%nat
  /\ Tool._find_room_orientation Z Z.add ToolExamples.half Z.ltb
       ToolExamples.world "East" "West" = Tool.Returns (1, 0)%nat.
Proof.
  split; [reflexivity|].
  apply (proj1 (room_orientation_swaps_with_its_arguments Z Z.add
                  ToolExamples.half Z.ltb
                  ltac:(intros a b H; apply Z.ltb_lt in H; apply Z.ltb_ge; lia)
                  ToolExamples.world "West" "East") 0%nat 1%nat).
  reflexivity.
Defined.

Lemma added_node_is_the_only_one_of_its_actor_witness :
  exists world' areas' area' nodes',
    Tool.add_node Z ToolExamples.world "East" ToolExamples.door_to_west
      = Tool.Returns world'
    /\ Tool.getitem Z world' "areas" = Tool.Returns (Tool.JDict areas')
    /\ dict_get areas' "East" = Some (Tool.JDict area')
    /\ dict_get area' "nodes" = Some (Tool.JDict nodes')
    /\ dict_get nodes' "Door to West"
       = Some (Tool.nd_data Z ToolExamples.door_to_west).
Proof.
  eexists.
  destruct (added_node_is_the_only_one_of_its_actor Z ToolExamples.world _
              "East" ToolExamples.door_to_west eq_refl)
    as (areas' & area' & nodes' & new_actor & H1 & H2 & H3 & H4 & _).
  exists areas', area', nodes'.
  split; [reflexivity|]. split; [exact H1|]. split; [exact H2|].
  split; [exact H3 | exact H4].
Defined.

Lemma second_node_of_an_actor_is_refused_witness :
  exists message,
    Tool.add_node Z ToolExamples.world "West" ToolExamples.another_door
      = Tool.Raises (Tool.ValueError message).
Proof.
  apply (second_node_of_an_actor_is_refused Z ToolExamples.world
           (Tool.JDict [ ("West", ToolExamples.west);
                         ("East", ToolExamples.east) ])
           ToolExamples.west
           [ ("Door to East", ToolExamples.old_door) ]
           "West" ToolExamples.another_door "Door002"
           "Door to East" ToolExamples.old_door).
  - reflexivity.
  - reflexivity.
  - reflexivity.
  - reflexivity.
  - intros n' node' Hin. apply list_elem_of_singleton in Hin.
    injection Hin as -> ->. eexists. reflexivity.
  - apply list_elem_of_singleton. reflexivity.
  - discriminate.
  - reflexivity.
Defined.

Lemma existing_node_index_is_sound_witness :
  exists areas area_data nodes,
    Tool.getitem Z ToolExamples.world "areas" = Tool.Returns (Tool.JDict areas)
    /\ ("West", area_data) ∈ areas
    /\ Tool.getitem Z area_data "nodes" = Tool.Returns (Tool.JDict nodes)
    /\ ("Door to East", ToolExamples.old_door) ∈ nodes.
Proof.
  destruct (existing_node_index_is_sound Z ToolExamples.world []
              [ ("camera_west", "West"); ("camera_east", "East") ]
              ToolExamples.existing_nodes "West" "Door002"
              ToolExamples.existing_west ToolExamples.old_node
              eq_refl eq_refl eq_refl)
    as (areas & area_data & extra & nodes & H1 & H2 & _ & _ & H3 & H4 & _).
  exists areas, area_data, nodes. auto.
Defined.

Lemma area_names_come_from_the_table_or_the_database_witness :
  exists areas area_data extra,
    Tool.getitem Z ToolExamples.world "areas" = Tool.Returns (Tool.JDict areas)
    /\ ("West", area_data) ∈ areas
    /\ Tool.getitem Z area_data "extra" = Tool.Returns extra
    /\ Tool.getitem Z extra "asset_id" = Tool.Returns (Tool.JStr "camera_west").
Proof.
  destruct (area_names_come_from_the_table_or_the_database Z
              ToolExamples.world []
              [ ("camera_west", "West"); ("camera_east", "East") ]
              ToolExamples.existing_nodes "camera_west" "West"
              eq_refl eq_refl) as [H|H]; [discriminate H | exact H].
Defined.

Lemma door_nodes_lead_to_each_other_witness :
  exists door_a door_b,
    Tool.create_door_nodes_for_actor Z Z.add ToolExamples.half Z.ltb
      ToolExamples.door_details ToolExamples.existing_nodes ToolExamples.world
    = Tool.Returns ([door_a; door_b], [])
    /\ Tool.nd_name Z door_a = "Door to East"
    /\ Tool.nd_name Z door_b = "Door (Door002)"
    /\ Tool.getitem Z (Tool.nd_data Z door_a) "destination"
       = Tool.Returns
           (Tool.JDict [ ("world_name", Tool.JStr "Area 1");
                         ("area_name", Tool.JStr "East");
                         ("node_name", Tool.JStr (Tool.nd_name Z door_b)) ]).
Proof.
  eexists _, _. split; [reflexivity|].
  split; [reflexivity|]. split; [reflexivity|].
  edestruct (door_nodes_lead_to_each_other Z Z.add ToolExamples.half Z.ltb
               ToolExamples.door_details ToolExamples.existing_nodes
               ToolExamples.world _ _ eq_refl)
    as (room_a & room_b & door_a & door_b & world_name & Hrooms & Hdoors
        & Hworld & Hto & _).
  injection Hrooms as <- <-. injection Hdoors as <- <-.
  injection Hworld as <-. exact Hto.
Defined.

Lemma door_weakness_follows_the_side_of_its_room_witness :
  exists door_left door_right,
    Tool.create_door_nodes_for_actor Z Z.add ToolExamples.half Z.ltb
      ToolExamples.door_details ToolExamples.existing_nodes ToolExamples.world
    = Tool.Returns ([door_left; door_right], [])
    /\ Tool.getitem Z (Tool.nd_data Z door_left) "dock_weakness"
       = Tool.Returns (Tool.JStr "Power Beam Door")
    /\ Tool.getitem Z (Tool.nd_data Z door_right) "dock_weakness"
       = Tool.Returns (Tool.JStr "Access Closed").
Proof.
  eexists _, _. split; [reflexivity|].
  pose proof (door_weakness_follows_the_side_of_its_room Z Z.add
                ToolExamples.half Z.ltb ToolExamples.door_details
                ToolExamples.existing_nodes ToolExamples.world _ _ eq_refl)
    as H.
  destruct H as (_ & room_a & room_b & left & right & door_left & door_right
                 & Hrooms & Hside & Hl & Hr & _ & Hlw & _ & Hrw).
  injection Hrooms as <- <-. injection Hside as <- <-.
  injection Hl as <-. injection Hr as <-.
  split; [exact Hlw | exact Hrw].
Defined.

Lemma export_of_an_actor_does_not_conflict_witness :
  exists world' nd,
    Tool.create_node_template Z ToolExamples.door_details "dock"
      "Door (Door002)" (Some ToolExamples.existing_west) = Tool.Returns nd
    /\ Tool.add_node Z ToolExamples.world "West" nd = Tool.Returns world'.
Proof.
  assert (Hone : one_node_per_actor
                   [ ("Door to East", ToolExamples.old_door) ]).
  { split; [apply (bool_decide_unpack _); vm_compute; exact I|]. split.
    - intros n node Hin. apply list_elem_of_singleton in Hin.
      injection Hin as -> ->. eexists. reflexivity.
    - intros n1 x1 n2 x2 a H1 H2 _ _.
      apply list_elem_of_singleton in H1, H2. congruence. }
  assert (Hagree : index_agrees (Some ToolExamples.existing_west) "Door002"
                     [ ("Door to East", ToolExamples.old_door) ]).
  { split; [apply list_elem_of_singleton; reflexivity | reflexivity]. }
  destruct (export_of_an_actor_does_not_conflict Z ToolExamples.world
              (Tool.JDict [ ("West", ToolExamples.west);
                            ("East", ToolExamples.east) ])
              ToolExamples.west
              [ ("Door to East", ToolExamples.old_door) ] "West"
              (Some ToolExamples.existing_west) ToolExamples.door_details
              "dock" "Door (Door002)" _ eq_refl eq_refl eq_refl Hone Hagree
              eq_refl)
    as (world' & areas' & area' & Hrun & _).
  eexists _, _. split; [reflexivity | exact Hrun].
Defined.

Lemma fresh_index_agrees_with_the_database_witness :
  index_agrees (Some ToolExamples.existing_west) "Door002"
    [ ("Door to East", ToolExamples.old_door) ].
Proof.
  eapply (fresh_index_agrees_with_the_database Z ToolExamples.world []
           [ ("camera_west", "West"); ("camera_east", "East") ]
           ToolExamples.existing_nodes
           [ ("West", ToolExamples.west); ("East", ToolExamples.east) ]
           "West" ToolExamples.west _ _ "Door002").
  - reflexivity.
  - reflexivity.
  - apply (bool_decide_unpack _). vm_compute. exact I.
  - reflexivity.
  - reflexivity.
  - reflexivity.
  - reflexivity.
Defined.
